(** * Lab controller: device drivers and sampling orchestration

    A shallow embedding of the device layer of the lab controller
    ([src/devices/vogtlin_mfc.py], [src/devices/dewmaster.py],
    [src/devices/controller.py]) together with the properties of its
    register codec, its telemetry-line parser and its monitoring loop.

    Python code that can raise is embedded in the [result] monad below;
    code that touches the outside world takes the state of the laboratory
    ([lab]) as an explicit argument and, when it changes it, returns the
    new one. *)

From Stdlib Require Import ZArith QArith Lqa Lia List String Ascii Bool.
From stdpp Require Import base gmap strings list pretty.

Local Open Scope string_scope.
Local Open Scope Z_scope.

(** ** Python exceptions, values and effectful computations *)

Module Py.

(** The exception classes the modelled code can meet.  [IOError] stands for
    [serial.SerialException] and for the communication errors of
    [minimalmodbus], which all derive from it. *)
Inductive exn : Type :=
  | AttributeError (owner attr : string)
  | TypeError (msg : string)
  | ValueError (msg : string)
  | KeyError (key : string)
  | RuntimeError (msg : string)
  | StructError (msg : string)
  | OverflowError (msg : string)
  | IOError (msg : string)
  | KeyboardInterrupt.

(** [except Exception] catches everything but [KeyboardInterrupt]. *)
Definition is_Exception (e : exn) : bool :=
  match e with KeyboardInterrupt => false | _ => true end.

Definition is_AttributeError (e : exn) : bool :=
  match e with AttributeError _ _ => true | _ => false end.

Inductive result (A : Type) : Type :=
  | Ok (a : A)
  | Raise (e : exn).
Arguments Ok {A} a.
Arguments Raise {A} e.

Definition returns {A : Type} (r : result A) : bool :=
  match r with Ok _ => true | Raise _ => false end.

Definition and_then {A B : Type} (r : result A) (k : A -> result B)
  : result B :=
  match r with
  | Ok a => k a
  | Raise e => Raise e
  end.

(** What [print] writes: one line is a sequence of fragments, a literal
    text, a value rendered by [str], or a float rendered with a fixed number
    of decimals ([{x:.2f}]); the value is kept rather than its digits. *)
Inductive frag (V : Type) : Type :=
  | Txt (s : string)
  | Val (v : V)
  | Fixed (decimals : nat) (v : V).
Arguments Txt {V} s.
Arguments Val {V} v.
Arguments Fixed {V} decimals v.

End Py.
Export Py.

(** ** IEEE-754 data and the [struct] formats the driver uses *)

Module Struct.

(** A binary32 datum by its three fields: sign bit, biased exponent (8 bits)
    and fraction (23 bits).  This is what the two registers of a quantity
    hold. *)
Record binary32 : Type := B32 { sign : bool; expo : Z; frac : Z }.

Definition wf32 (v : binary32) : Prop :=
  0 <= expo v < 256 /\ 0 <= frac v < 2 ^ 23.

Definition wf32b (v : binary32) : bool :=
  (0 <=? expo v) && (expo v <? 256) && (0 <=? frac v) && (frac v <? 2 ^ 23).

Definition is_finite (v : binary32) : bool := expo v <? 255.
Definition is_zero (v : binary32) : bool := (expo v =? 0) && (frac v =? 0).
Definition is_subnormal (v : binary32) : bool :=
  (expo v =? 0) && negb (frac v =? 0).
Definition is_infinite (v : binary32) : bool :=
  (expo v =? 255) && (frac v =? 0).
Definition is_nan (v : binary32) : bool :=
  (expo v =? 255) && negb (frac v =? 0).

(** A NaN is signalling when the top bit of its fraction is clear. *)
Definition is_snan (v : binary32) : bool := is_nan v && (frac v <? 2 ^ 22).

(** The 32-bit pattern of a datum and back. *)
Definition bits_of (v : binary32) : Z :=
  Z.lor (Z.shiftl (if sign v then 1 else 0) 31)
        (Z.lor (Z.shiftl (expo v) 23) (frac v)).

Definition of_bits (b : Z) : binary32 :=
  {| sign := Z.testbit b 31;
     expo := Z.land (Z.shiftr b 23) 255;
     frac := Z.land b (Z.ones 23) |}.

(** A Python float is a binary64 datum: sign bit, biased exponent (11 bits)
    and fraction (52 bits). *)
Record binary64 : Type := B64 { sign64 : bool; expo64 : Z; frac64 : Z }.

Definition wf64 (x : binary64) : Prop :=
  0 <= expo64 x < 2048 /\ 0 <= frac64 x < 2 ^ 52.

Definition is_finite64 (x : binary64) : bool := expo64 x <? 2047.
Definition is_zero64 (x : binary64) : bool :=
  (expo64 x =? 0) && (frac64 x =? 0).
Definition is_nan64 (x : binary64) : bool :=
  (expo64 x =? 2047) && negb (frac64 x =? 0).

(** The rational a finite float denotes (used to read examples). *)
Definition to_Q (x : binary64) : option Q :=
  if is_finite64 x then
    let m := if expo64 x =? 0 then frac64 x else 2 ^ 52 + frac64 x in
    let e := (if expo64 x =? 0 then 1 else expo64 x) - 1075 in
    let mag := if 0 <=? e then inject_Z (m * 2 ^ e)
               else Qmake m (Z.to_pos (2 ^ (- e))) in
    Some (Qred (if sign64 x then Qopp mag else mag))
  else None.

(** The fraction of a binary32 NaN with its quiet bit set: the conversions
    between the two formats never deliver a signalling NaN. *)
Definition quieted (f : Z) : Z := if f <? 2 ^ 22 then f + 2 ^ 22 else f.

(** The C conversion [(double) v], which ['>f'] unpacking ends with: the
    same number in the wider format (a subnormal binary32 is a normal
    binary64); a NaN keeps its sign and payload and comes out quiet, as
    the conversion instructions of the usual processors deliver it. *)
Definition widen (v : binary32) : binary64 :=
  if expo v =? 255 then
    if frac v =? 0 then B64 (sign v) 2047 0
    else B64 (sign v) 2047 (quieted (frac v) * 2 ^ 29)
  else if expo v =? 0 then
    if frac v =? 0 then B64 (sign v) 0 0
    else
      let k := Z.log2 (frac v) in
      B64 (sign v) (k + 874) ((frac v - 2 ^ k) * 2 ^ (52 - k))
  else B64 (sign v) (expo v + 896) (frac v * 2 ^ 29).

(** [m / 2^shift] rounded to the nearest integer, ties to the even one. *)
Definition round_half_even (m shift : Z) : Z :=
  let q := m / 2 ^ shift in
  let r := m mod 2 ^ shift in
  let half := 2 ^ (shift - 1) in
  if r <? half then q
  else if half <? r then q + 1
  else if Z.even q then q else q + 1.

(** The C conversion [(float) x] as ['>f'] packing uses it: a NaN keeps its
    sign and the top of its payload and comes out quiet; a number
    [m * 2^e] is rounded to 24 significant bits, or to a multiple of
    [2^-149] where it is too small for that; [mag] is the exponent field and
    the fraction of the result as one integer, so that a fraction rounded
    up to [2^24] carries into the exponent.  A finite float whose rounding
    is infinite is refused. *)
Definition narrow (x : binary64) : result binary32 :=
  if expo64 x =? 2047 then
    if frac64 x =? 0 then Ok (B32 (sign64 x) 255 0)
    else Ok (B32 (sign64 x) 255 (quieted (frac64 x / 2 ^ 29)))
  else
    let m := if expo64 x =? 0 then frac64 x else 2 ^ 52 + frac64 x in
    let e := (if expo64 x =? 0 then 1 else expo64 x) - 1075 in
    let e' := Z.max (e + Z.log2 m + 1 - 24) (- 149) in
    let mag := (e' + 149) * 2 ^ 23 + round_half_even m (e' - e) in
    if 255 * 2 ^ 23 <=? mag then
      Raise (OverflowError "float too large to pack with f format")
    else Ok (B32 (sign64 x) (mag / 2 ^ 23) (mag mod 2 ^ 23)).

(** The four bytes of a pattern, most significant first. *)
Definition bytes_of (b : Z) : list Z :=
  [ Z.land (Z.shiftr b 24) 255; Z.land (Z.shiftr b 16) 255;
    Z.land (Z.shiftr b 8) 255; Z.land b 255 ].

(** [struct.pack('>f', x)]. *)
Definition pack_f (x : binary64) : result (list Z) :=
  and_then (narrow x) (fun v => Ok (bytes_of (bits_of v))).

(** [struct.unpack('>f', raw)[0]]. *)
Definition unpack_f (raw : list Z) : result binary64 :=
  match raw with
  | [b0; b1; b2; b3] =>
      Ok (widen
            (of_bits (Z.lor (Z.shiftl b0 24)
                        (Z.lor (Z.shiftl b1 16) (Z.lor (Z.shiftl b2 8) b3)))))
  | _ => Raise (StructError "unpack requires a buffer of 4 bytes")
  end.

Definition is_u16 (r : Z) : bool := (0 <=? r) && (r <=? 65535).

(** [struct.pack('>HH', *regs)]: exactly two arguments, each an unsigned
    16-bit integer, each laid out high byte first. *)
Definition pack_HH (regs : list Z) : result (list Z) :=
  match regs with
  | [r0; r1] =>
      if is_u16 r0 && is_u16 r1 then
        Ok [ Z.shiftr r0 8; Z.land r0 255; Z.shiftr r1 8; Z.land r1 255 ]
      else Raise (StructError "'H' format requires 0 <= number <= 65535")
  | _ => Raise (StructError "pack expected 2 items for packing")
  end.

(** [list(struct.unpack('>HH', raw))]. *)
Definition unpack_HH (raw : list Z) : result (list Z) :=
  match raw with
  | [b0; b1; b2; b3] =>
      Ok [ Z.lor (Z.shiftl b0 8) b1; Z.lor (Z.shiftl b2 8) b3 ]
  | _ => Raise (StructError "unpack requires a buffer of 4 bytes")
  end.

End Struct.
Export Struct.

(** ** Python values, console output and the effect monad *)

Module Eff.

(** The runtime values that flow through the controller.  [PyFloat x] is
    a float by its binary64 datum; [PyFloatDec q] is [float(text)] for a
    decimal text denoting the rational [q] (CPython rounds it to the nearest
    binary64; that rounding is not modelled). *)
Inductive pyval : Type :=
  | PyNone
  | PyBool (b : bool)
  | PyInt (n : Z)
  | PyStr (s : string)
  | PyFloat (x : binary64)
  | PyFloatDec (q : Q)
  | PyTime (t : Q).  (* the text [isoformat()] gives for the instant [t] *)

(** Truth value of an object in a condition. *)
Definition truthy (v : pyval) : bool :=
  match v with
  | PyNone => false
  | PyBool b => b
  | PyInt n => negb (n =? 0)
  | PyStr s => match s with EmptyString => false | _ => true end
  | PyFloat x => negb (is_zero64 x)
  | PyFloatDec q => negb (Qeq_bool q 0)
  | PyTime _ => true
  end.

Definition line : Type := list (frag pyval).

(** A computation prints lines and then either returns or raises; what was
    printed before an exception stays printed. *)
Definition M (A : Type) : Type := (list line * result A)%type.

Definition ret {A : Type} (a : A) : M A := ([], Ok a).
Definition raise {A : Type} (e : exn) : M A := ([], Raise e).
Definition lift {A : Type} (r : result A) : M A := ([], r).
Definition print (ln : line) : M unit := ([ln], Ok tt).

Definition bind {A B : Type} (m : M A) (k : A -> M B) : M B :=
  match m with
  | (out, Ok a) => let '(out', r) := k a in ((out ++ out')%list, r)
  | (out, Raise e) => (out, Raise e)
  end.

Definition output {A : Type} (m : M A) : list line := fst m.
Definition outcome {A : Type} (m : M A) : result A := snd m.

(** [f"{v:.Nf}"]: only numbers accept the fixed-point format. *)
Definition format_fixed (decimals : nat) (v : pyval) : result (frag pyval) :=
  match v with
  | PyFloat _ | PyFloatDec _ | PyInt _ | PyBool _ => Ok (Fixed decimals v)
  | PyNone =>
      Raise (TypeError "unsupported format string passed to NoneType.__format__")
  | PyStr _ | PyTime _ =>
      Raise (ValueError "Unknown format code 'f' for object of type 'str'")
  end.

End Eff.
Export Eff.

Declare Scope py_scope.
Delimit Scope py_scope with py.
Notation "x <- m ;; k" := (bind m (fun x => k))
  (at level 100, m at next level, right associativity) : py_scope.
Notation "m ;;; k" := (bind m (fun _ => k))
  (at level 100, right associativity) : py_scope.
Local Open Scope py_scope.

(** ** The laboratory: what is behind the serial ports *)

Module Lab.

(** A Modbus slave: its holding registers, and the fault, if any, that makes
    every request to it fail (no answer within the timeout, CRC error). *)
Record Slave : Type := { fault : option exn; registers : gmap Z Z }.

(** The instrument behind a line-oriented serial port: the fault, if any,
    that makes every operation on the open port fail (a read, a write, the
    clearing of its buffers; [KeyboardInterrupt] stands for the user
    interrupting the operation), and the decoded lines that [readline]
    delivers during one reading window (an empty text is a [readline] that
    timed out). *)
Record LineDevice : Type := { line_fault : option exn; incoming : list string }.

(** What a temperature probe on a port answers to a connection attempt and
    to a temperature request. *)
Record ProbeDevice : Type := {
  connect_answer : result bool;
  temperature_answer : result pyval
}.

Record lab : Type := {
  port_faults : gmap string exn;          (* ports that cannot be opened *)
  slaves : gmap (string * Z) Slave;       (* by port and station address *)
  line_devices : gmap string LineDevice;  (* by port *)
  probes : gmap string ProbeDevice        (* by port *)
}.

End Lab.
Export Lab.

(** ** [minimalmodbus] as the driver uses it *)

Module Minimalmodbus.

Record Serial : Type := {
  baudrate : Z; bytesize : Z; parity : string; stopbits : Z; timeout : Q
}.

Record Instrument : Type := {
  port : string; address : Z; serial : Serial; is_open : bool
}.

(** [minimalmodbus.Instrument(port, address, mode=MODE_RTU)] opens the port
    with the library's default settings. *)
Definition new (l : lab) (p a : pyval) : result Instrument :=
  match p, a with
  | PyStr p, PyInt a =>
      match port_faults l !! p with
      | Some e => Raise e
      | None =>
          Ok {| port := p; address := a; is_open := true;
                serial := {| baudrate := 19200; bytesize := 8; parity := "N";
                             stopbits := 1; timeout := 0.05 |} |}
      end
  | _, _ => Raise (TypeError "port must be a string and address an integer")
  end.

Fixpoint read_range (regs : gmap Z Z) (reg : Z) (count : nat)
  : result (list Z) :=
  match count with
  | O => Ok []
  | S k =>
      match regs !! reg, read_range regs (reg + 1) k with
      | Some v, Ok vs => Ok (v :: vs)
      | None, _ => Raise (IOError "slave reported illegal data address")
      | _, Raise e => Raise e
      end
  end.

Fixpoint write_range (regs : gmap Z Z) (reg : Z) (values : list Z)
  : gmap Z Z :=
  match values with
  | [] => regs
  | v :: vs => write_range (<[reg := v]> regs) (reg + 1) vs
  end.

(** [instrument.read_registers(reg, count)]. *)
Definition read_registers (l : lab) (i : Instrument) (reg : Z) (count : nat)
  : result (list Z) :=
  match slaves l !! (port i, address i) with
  | None => Raise (IOError "no communication with the instrument (no answer)")
  | Some s =>
      match fault s with
      | Some e => Raise e
      | None => read_range (registers s) reg count
      end
  end.

(** [instrument.write_registers(reg, values)]. *)
Definition write_registers (l : lab) (i : Instrument) (reg : Z)
    (values : list Z) : result lab :=
  match slaves l !! (port i, address i) with
  | None => Raise (IOError "no communication with the instrument (no answer)")
  | Some s =>
      match fault s with
      | Some e => Raise e
      | None =>
          if forallb is_u16 values then
            Ok {| port_faults := port_faults l;
                  line_devices := line_devices l; probes := probes l;
                  slaves := <[(port i, address i) :=
                                {| fault := None;
                                   registers :=
                                     write_range (registers s) reg values |}]>
                              (slaves l) |}
          else Raise (ValueError "register value out of range")
      end
  end.

End Minimalmodbus.

(** ** [VogtlinMFC] (src/devices/vogtlin_mfc.py) *)

Module VogtlinMFC.

(** Register map (base addresses). *)
Definition REG : gmap string Z :=
  list_to_map [
    ("flow", 0x0000); ("temperature", 0x0002); ("total_flow", 0x0004);
    ("setpoint", 0x0006); ("analog_input", 0x0008); ("valve_signal", 0x000A);
    ("alarm", 0x000C); ("error", 0x000D); ("control_function", 0x000E);
    ("ramp", 0x000F) ].

(** [self.REG[key]]. *)
Definition REG_get (key : string) : result Z :=
  match REG !! key with
  | Some a => Ok a
  | None => Raise (KeyError key)
  end.

Record t : Type := {
  port : pyval;
  baudrate : Z;
  address : pyval;
  name : string;
  instrument : option Minimalmodbus.Instrument
}.

(** [VogtlinMFC(port, address, baudrate=9600, name="MFC")]. *)
Definition new (port address : pyval) (name : string) : t :=
  {| port := port; baudrate := 9600; address := address; name := name;
     instrument := None |}.

Definition with_instrument (self : t) (i : Minimalmodbus.Instrument) : t :=
  {| port := port self; baudrate := baudrate self; address := address self;
     name := name self; instrument := Some i |}.

Definition connect (l : lab) (self : t) : M (bool * t) :=
  match Minimalmodbus.new l (port self) (address self) with
  | Ok i =>
      let i' :=
        {| Minimalmodbus.port := Minimalmodbus.port i;
           Minimalmodbus.address := Minimalmodbus.address i;
           Minimalmodbus.is_open := Minimalmodbus.is_open i;
           Minimalmodbus.serial :=
             {| Minimalmodbus.baudrate := baudrate self;
                Minimalmodbus.bytesize := 8;
                Minimalmodbus.parity := "N";
                Minimalmodbus.stopbits := 1;
                Minimalmodbus.timeout := 0.5 |} |} in
      print [Txt "Connected to "; Val (PyStr (name self)); Txt " at ";
             Val (port self); Txt " (addr="; Val (address self); Txt ")"] ;;;
      ret (true, with_instrument self i')
  | Raise e =>
      if is_Exception e then
        print [Txt "Error connecting to "; Val (PyStr (name self));
               Txt " on "; Val (port self)] ;;;
        ret (false, self)
      else raise e
  end.

Definition disconnect (self : t) : M t :=
  match instrument self with
  | Some i =>
      if Minimalmodbus.is_open i then
        print [Txt "Disconnected "; Val (PyStr (name self)); Txt "."] ;;;
        ret (with_instrument self
               {| Minimalmodbus.port := Minimalmodbus.port i;
                  Minimalmodbus.address := Minimalmodbus.address i;
                  Minimalmodbus.serial := Minimalmodbus.serial i;
                  Minimalmodbus.is_open := false |})
      else ret self
  | None => ret self
  end.

(** [self.instrument.read_registers] and [.write_registers]: an attribute
    error when [self.instrument] is still [None]. *)
Definition instrument_read (l : lab) (self : t) (reg : Z) (count : nat)
  : result (list Z) :=
  match instrument self with
  | Some i => Minimalmodbus.read_registers l i reg count
  | None => Raise (AttributeError "NoneType" "read_registers")
  end.

Definition instrument_write (l : lab) (self : t) (reg : Z) (values : list Z)
  : result lab :=
  match instrument self with
  | Some i => Minimalmodbus.write_registers l i reg values
  | None => Raise (AttributeError "NoneType" "write_registers")
  end.

(** The codec inside [_read_float]: the steps after [read_registers]. *)
Definition decode (regs : list Z) (swap : bool) : result binary64 :=
  let regs := if swap then rev regs else regs in
  match pack_HH regs with
  | Ok raw_bytes => unpack_f raw_bytes
  | Raise e => Raise e
  end.

(** The codec inside [_write_float]: the steps before [write_registers]. *)
Definition encode (value : binary64) (swap : bool) : result (list Z) :=
  match pack_f value with
  | Ok raw_bytes =>
      match unpack_HH raw_bytes with
      | Ok regs => Ok (if swap then rev regs else regs)
      | Raise e => Raise e
      end
  | Raise e => Raise e
  end.

(** Reads 2 consecutive Modbus registers as a float. *)
Definition _read_float (l : lab) (self : t) (address : Z) (swap : bool)
  : result binary64 :=
  match instrument_read l self address 2 with
  | Ok regs => decode regs swap
  | Raise e => Raise e
  end.

(** Writes a float into 2 consecutive Modbus registers. *)
Definition _write_float (l : lab) (self : t) (address : Z) (value : binary64)
    (swap : bool) : result lab :=
  match encode value swap with
  | Ok regs => instrument_write l self address regs
  | Raise e => Raise e
  end.

Definition read_quantity (key : string) (l : lab) (self : t)
  : result binary64 :=
  match REG_get key with
  | Ok a => _read_float l self a false
  | Raise e => Raise e
  end.

Definition get_flow := read_quantity "flow".
Definition get_temperature := read_quantity "temperature".
Definition get_total_flow := read_quantity "total_flow".
Definition get_valve_signal := read_quantity "valve_signal".
Definition get_setpoint := read_quantity "setpoint".

(** Writes new gas flow setpoint; like every Python function without a
    [return] statement it returns [None]. *)
Definition set_flow_setpoint (l : lab) (self : t) (value : binary64)
  : M (pyval * lab) :=
  a <- lift (REG_get "setpoint") ;;
  l' <- lift (_write_float l self a value false) ;;
  print [Txt "Setpoint updated to "; Fixed 3 (PyFloat value)] ;;;
  ret (PyNone, l').

End VogtlinMFC.

(** ** Regular expressions as [re] runs them *)

Module Re.

(** Character sets: a bracket expression is a list of items, each [\d],
    [\s], [.] or one character; a set outside brackets is the one-item
    list.  A text is a sequence of code points below 256; on that range
    [\d] is [0-9], [\s] is [str.isspace] (the ASCII blanks and separators,
    NEL and the no-break space) and [.] is anything but a newline. *)
Inductive item : Type :=
  | Digit
  | Space
  | Dot
  | Lit (c : ascii).

Definition cclass : Type := list item.

Definition is_digit (a : ascii) : bool :=
  let n := nat_of_ascii a in (48 <=? n)%nat && (n <=? 57)%nat.

Definition is_space (a : ascii) : bool :=
  let n := nat_of_ascii a in
  ((9 <=? n)%nat && (n <=? 13)%nat) || ((28 <=? n)%nat && (n <=? 32)%nat)
  || (n =? 133)%nat || (n =? 160)%nat.

Definition item_match (i : item) (a : ascii) : bool :=
  match i with
  | Digit => is_digit a
  | Space => is_space a
  | Dot => negb (Ascii.eqb a "010"%char)
  | Lit b => Ascii.eqb a b
  end.

Definition cc_match (c : cclass) (a : ascii) : bool :=
  existsb (fun i => item_match i a) c.

(** The fragment of the pattern language that [data_pattern] is written
    in: sequences, named groups, and greedy ([x*]) or lazy ([x*?])
    repetition of a character set. *)
Inductive regex : Type :=
  | Empty
  | Chr (c : cclass)
  | Seq (r1 r2 : regex)
  | Star (greedy : bool) (c : cclass)
  | Group (name : string) (r : regex).

Fixpoint text (s : string) : regex :=
  match s with
  | EmptyString => Empty
  | String a s' => Seq (Chr [Lit a]) (text s')
  end.

Fixpoint seq (rs : list regex) : regex :=
  match rs with
  | [] => Empty
  | r :: rs' => Seq r (seq rs')
  end.

(** [x+] and [x{2}]. *)
Definition plus (c : cclass) : regex := Seq (Chr c) (Star true c).
Definition twice (c : cclass) : regex := Seq (Chr c) (Chr c).

Section Matcher.

Context {R : Type}.

(** Greedy repetition takes as many characters as it can and gives them
    back one by one; lazy repetition tries the rest of the pattern first. *)
Fixpoint star_greedy (c : cclass) (k : list ascii -> option R)
    (s : list ascii) : option R :=
  match s with
  | a :: s' =>
      if cc_match c a then
        match star_greedy c k s' with
        | Some r => Some r
        | None => k s
        end
      else k s
  | [] => k s
  end.

Fixpoint star_lazy (c : cclass) (k : list ascii -> option R)
    (s : list ascii) : option R :=
  match k s with
  | Some r => Some r
  | None =>
      match s with
      | a :: s' => if cc_match c a then star_lazy c k s' else None
      | [] => None
      end
  end.

(** What a group captured: the part of [s] that was consumed to reach the
    rest [s']. *)
Definition consumed (s s' : list ascii) : string :=
  string_of_list_ascii (take (length s - length s') s).

(** Backtracking match of [r] at the start of [s], then [k] on the rest. *)
Fixpoint run (r : regex) (s : list ascii) (caps : gmap string string)
    (k : list ascii -> gmap string string -> option R) : option R :=
  match r with
  | Empty => k s caps
  | Chr c =>
      match s with
      | a :: s' => if cc_match c a then k s' caps else None
      | [] => None
      end
  | Seq r1 r2 => run r1 s caps (fun s1 caps1 => run r2 s1 caps1 k)
  | Star greedy c =>
      (if greedy then star_greedy else star_lazy) c (fun s' => k s' caps) s
  | Group name r' =>
      run r' s caps (fun s' caps' => k s' (<[name := consumed s s']> caps'))
  end.

End Matcher.

(** The first position, from the left, at which the pattern matches. *)
Fixpoint search_from (r : regex) (s : list ascii)
  : option (gmap string string) :=
  match run r s ∅ (fun _ caps => Some caps) with
  | Some caps => Some caps
  | None =>
      match s with
      | _ :: s' => search_from r s'
      | [] => None
      end
  end.

(** [pattern.search(s).groupdict()], or [None]. *)
Definition search (r : regex) (s : string) : option (gmap string string) :=
  search_from r (list_ascii_of_string s).

(** The texts a pattern denotes, whatever the order in which the matcher
    tries them. *)
Fixpoint lang (r : regex) (w : list ascii) : Prop :=
  match r with
  | Empty => w = []
  | Chr c => exists a, w = [a] /\ cc_match c a = true
  | Seq r1 r2 => exists w1 w2, w = (w1 ++ w2)%list /\ lang r1 w1 /\ lang r2 w2
  | Star _ c => Forall (fun a => cc_match c a = true) w
  | Group _ r' => lang r' w
  end.

(** Plain substring test. *)
Fixpoint starts_with (p w : list ascii) : bool :=
  match p, w with
  | [], _ => true
  | a :: p', b :: w' => Ascii.eqb a b && starts_with p' w'
  | _ :: _, [] => false
  end.

Fixpoint contains (p w : list ascii) : bool :=
  starts_with p w ||
  match w with
  | [] => false
  | _ :: w' => contains p w'
  end.

End Re.

(** ** Built-in text functions *)

Module Builtins.

Fixpoint lstrip (s : string) : string :=
  match s with
  | String a s' => if Re.is_space a then lstrip s' else s
  | EmptyString => EmptyString
  end.

Fixpoint rstrip (s : string) : string :=
  match s with
  | String a s' =>
      match rstrip s' with
      | EmptyString => if Re.is_space a then EmptyString else String a EmptyString
      | r => String a r
      end
  | EmptyString => EmptyString
  end.

(** [s.strip()]. *)
Definition strip (s : string) : string := rstrip (lstrip s).

Fixpoint all_digits (s : string) : bool :=
  match s with
  | String a s' => Re.is_digit a && all_digits s'
  | EmptyString => true
  end.

Fixpoint digits_value (acc : Z) (s : string) : Z :=
  match s with
  | String a s' => digits_value (10 * acc + (Z.of_nat (nat_of_ascii a) - 48)) s'
  | EmptyString => acc
  end.

(** The text up to the first ['.'], and the text after it. *)
Fixpoint split_point (s : string) : string * string :=
  match s with
  | String a s' =>
      if Ascii.eqb a "."%char then (EmptyString, s')
      else let '(i, f) := split_point s' in (String a i, f)
  | EmptyString => (EmptyString, EmptyString)
  end.

(** [float(text)] on plain decimal texts: an optional sign, digits with at
    most one point, at least one digit.  Anything else raises [ValueError];
    the forms of [float] left out (exponents, underscores, [inf], [nan])
    contain characters that [data_pattern]'s value groups cannot capture. *)
Definition float (s : string) : result pyval :=
  let s := strip s in
  let '(negative, body) :=
    match s with
    | String "-"%char r => (true, r)
    | String "+"%char r => (false, r)
    | _ => (false, s)
    end in
  let '(i, f) := split_point body in
  if all_digits i && all_digits f
     && (0 <? String.length i + String.length f)%nat then
    let mag :=
      Qmake (digits_value 0 (i ++ f)) (Z.to_pos (10 ^ Z.of_nat (String.length f))) in
    Ok (PyFloatDec (Qred (if negative then Qopp mag else mag)))
  else Raise (ValueError "could not convert string to float").

End Builtins.

(** ** [pyserial] as the hygrometer driver uses it *)

Module Pyserial.

Record Serial : Type := {
  port : string; baudrate : pyval; timeout : Q; is_open : bool
}.

(** [serial.Serial(port, baudrate, timeout=timeout)] opens the port. *)
Definition new (l : lab) (p baud : pyval) (timeout : Q) : result Serial :=
  match p with
  | PyStr p =>
      match port_faults l !! p with
      | Some e => Raise e
      | None => Ok {| port := p; baudrate := baud; timeout := timeout;
                      is_open := true |}
      end
  | _ => Raise (ValueError "port must be a string")
  end.

(** [ser.reset_input_buffer(); ser.reset_output_buffer()]. *)
Definition reset_buffers (l : lab) (ser : Serial) : result unit :=
  match line_devices l !! port ser with
  | Some d =>
      match line_fault d with Some e => Raise e | None => Ok tt end
  | None => Ok tt
  end.

(** [ser.write(data); ser.flush()]. *)
Definition write (l : lab) (ser : Serial) (data : string) : result unit :=
  if negb (is_open ser) then Raise (IOError "port not open")
  else match line_devices l !! port ser with
       | Some d =>
           match line_fault d with Some e => Raise e | None => Ok tt end
       | None => Ok tt
       end.

(** The texts that successive [ser.readline().decode(errors="ignore")]
    calls return while a reading window lasts. *)
Definition readlines (l : lab) (ser : Serial) : result (list string) :=
  if negb (is_open ser) then Raise (IOError "port not open")
  else match line_devices l !! port ser with
       | Some d =>
           match line_fault d with
           | Some e => Raise e
           | None => Ok (incoming d)
           end
       | None => Ok []
       end.

End Pyserial.

(** ** [DewMaster] (src/devices/dewmaster.py) *)

Module DewMaster.

Record t : Type := {
  port : pyval;
  baudrate : pyval;
  timeout : Q;
  name : string;
  ser : option Pyserial.Serial
}.

Definition digit2 : Re.regex := Re.twice [Re.Digit].
Definition spaces : Re.regex := Re.Star true [Re.Space].
Definition anything : Re.regex := Re.Star false [Re.Dot].
Definition number : Re.regex :=
  Re.plus [Re.Lit "-"; Re.Digit; Re.Lit "."].  (* [-\d.]+ *)

(** regex for data lines like:
    "11/13/25  13:41:50   DP =    2.0 C  AT  =   24.1 C  RH  =   23.5    SERVOLOCK" *)
Definition data_pattern : Re.regex :=
  Re.seq [
    Re.Group "date"
      (Re.seq [digit2; Re.text "/"; digit2; Re.text "/"; digit2]);
    Re.plus [Re.Space];
    Re.Group "time"
      (Re.seq [digit2; Re.text ":"; digit2; Re.text ":"; digit2]);
    anything;
    Re.text "DP"; spaces; Re.text "="; spaces; Re.Group "dp" number;
    spaces; Re.text "C"; anything;
    Re.text "AT"; spaces; Re.text "="; spaces; Re.Group "at" number;
    spaces; Re.text "C"; anything;
    Re.text "RH"; spaces; Re.text "="; spaces; Re.Group "rh" number ].

(** The characters a value group accepts, and what it means for a line to
    carry a labelled field: the label, optional blanks, an equals sign,
    optional blanks, and at least one value character. *)
Definition value_chars : Re.cclass := [Re.Lit "-"; Re.Digit; Re.Lit "."].

Definition blank (w : list ascii) : Prop :=
  Forall (fun a => Re.is_space a = true) w.

Definition has_field (label : string) (line : string) : Prop :=
  exists (pre ws1 ws2 post : list ascii) (c : ascii),
    list_ascii_of_string line =
      (pre ++ list_ascii_of_string label ++ ws1 ++ "="%char :: ws2
           ++ c :: post)%list /\
    blank ws1 /\ blank ws2 /\ Re.cc_match value_chars c = true.

(** The groups of [data_pattern], in the order [groupdict()] lists them. *)
Definition group_names : list string := ["date"; "time"; "dp"; "at"; "rh"].

(** [DewMaster(port, baudrate=9600, timeout=1.0, name="DewMaster")]. *)
Definition new (port baudrate : pyval) : t :=
  {| port := port; baudrate := baudrate; timeout := 1; name := "DewMaster";
     ser := None |}.

Definition with_ser (self : t) (s : option Pyserial.Serial) : t :=
  {| port := port self; baudrate := baudrate self; timeout := timeout self;
     name := name self; ser := s |}.

(** What the [except Exception] clause of [connect] makes of an
    exception. *)
Definition connect_error (self : t) (e : exn) : exn :=
  if is_Exception e then RuntimeError ("Failed to connect to " ++ name self)
  else e.

(** [connect]: the driver as the call leaves it, and what the call
    returns.  [self.ser] holds the port from the moment it is open, also
    when the clearing of the buffers then raises. *)
Definition connect (l : lab) (self : t) : t * M bool :=
  match Pyserial.new l (port self) (baudrate self) (timeout self) with
  | Ok s =>
      let self' := with_ser self (Some s) in
      match Pyserial.reset_buffers l s with
      | Ok _ => (self', ret true)
      | Raise e => (self', raise (connect_error self e))
      end
  | Raise e => (self, raise (connect_error self e))
  end.

Definition disconnect (self : t) : M t :=
  match ser self with
  | Some s =>
      if Pyserial.is_open s then
        print [Txt "Disconnected "; Val (PyStr (name self)); Txt "."] ;;;
        ret (with_ser self
               (Some {| Pyserial.port := Pyserial.port s;
                        Pyserial.baudrate := Pyserial.baudrate s;
                        Pyserial.timeout := Pyserial.timeout s;
                        Pyserial.is_open := false |}))
      else ret self
  | None => ret self
  end.

(** Send a command with carriage return. *)
Definition _write (l : lab) (self : t) (cmd : string) : result unit :=
  match ser self with
  | Some s =>
      if Pyserial.is_open s then
        and_then (Pyserial.write l s cmd) (fun _ =>
        Pyserial.write l s (String "013"%char EmptyString))
      else Raise (RuntimeError "Serial port not open.")
  | None => Raise (RuntimeError "Serial port not open.")
  end.

Definition nonempty (s : string) : bool :=
  match s with EmptyString => false | _ => true end.

(** Read lines for a short period: the stripped, non-empty ones. *)
Definition _read_lines (l : lab) (self : t) : result (list string) :=
  match ser self with
  | None => Ok []
  | Some s =>
      and_then (Pyserial.readlines l s) (fun raw =>
      Ok (filter (fun x => nonempty x = true) (map Builtins.strip raw)))
  end.

(** [{k: (float(v) if k in ("dp", "at", "rh") else v)
      for k, v in m.groupdict().items()}]. *)
Fixpoint convert (names : list string) (groups : gmap string string)
  : result (gmap string pyval) :=
  match names with
  | [] => Ok ∅
  | k :: names' =>
      match groups !! k with
      | Some v =>
          and_then
            (if existsb (String.eqb k) ["dp"; "at"; "rh"]
             then Builtins.float v else Ok (PyStr v)) (fun x =>
          and_then (convert names' groups) (fun d => Ok (<[k := x]> d)))
      | None => convert names' groups
      end
  end.

(** The telemetry-line parser: the body of the loop of [poll].  [Ok None]
    is a line that does not match. *)
Definition parse (line : string) : result (option (gmap string pyval)) :=
  match Re.search data_pattern line with
  | Some groups =>
      and_then (convert group_names groups) (fun data => Ok (Some data))
  | None => Ok None
  end.

Fixpoint first_parsed (lines : list string)
  : result (option (gmap string pyval)) :=
  match lines with
  | [] => Ok None
  | line :: lines' =>
      match parse line with
      | Ok None => first_parsed lines'
      | r => r
      end
  end.

(** Request one measurement (P command) and parse the result. *)
Definition poll (l : lab) (self : t)
  : result (option (gmap string pyval)) :=
  and_then (_write l self "P") (fun _ =>
  and_then (_read_lines l self) (fun lines =>
  first_parsed lines)).

End DewMaster.

(** ** [TemperatureProbe] *)

Module TemperatureProbe.

(** Modelled from the spec: the class [TemperatureProbe] that controller.py
    imports from [src.devices.temperature_probe]; that module is not part
    of the sources.  The spec gives it the external contract of the
    hygrometer driver ([connect], [disconnect], [getTemperature]) with a
    wire format of its own, so the laboratory states directly what the
    probe on a port answers. *)
Record t : Type := { port : pyval; baudrate : pyval; connected : bool }.

Definition new (port baudrate : pyval) : t :=
  {| port := port; baudrate := baudrate; connected := false |}.

Definition device (l : lab) (self : t) : result ProbeDevice :=
  match port self with
  | PyStr p =>
      match probes l !! p with
      | Some d => Ok d
      | None => Raise (IOError "no device on the port")
      end
  | _ => Raise (ValueError "port must be a string")
  end.

Definition connect (l : lab) (self : t) : M (bool * t) :=
  match device l self with
  | Ok d =>
      ok <- lift (connect_answer d) ;;
      ret (ok, {| port := port self; baudrate := baudrate self;
                  connected := ok |})
  | Raise e => if is_Exception e then ret (false, self) else raise e
  end.

Definition disconnect (self : t) : M t :=
  ret {| port := port self; baudrate := baudrate self; connected := false |}.

Definition get_temperature (l : lab) (self : t) : result pyval :=
  and_then (device l self) temperature_answer.

End TemperatureProbe.

(** ** The reading of one cycle *)

Module Reading.

(** The dictionary [data] of [read_all_sensors]: its nine keys are fixed by
    the dictionary display that creates it, so it is a record of nine
    values; [PyNone] is the absent marker. *)
Record t : Type := {
  timestamp : pyval;
  dry_flow : pyval;
  dry_setpoint : pyval;
  wet_flow : pyval;
  wet_setpoint : pyval;
  cell_temp : pyval;
  ambient_temp : pyval;
  dewpoint_temp : pyval;
  relative_humidity : pyval
}.

Definition fresh (now : Q) : t :=
  {| timestamp := PyTime now; dry_flow := PyNone; dry_setpoint := PyNone;
     wet_flow := PyNone; wet_setpoint := PyNone; cell_temp := PyNone;
     ambient_temp := PyNone; dewpoint_temp := PyNone;
     relative_humidity := PyNone |}.

Definition set_dry (flow setpoint : pyval) (d : t) : t :=
  {| timestamp := timestamp d; dry_flow := flow; dry_setpoint := setpoint;
     wet_flow := wet_flow d; wet_setpoint := wet_setpoint d;
     cell_temp := cell_temp d; ambient_temp := ambient_temp d;
     dewpoint_temp := dewpoint_temp d;
     relative_humidity := relative_humidity d |}.

Definition set_wet (flow setpoint : pyval) (d : t) : t :=
  {| timestamp := timestamp d; dry_flow := dry_flow d;
     dry_setpoint := dry_setpoint d; wet_flow := flow;
     wet_setpoint := setpoint; cell_temp := cell_temp d;
     ambient_temp := ambient_temp d; dewpoint_temp := dewpoint_temp d;
     relative_humidity := relative_humidity d |}.

Definition set_hygro (ambient dewpoint humidity : pyval) (d : t) : t :=
  {| timestamp := timestamp d; dry_flow := dry_flow d;
     dry_setpoint := dry_setpoint d; wet_flow := wet_flow d;
     wet_setpoint := wet_setpoint d; cell_temp := cell_temp d;
     ambient_temp := ambient; dewpoint_temp := dewpoint;
     relative_humidity := humidity |}.

Definition set_cell_temp (temp : pyval) (d : t) : t :=
  {| timestamp := timestamp d; dry_flow := dry_flow d;
     dry_setpoint := dry_setpoint d; wet_flow := wet_flow d;
     wet_setpoint := wet_setpoint d; cell_temp := temp;
     ambient_temp := ambient_temp d; dewpoint_temp := dewpoint_temp d;
     relative_humidity := relative_humidity d |}.

End Reading.

(** ** The collaborators, as far as the controller calls them *)

Module DataLogger.

Record t : Type := {
  output_dir : pyval;
  filename_prefix : pyval;
  current_file : option Q;    (* the file named after its starting instant *)
  fieldnames : option (list string);
  rows : list Reading.t       (* the rows written to the current file *)
}.

Definition new (output_dir filename_prefix : pyval) : t :=
  {| output_dir := output_dir; filename_prefix := filename_prefix;
     current_file := None; fieldnames := None; rows := [] |}.

Definition start_new_log (now : Q) (fields : list string) (self : t) : M t :=
  print [Txt "Started new log file: "; Val (filename_prefix self);
         Val (PyTime now)] ;;;
  ret {| output_dir := output_dir self;
         filename_prefix := filename_prefix self;
         current_file := Some now; fieldnames := Some fields; rows := [] |}.

Definition log_data (data : Reading.t) (self : t) : result t :=
  match current_file self, fieldnames self with
  | Some _, Some (_ :: _) =>
      Ok {| output_dir := output_dir self;
            filename_prefix := filename_prefix self;
            current_file := current_file self;
            fieldnames := fieldnames self;
            rows := (rows self ++ [data])%list |}
  | _, _ => Raise (ValueError "No log file started. Call start_new_log() first.")
  end.

End DataLogger.

Module DynamicPlotter.

Record t : Type := {
  max_points : pyval;
  update_interval : pyval;
  points : list Reading.t;    (* the deques, one entry per data point *)
  animation : bool;
  is_running : bool
}.

Definition new (max_points update_interval : pyval) : t :=
  {| max_points := max_points; update_interval := update_interval;
     points := []; animation := false; is_running := false |}.

(** A [deque(maxlen=n)] keeps the last [n] entries. *)
Definition bounded (maxlen : pyval) (l : list Reading.t) : list Reading.t :=
  match maxlen with
  | PyInt n => drop (length l - Z.to_nat n) l
  | _ => l
  end.

Definition add_data_point (data : Reading.t) (self : t) : t :=
  {| max_points := max_points self; update_interval := update_interval self;
     points := bounded (max_points self) (points self ++ [data])%list;
     animation := animation self; is_running := is_running self |}.

(** What the canvas of the figure does with an exception that a callback
    raises while the figure is drawn: without a display (a headless
    backend) it is raised again to whoever asked for the draw; under an
    interactive framework its traceback is printed and the draw goes on.
    Only an [Exception] is treated so; anything else always propagates. *)
Inductive backend : Type := Headless | Interactive.

Definition absorbs (bk : backend) (e : exn) : bool :=
  match bk with
  | Headless => false
  | Interactive => is_Exception e
  end.

(** [update_with_data(frame)], the callback that [start] gives the
    animation: fetch a data point, store it, redraw.  The dictionary of
    [read_all_sensors] is never empty, so [if new_data] holds; the drawing
    of [update_plots] is outside the model. *)
Definition update_with_data (data_source_callback : unit -> result Reading.t)
    (self : t) : t * result unit :=
  match data_source_callback tt with
  | Ok new_data => (add_data_point new_data self, Ok tt)
  | Raise e => (self, Raise e)
  end.

(** Start the dynamic plotting: the plotter as the call leaves it, and
    whether the call returns.  [plt.pause(0.1)] draws the figure for the
    first time, and on that draw the animation runs its first frame.  The
    later frames are events of the figure's timer (one every
    [update_interval] milliseconds, a second by default); they need the
    event loop, which runs for the tenth of a second of the pause and never
    in the sampling loop, and are outside the model. *)
Definition start (bk : backend)
    (data_source_callback : option (unit -> result Reading.t)) (self : t)
  : t * result unit :=
  let self :=
    {| max_points := max_points self; update_interval := update_interval self;
       points := points self; animation := true; is_running := true |} in
  match data_source_callback with
  | Some callback =>
      let '(self', r) := update_with_data callback self in
      match r with
      | Ok _ => (self', Ok tt)
      | Raise e => (self', if absorbs bk e then Ok tt else Raise e)
      end
  | None => (self, Ok tt)
  end.

Definition stop (self : t) : t :=
  {| max_points := max_points self; update_interval := update_interval self;
     points := points self; animation := animation self;
     is_running := false |}.

End DynamicPlotter.

(** ** [Controller] (src/devices/controller.py) *)

Module Controller.

(** controller.py calls two methods under names that the driver classes of
    the sources do not define: [get_readings] on the hygrometer (imported
    as [DewMasterHygrometer] from the module that defines [DewMaster],
    whose measurement method is [poll]) and [set_flow] on a [VogtlinMFC]
    (whose setpoint method is [set_flow_setpoint]).  The controller is
    therefore written over the meaning of those two names. *)
Record bindings : Type := {
  get_readings : lab -> DewMaster.t -> result (option (gmap string pyval));
  set_flow : lab -> VogtlinMFC.t -> binary64 -> M (pyval * lab)
}.

(** The classes exactly as written: the names are not attributes. *)
Definition as_written : bindings :=
  {| get_readings := fun _ _ =>
       Raise (AttributeError "DewMaster" "get_readings");
     set_flow := fun _ _ _ =>
       raise (AttributeError "VogtlinMFC" "set_flow") |}.

(** Each name bound to the driver method that does its job. *)
Definition by_role : bindings :=
  {| get_readings := DewMaster.poll;
     set_flow := VogtlinMFC.set_flow_setpoint |}.

Record t : Type := {
  config : gmap string pyval;
  running : bool;
  dry_mfc : option VogtlinMFC.t;
  wet_mfc : option VogtlinMFC.t;
  hygrometer : option DewMaster.t;
  t_probe : option TemperatureProbe.t;
  logger : DataLogger.t;
  plotter : DynamicPlotter.t;
  log_fields : list string
}.

(** [config.get(key, default)] and [config[key]]. *)
Definition config_get (self : t) (key : string) (default : pyval) : pyval :=
  match config self !! key with Some v => v | None => default end.

Definition config_item (self : t) (key : string) : result pyval :=
  match config self !! key with
  | Some v => Ok v
  | None => Raise (KeyError key)
  end.

Definition __init__ (config : gmap string pyval) : t :=
  {| config := config; running := false;
     dry_mfc := None; wet_mfc := None; hygrometer := None; t_probe := None;
     logger :=
       DataLogger.new
         (match config !! "log_dir" with Some v => v | None => PyStr "data" end)
         (match config !! "log_prefix" with
          | Some v => v | None => PyStr "nsim_log" end);
     plotter :=
       DynamicPlotter.new
         (match config !! "max_plot_points" with
          | Some v => v | None => PyInt 500 end)
         (match config !! "plot_update_interval" with
          | Some v => v | None => PyInt 1000 end);
     log_fields :=
       ["timestamp"; "dry_flow"; "dry_setpoint"; "wet_flow"; "wet_setpoint";
        "cell_temp"; "ambient_temp"; "dewpoint_temp"; "relative_humidity"] |}.

Definition with_dry_mfc (self : t) (m : option VogtlinMFC.t) : t :=
  {| config := config self; running := running self; dry_mfc := m;
     wet_mfc := wet_mfc self; hygrometer := hygrometer self;
     t_probe := t_probe self; logger := logger self;
     plotter := plotter self; log_fields := log_fields self |}.

Definition with_wet_mfc (self : t) (m : option VogtlinMFC.t) : t :=
  {| config := config self; running := running self; dry_mfc := dry_mfc self;
     wet_mfc := m; hygrometer := hygrometer self;
     t_probe := t_probe self; logger := logger self;
     plotter := plotter self; log_fields := log_fields self |}.

Definition with_hygrometer (self : t) (h : option DewMaster.t) : t :=
  {| config := config self; running := running self; dry_mfc := dry_mfc self;
     wet_mfc := wet_mfc self; hygrometer := h;
     t_probe := t_probe self; logger := logger self;
     plotter := plotter self; log_fields := log_fields self |}.

Definition with_t_probe (self : t) (p : option TemperatureProbe.t) : t :=
  {| config := config self; running := running self; dry_mfc := dry_mfc self;
     wet_mfc := wet_mfc self; hygrometer := hygrometer self;
     t_probe := p; logger := logger self;
     plotter := plotter self; log_fields := log_fields self |}.

Definition with_logger (self : t) (g : DataLogger.t) : t :=
  {| config := config self; running := running self; dry_mfc := dry_mfc self;
     wet_mfc := wet_mfc self; hygrometer := hygrometer self;
     t_probe := t_probe self; logger := g;
     plotter := plotter self; log_fields := log_fields self |}.

Definition with_plotter (self : t) (p : DynamicPlotter.t) : t :=
  {| config := config self; running := running self; dry_mfc := dry_mfc self;
     wet_mfc := wet_mfc self; hygrometer := hygrometer self;
     t_probe := t_probe self; logger := logger self;
     plotter := p; log_fields := log_fields self |}.

Definition with_running (self : t) (r : bool) : t :=
  {| config := config self; running := r; dry_mfc := dry_mfc self;
     wet_mfc := wet_mfc self; hygrometer := hygrometer self;
     t_probe := t_probe self; logger := logger self;
     plotter := plotter self; log_fields := log_fields self |}.

(** The four blocks of [connect_devices]; each takes and returns the local
    [success] together with [self]. *)
Definition connect_dry (l : lab) (st : bool * t) : M (bool * t) :=
  let '(success, self) := st in
  match config self !! "dry_mfc_port" with
  | Some port =>
      print [Txt "Connecting to Dry Air MFC on "; Val port; Txt "..."] ;;;
      r <- VogtlinMFC.connect l
             (VogtlinMFC.new port
                (config_get self "dry_mfc_address" (PyInt 1)) "Dry Air MFC") ;;
      let self' := with_dry_mfc self (Some (snd r)) in
      if negb (fst r) then
        print [Txt "Failed to connect to Dry Air MFC"] ;;; ret (false, self')
      else
        print [Txt "Dry Air MFC connected successfully"] ;;;
        ret (success, self')
  | None => ret (success, self)
  end.

Definition connect_wet (l : lab) (st : bool * t) : M (bool * t) :=
  let '(success, self) := st in
  match config self !! "wet_mfc_port" with
  | Some port =>
      print [Txt "Connecting to Wet Air MFC on "; Val port; Txt "..."] ;;;
      r <- VogtlinMFC.connect l
             (VogtlinMFC.new port
                (config_get self "wet_mfc_address" (PyInt 2)) "Wet Air MFC") ;;
      let self' := with_wet_mfc self (Some (snd r)) in
      if negb (fst r) then
        print [Txt "Failed to connect to Wet Air MFC"] ;;; ret (false, self')
      else
        print [Txt "Wet Air MFC connected successfully"] ;;;
        ret (success, self')
  | None => ret (success, self)
  end.

Definition connect_hygrometer (l : lab) (st : bool * t) : M (bool * t) :=
  let '(success, self) := st in
  match config self !! "hygrometer_port" with
  | Some port =>
      print [Txt "Connecting to DewMaster Hygrometer on "; Val port;
             Txt "..."] ;;;
      let '(h, connected) :=
        DewMaster.connect l
          (DewMaster.new port
             (config_get self "hygrometer_baudrate" (PyInt 9600))) in
      ok <- connected ;;
      let self' := with_hygrometer self (Some h) in
      if negb ok then
        print [Txt "Failed to connect to DewMaster Hygrometer"] ;;;
        ret (false, self')
      else
        print [Txt "DewMaster Hygrometer connected successfully"] ;;;
        ret (success, self')
  | None => ret (success, self)
  end.

Definition connect_probe (l : lab) (st : bool * t) : M (bool * t) :=
  let '(success, self) := st in
  match config self !! "t_probe" with
  | Some _ =>
      port <- lift (config_item self "t_probe_port") ;;
      print [Txt "Connecting to Temperature Probe on "; Val port;
             Txt "..."] ;;;
      r <- TemperatureProbe.connect l
             (TemperatureProbe.new port
                (config_get self "t_probe_baudrate" (PyInt 9600))) ;;
      let self' := with_t_probe self (Some (snd r)) in
      if negb (fst r) then
        print [Txt "Failed to connect to Temperature Probe"] ;;;
        ret (false, self')
      else
        print [Txt "Temperature Probe connected successfully"] ;;;
        ret (success, self')
  | None => ret (success, self)
  end.

Definition connect_devices (l : lab) (self : t) : M (bool * t) :=
  st <- connect_dry l (true, self) ;;
  st <- connect_wet l st ;;
  st <- connect_hygrometer l st ;;
  connect_probe l st.

Definition disconnect_devices (self : t) : M t :=
  print [Txt "Disconnecting devices..."] ;;;
  self <- match dry_mfc self with
          | Some m =>
              m' <- VogtlinMFC.disconnect m ;;
              print [Txt "Dry Air MFC disconnected"] ;;;
              ret (with_dry_mfc self (Some m'))
          | None => ret self
          end ;;
  self <- match wet_mfc self with
          | Some m =>
              m' <- VogtlinMFC.disconnect m ;;
              print [Txt "Wet Air MFC disconnected"] ;;;
              ret (with_wet_mfc self (Some m'))
          | None => ret self
          end ;;
  self <- match hygrometer self with
          | Some h =>
              h' <- DewMaster.disconnect h ;;
              print [Txt "DewMaster Hygrometer disconnected"] ;;;
              ret (with_hygrometer self (Some h'))
          | None => ret self
          end ;;
  match t_probe self with
  | Some p =>
      p' <- TemperatureProbe.disconnect p ;;
      print [Txt "Temperature Probe disconnected"] ;;;
      ret (with_t_probe self (Some p'))
  | None => ret self
  end.

(** Attribute access on a controller by the name written in the source:
    the attributes that [__init__] creates exist, any other name raises. *)
Definition getattr_probe (self : t) (attr : string)
  : result (option TemperatureProbe.t) :=
  if String.eqb attr "t_probe" then Ok (t_probe self)
  else Raise (AttributeError "Controller" attr).

(** [readings.get(key)]. *)
Definition dict_get (d : gmap string pyval) (key : string) : pyval :=
  match d !! key with Some v => v | None => PyNone end.

(** The four blocks of [read_all_sensors], in source order. *)
Definition read_dry (l : lab) (self : t) (data : Reading.t)
  : result Reading.t :=
  match dry_mfc self with
  | Some m =>
      and_then (VogtlinMFC.get_flow l m) (fun flow =>
      and_then (VogtlinMFC.get_setpoint l m) (fun setpoint =>
      Ok (Reading.set_dry (PyFloat flow) (PyFloat setpoint) data)))
  | None => Ok data
  end.

Definition read_wet (l : lab) (self : t) (data : Reading.t)
  : result Reading.t :=
  match wet_mfc self with
  | Some m =>
      and_then (VogtlinMFC.get_flow l m) (fun flow =>
      and_then (VogtlinMFC.get_setpoint l m) (fun setpoint =>
      Ok (Reading.set_wet (PyFloat flow) (PyFloat setpoint) data)))
  | None => Ok data
  end.

Definition read_hygrometer (b : bindings) (l : lab) (self : t)
    (data : Reading.t) : result Reading.t :=
  match hygrometer self with
  | Some h =>
      and_then (get_readings b l h) (fun readings =>
      match readings with
      | Some d =>
          if decide (d = ∅) then Ok data
          else Ok (Reading.set_hygro (dict_get d "ambient_temp")
                     (dict_get d "dewpoint_temp")
                     (dict_get d "relative_humidity") data)
      | None => Ok data
      end)
  | None => Ok data
  end.

Definition read_probe (l : lab) (self : t) (data : Reading.t)
  : result Reading.t :=
  match t_probe self with
  | Some _ =>
      and_then (getattr_probe self "T_probe") (fun probe =>
      match probe with
      | Some p =>
          and_then (TemperatureProbe.get_temperature l p) (fun temp =>
          Ok (Reading.set_cell_temp temp data))
      | None => Raise (AttributeError "NoneType" "get_temperature")
      end)
  | None => Ok data
  end.

(** Read data from all sensors. *)
Definition read_all_sensors (b : bindings) (now : Q) (l : lab) (self : t)
  : result Reading.t :=
  and_then (read_dry l self (Reading.fresh now)) (fun data =>
  and_then (read_wet l self data) (fun data =>
  and_then (read_hygrometer b l self data) (fun data =>
  read_probe l self data))).

(** Set flow rates for MFCs. *)
Definition set_one (b : bindings) (what : string) (l : lab)
    (flow : option binary64) (mfc : option VogtlinMFC.t) : M lab :=
  match flow, mfc with
  | Some value, Some m =>
      r <- set_flow b l m value ;;
      if truthy (fst r) then
        print [Txt ("Set " ++ what ++ " air flow to ");
               Val (PyFloat value); Txt " ml/min"] ;;;
        ret (snd r)
      else
        print [Txt ("Failed to set " ++ what ++ " air flow")] ;;;
        ret (snd r)
  | _, _ => ret l
  end.

Definition set_flow_rates (b : bindings) (l : lab) (self : t)
    (dry_flow wet_flow : option binary64) : M lab :=
  l <- set_one b "dry" l dry_flow (dry_mfc self) ;;
  set_one b "wet" l wet_flow (wet_mfc self).

(** The display of one reading in [start_monitoring]. *)
Definition display (data : Reading.t) : M unit :=
  print [Txt "["; Val (Reading.timestamp data); Txt "]"] ;;;
  f1 <- lift (format_fixed 2 (Reading.dry_flow data)) ;;
  f2 <- lift (format_fixed 2 (Reading.dry_setpoint data)) ;;
  print [Txt "  Dry Air:  "; f1; Txt " ml/min (SP: "; f2; Txt ")"] ;;;
  f1 <- lift (format_fixed 2 (Reading.wet_flow data)) ;;
  f2 <- lift (format_fixed 2 (Reading.wet_setpoint data)) ;;
  print [Txt "  Wet Air:  "; f1; Txt " ml/min (SP: "; f2; Txt ")"] ;;;
  f <- lift (format_fixed 2 (Reading.ambient_temp data)) ;;
  print [Txt "  Ambient:  "; f; Txt " °C"] ;;;
  f <- lift (format_fixed 2 (Reading.dewpoint_temp data)) ;;
  print [Txt "  Dewpoint: "; f; Txt " °C"] ;;;
  f <- lift (format_fixed 1 (Reading.relative_humidity data)) ;;
  print [Txt "  Humidity: "; f; Txt " %"].

(** One pass through the body of the [while] loop up to the sleep: the
    controller as the pass leaves it, what it printed, and whether it got
    to the sleep. *)
Definition cycle_body (b : bindings) (now : Q) (l : lab) (self : t)
  : t * M unit :=
  match read_all_sensors b now l self with
  | Raise e => (self, raise e)
  | Ok data =>
      match DataLogger.log_data data (logger self) with
      | Raise e => (self, raise e)
      | Ok g =>
          (with_plotter (with_logger self g)
             (DynamicPlotter.add_data_point data (plotter self)),
           display data)
      end
  end.

(** The laboratory during one cycle, and the time the cycle spends between
    taking its timestamp and going to sleep. *)
Record cycle : Type := { conditions : lab; busy : Q }.

Inductive ending : Type :=
  | StoppedByUser        (* KeyboardInterrupt, caught *)
  | LoopExited           (* [self.running] found false *)
  | Crashed (e : exn).   (* any other exception, propagated *)

Record session : Type := {
  final : t;
  console : list line;
  starts : list Q;      (* the instant each cycle took its timestamp *)
  sleeps : list Q;      (* the argument of each [time.sleep] *)
  ended : ending
}.

Definition stopped_by_user : line := [Txt "Monitoring stopped by user"].

(** The [while self.running] loop.  [cycles] lists the cycles that begin
    before the user interrupts; the interrupt arrives after the last of
    them has gone to sleep.  [time.sleep] refuses a negative length. *)
Fixpoint loop (b : bindings) (interval : Q) (clock : Q) (cycles : list cycle)
    (self : t) : session :=
  if negb (running self) then
    {| final := self; console := []; starts := []; sleeps := [];
       ended := LoopExited |}
  else
    match cycles with
    | [] =>
        {| final := self; console := [stopped_by_user]; starts := [];
           sleeps := []; ended := StoppedByUser |}
    | c :: cycles' =>
        let '(self', (out, r)) := cycle_body b clock (conditions c) self in
        match r with
        | Raise KeyboardInterrupt =>
            {| final := self'; console := (out ++ [stopped_by_user])%list;
               starts := [clock]; sleeps := []; ended := StoppedByUser |}
        | Raise e =>
            {| final := self'; console := out; starts := [clock];
               sleeps := []; ended := Crashed e |}
        | Ok _ =>
            if Qle_bool 0 interval then
              let s := loop b interval (clock + busy c + interval)%Q cycles'
                         self' in
              {| final := final s; console := (out ++ console s)%list;
                 starts := clock :: starts s; sleeps := interval :: sleeps s;
                 ended := ended s |}
            else
              {| final := self'; console := out; starts := [clock];
                 sleeps := [];
                 ended :=
                   Crashed (ValueError "sleep length must be non-negative") |}
        end
    end.

(** Start continuous monitoring and logging.  [first] is the laboratory
    while the plot is started, when the first frame of the animation reads
    the sensors, and the time the start of the plot takes; an exception
    that leaves [plotter.start] leaves [start_monitoring] before its [try]
    statement is entered. *)
Definition start_monitoring (b : bindings) (bk : DynamicPlotter.backend)
    (interval : Q) (clock : Q) (first : cycle) (cycles : list cycle)
    (self : t) : session :=
  let banner :=
    [ [Txt "Starting monitoring with "; Val (PyFloatDec interval);
       Txt "s interval..."]; [Txt "Press Ctrl+C to stop"] ] in
  let '(out, r) := DataLogger.start_new_log clock (log_fields self)
                     (logger self) in
  match r with
  | Raise e =>
      {| final := self; console := (banner ++ out)%list; starts := [];
         sleeps := []; ended := Crashed e |}
  | Ok g =>
      let out :=
        (out ++ [[Txt "Logging to: "; Val (DataLogger.filename_prefix g);
                  Val (PyTime clock)]])%list in
      let self := with_logger self g in
      let '(p, started) :=
        DynamicPlotter.start bk
          (Some (fun _ => read_all_sensors b clock (conditions first) self))
          (plotter self) in
      let self := with_plotter self p in
      match started with
      | Raise e =>
          {| final := self; console := (banner ++ out)%list; starts := [];
             sleeps := []; ended := Crashed e |}
      | Ok _ =>
          let self := with_running self true in
          let s := loop b interval (clock + busy first)%Q cycles self in
          {| final :=
               with_plotter (with_running (final s) false)
                 (DynamicPlotter.stop (plotter (final s)));
             console := (banner ++ out ++ console s)%list;
             starts := starts s; sleeps := sleeps s; ended := ended s |}
      end
  end.

(** Stop the control system. *)
Definition stop (self : t) : M t :=
  disconnect_devices (with_running self false).

End Controller.

(** ** Auxiliary notions for the properties *)

(** A labelled field at the head of a text, followed by whatever the rest
    of the pattern asks for. *)
Definition field_then (label : string) (tail : list Re.regex)
    (w : list ascii) : Prop :=
  exists (ws1 ws2 more rest : list ascii) (c : ascii),
    w = (list_ascii_of_string label ++ ws1 ++ "="%char :: ws2
           ++ c :: more ++ rest)%list /\
    DewMaster.blank ws1 /\ DewMaster.blank ws2 /\
    Re.cc_match DewMaster.value_chars c = true /\
    Re.lang (Re.seq tail) rest.

(** The tail of [data_pattern] from the [AT] field on. *)
Definition at_field_on : list Re.regex :=
  [ Re.text "AT"; DewMaster.spaces; Re.text "="; DewMaster.spaces;
    Re.Group "at" DewMaster.number;
    DewMaster.spaces; Re.text "C"; DewMaster.anything;
    Re.text "RH"; DewMaster.spaces; Re.text "="; DewMaster.spaces;
    Re.Group "rh" DewMaster.number ].

(** A binary32 datum as the conversions deliver it: a NaN is quiet. *)
Definition quiet (v : binary32) : binary32 :=
  if is_nan v then B32 (sign v) 255 (quieted (frac v)) else v.

(** [struct.unpack('>f', struct.pack('>f', x))[0]]: what the binary32
    format keeps of a float. *)
Definition as_binary32 (x : binary64) : result binary64 :=
  and_then (narrow x) (fun v => Ok (widen v)).

(** The magnitude of a float as an integer: exponent field and fraction.
    On finite floats it grows with the absolute value. *)
Definition magnitude (x : binary64) : Z := expo64 x * 2 ^ 52 + frac64 x.

(** The magnitude of [2^128 - 2^103], half a step above the largest
    binary32 number: from there on a finite float rounds to infinity. *)
Definition overflow_threshold : Z := 1151 * 2 ^ 52 - 2 ^ 28.

(** The exception of [struct.pack] for a float beyond the binary32
    range. *)
Definition too_large : exn :=
  OverflowError "float too large to pack with f format".

(** A source binding is one of the two readings of the sources. *)
Definition source_binding (b : Controller.bindings) : Prop :=
  b = Controller.as_written \/ b = Controller.by_role.

(** The read of a device raises in the laboratory [l]. *)
Definition mfc_read_fails (l : lab) (m : VogtlinMFC.t) : Prop :=
  returns (VogtlinMFC.get_flow l m) = false \/
  returns (VogtlinMFC.get_setpoint l m) = false.

Definition device_read_fails (b : Controller.bindings) (l : lab)
    (self : Controller.t) : Prop :=
  (exists m, Controller.dry_mfc self = Some m /\ mfc_read_fails l m) \/
  (exists m, Controller.wet_mfc self = Some m /\ mfc_read_fails l m) \/
  (exists h, Controller.hygrometer self = Some h /\
     returns (Controller.get_readings b l h) = false).

(** A line that misses one of the three labelled fields. *)
Definition lacks_a_field (line : string) : Prop :=
  ~ DewMaster.has_field "DP" line \/ ~ DewMaster.has_field "AT" line \/
  ~ DewMaster.has_field "RH" line.

(** The value under a key in what a parse or a poll returned. *)
Definition parsed_value (r : result (option (gmap string pyval)))
    (key : string) : option pyval :=
  match r with
  | Ok (Some d) => d !! key
  | _ => None
  end.


(** The exception of a call, if it raises. *)
Definition error_of {A : Type} (r : result A) : option exn :=
  match r with Ok _ => None | Raise e => Some e end.

(** The reads that [read_all_sensors] makes of a flow controller, and of
    all the devices before the probe, in the order of the source; a device
    that is not configured is not read. *)
Definition mfc_reads (l : lab) (mfc : option VogtlinMFC.t)
  : list (option exn) :=
  match mfc with
  | Some m =>
      [error_of (VogtlinMFC.get_flow l m);
       error_of (VogtlinMFC.get_setpoint l m)]
  | None => []
  end.

Definition reads_of (b : Controller.bindings) (l : lab)
    (self : Controller.t) : list (option exn) :=
  (mfc_reads l (Controller.dry_mfc self)
   ++ mfc_reads l (Controller.wet_mfc self)
   ++ match Controller.hygrometer self with
      | Some h => [error_of (Controller.get_readings b l h)]
      | None => []
      end)%list.

Fixpoint first_error (reads : list (option exn)) : option exn :=
  match reads with
  | [] => None
  | Some e :: _ => Some e
  | None :: reads' => first_error reads'
  end.

(** The first frame of the plot lets [plotter.start] return: the read it
    makes returns, or the backend absorbs its exception. *)
Definition frame_passes (bk : DynamicPlotter.backend)
    (r : result Reading.t) : bool :=
  match r with
  | Ok _ => true
  | Raise e => DynamicPlotter.absorbs bk e
  end.



(** The reads of [read_all_sensors] that come before the probe's. *)
Definition other_reads (b : Controller.bindings) (now : Q) (l : lab)
    (self : Controller.t) : result Reading.t :=
  and_then (Controller.read_dry l self (Reading.fresh now)) (fun data =>
  and_then (Controller.read_wet l self data) (fun data =>
  Controller.read_hygrometer b l self data)).

(** The logger and the plotter as [start_monitoring] has them once the log
    and the plot are started, and the controller with which it enters its
    loop. *)
Definition started_log (clock : Q) (self : Controller.t) : DataLogger.t :=
  match outcome (DataLogger.start_new_log clock (Controller.log_fields self)
                   (Controller.logger self)) with
  | Ok g => g
  | Raise _ => Controller.logger self
  end.

Definition started_plot (b : Controller.bindings)
    (bk : DynamicPlotter.backend) (clock : Q) (first : Controller.cycle)
    (self : Controller.t) : DynamicPlotter.t :=
  fst (DynamicPlotter.start bk
         (Some (fun _ =>
            Controller.read_all_sensors b clock (Controller.conditions first)
              self))
         (Controller.plotter self)).

Definition loop_entry (b : Controller.bindings)
    (bk : DynamicPlotter.backend) (clock : Q) (first : Controller.cycle)
    (self : Controller.t) : Controller.t :=
  Controller.with_running
    (Controller.with_plotter
       (Controller.with_logger self (started_log clock self))
       (started_plot b bk clock first self))
    true.

(** How a session ends when an exception [e] leaves the loop body: the
    [except KeyboardInterrupt] clause catches that one class only. *)
Definition ending_of (e : exn) : Controller.ending :=
  if is_Exception e then Controller.Crashed e else Controller.StoppedByUser.

(** ** A laboratory to try the code in *)

Module Bench.

Definition sample : string :=
  "11/13/25  13:41:50   DP =    2.0 C  AT  =   24.1 C  RH  =   23.5    SERVOLOCK".

Definition sample_without_rh : string :=
  "11/13/25  13:41:50   DP =    2.0 C  AT  =   24.1 C      SERVOLOCK".

(** The configuration of config.py over the defaults of main.py. *)
Definition config : gmap string pyval :=
  list_to_map [
    ("log_dir", PyStr "data"); ("log_prefix", PyStr "nsim_log");
    ("max_plot_points", PyInt 500); ("plot_update_interval", PyInt 1000);
    ("dry_mfc_port", PyStr "/dev/ttyS3"); ("dry_mfc_address", PyInt 1);
    ("wet_mfc_port", PyStr "/dev/ttyS4"); ("wet_mfc_address", PyInt 2);
    ("hygrometer_port", PyStr "/dev/ttyS5");
    ("mfc_baudrate", PyInt 9600); ("hygrometer_baudrate", PyInt 19200) ].

Definition config_with_probe : gmap string pyval :=
  <["t_probe" := PyBool true]> (<["t_probe_port" := PyStr "/dev/ttyS6"]> config).

(** Floats: 1.5, 2.0, -1.5, the smallest positive binary32 number
    (2^-149), an infinity, a quiet NaN with a payload; then 0.1 and 10.3,
    which are not binary32 numbers, the binary32 numbers nearest to them,
    and 1e39, which is beyond the binary32 range. *)
Definition f_1_5 : binary64 := B64 false 1023 (2 ^ 51).
Definition f_2_0 : binary64 := B64 false 1024 0.
Definition f_neg_1_5 : binary64 := B64 true 1023 (2 ^ 51).
Definition f_tiny : binary64 := B64 false 874 0.
Definition f_inf : binary64 := B64 true 2047 0.
Definition f_nan : binary64 := B64 false 2047 ((2 ^ 22 + 12345) * 2 ^ 29).
Definition f_0_1 : binary64 := B64 false 1019 2702159776422298.
Definition f_0_1_stored : binary64 := B64 false 1019 (5033165 * 2 ^ 29).
Definition f_10_3 : binary64 := B64 false 1026 1294784892869018.
Definition f_10_3_stored : binary64 := B64 false 1026 (2411725 * 2 ^ 29).
Definition f_1e39 : binary64 := B64 false 1152 2113845273053725.

(** Binary32 patterns: a signalling NaN with a payload and the same NaN
    quiet; the smallest subnormal. *)
Definition p_snan : binary32 := B32 false 255 12345.
Definition p_qnan : binary32 := B32 false 255 (2 ^ 22 + 12345).
Definition p_tiny : binary32 := B32 false 0 1.

(** A flow controller measuring 1.5 with setpoint 2.0; all sixteen
    registers of the map exist. *)
Definition mfc_registers : gmap Z Z :=
  list_to_map [
    (0, 16320); (1, 0); (2, 0); (3, 0); (4, 0); (5, 0); (6, 16384); (7, 0);
    (8, 0); (9, 0); (10, 0); (11, 0); (12, 0); (13, 0); (14, 0); (15, 0);
    (16, 0) ].

Definition slave_ok : Slave := {| fault := None; registers := mfc_registers |}.
Definition slave_silent : Slave :=
  {| fault := Some (IOError "no answer"); registers := mfc_registers |}.

Definition hygrometer_ok : LineDevice :=
  {| line_fault := None; incoming := [""; sample] |}.

Definition probe_ok : ProbeDevice :=
  {| connect_answer := Ok true;
     temperature_answer := Ok (PyFloatDec 21) |}.

Definition make (faults : gmap string exn) (dry wet : Slave) : lab :=
  {| port_faults := faults;
     slaves := <[("/dev/ttyS3", 1) := dry]> (<[("/dev/ttyS4", 2) := wet]> ∅);
     line_devices := <["/dev/ttyS5" := hygrometer_ok]> ∅;
     probes := <["/dev/ttyS6" := probe_ok]> ∅ |}.

(** Everything answers. *)
Definition all_well : lab := make ∅ slave_ok slave_ok.
(** The dry flow controller does not answer. *)
Definition dry_silent : lab := make ∅ slave_silent slave_ok.
(** The port of the hygrometer cannot be opened. *)
Definition hygrometer_unplugged : lab :=
  make (<["/dev/ttyS5" := IOError "could not open port"]> ∅) slave_ok slave_ok.
(** The port of the wet flow controller cannot be opened. *)
Definition wet_unplugged : lab :=
  make (<["/dev/ttyS4" := IOError "could not open port"]> ∅) slave_ok slave_ok.

(** The controller after [connect_devices] in a laboratory ([__init__]'s
    controller if connecting raised). *)
Definition connected_in (l : lab) (cfg : gmap string pyval) : Controller.t :=
  match outcome (Controller.connect_devices l (Controller.__init__ cfg)) with
  | Ok (_, c) => c
  | Raise _ => Controller.__init__ cfg
  end.

Definition connected : Controller.t := connected_in all_well config.

(** Only the two flow controllers configured. *)
Definition config_mfcs : gmap string pyval := delete "hygrometer_port" config.
Definition connected_mfcs : Controller.t := connected_in all_well config_mfcs.

(** The controller of [connected] with a temperature probe as well. *)
Definition connected_with_probe : Controller.t :=
  connected_in all_well config_with_probe.

(** The hygrometer driver of [connected]. *)
Definition hygrometer : DewMaster.t :=
  DewMaster.with_ser (DewMaster.new (PyStr "/dev/ttyS5") (PyInt 19200))
    (Some {| Pyserial.port := "/dev/ttyS5"; Pyserial.baudrate := PyInt 19200;
             Pyserial.timeout := 1; Pyserial.is_open := true |}).

(** The line that announces the connection to the temperature probe. *)
Definition probe_announced : line :=
  [Txt "Connecting to Temperature Probe on "; Val (PyStr "/dev/ttyS6");
   Txt "..."].

(** What [connected_mfcs] reads when everything answers at instant 0. *)
Definition reading_mfcs : Reading.t :=
  {| Reading.timestamp := PyTime 0;
     Reading.dry_flow := PyFloat f_1_5;
     Reading.dry_setpoint := PyFloat f_2_0;
     Reading.wet_flow := PyFloat f_1_5;
     Reading.wet_setpoint := PyFloat f_2_0;
     Reading.cell_temp := PyNone; Reading.ambient_temp := PyNone;
     Reading.dewpoint_temp := PyNone; Reading.relative_humidity := PyNone |}.

(** A cycle that is busy for one second, and sessions of such cycles. *)
Definition cycle_in (l : lab) : Controller.cycle :=
  {| Controller.conditions := l; Controller.busy := 1 |}.

Definition three_cycles : list Controller.cycle :=
  [cycle_in all_well; cycle_in all_well; cycle_in all_well].

(** A start of the plot that takes no time. *)
Definition at_once (l : lab) : Controller.cycle :=
  {| Controller.conditions := l; Controller.busy := 0 |}.

End Bench.

(** ** The rest of the drivers *)

Module MFC.

(** Convenient snapshot of key values ([VogtlinMFC.get_status]): the four
    reads in the order of the dictionary display. *)
Definition get_status (l : lab) (self : VogtlinMFC.t)
  : result (gmap string pyval) :=
  and_then (VogtlinMFC.get_flow l self) (fun flow =>
  and_then (VogtlinMFC.get_setpoint l self) (fun setpoint =>
  and_then (VogtlinMFC.get_temperature l self) (fun temperature =>
  and_then (VogtlinMFC.get_valve_signal l self) (fun valve_signal =>
  Ok (<["flow" := PyFloat flow]>
        (<["setpoint" := PyFloat setpoint]>
           (<["temperature" := PyFloat temperature]>
              (<["valve_signal" := PyFloat valve_signal]> ∅)))))))).

(** [__enter__]: connects, ignores the answer, returns the object. *)
Definition __enter__ (l : lab) (self : VogtlinMFC.t) : M VogtlinMFC.t :=
  r <- VogtlinMFC.connect l self ;;
  ret (snd r).

(** [__exit__] calls [self.close()], a name the class does not define. *)
Definition __exit__ (self : VogtlinMFC.t) : M VogtlinMFC.t :=
  raise (AttributeError "VogtlinMFC" "close").

(** [with VogtlinMFC(...) as mfc: body]: the object as the statement leaves
    it, and what the statement printed and returned.  [__exit__] runs after
    the body whether the body returned or raised, and an exception of
    [__exit__] replaces the one of the body. *)
Definition with_ {A : Type} (l : lab) (self : VogtlinMFC.t)
    (body : VogtlinMFC.t -> M A) : VogtlinMFC.t * M A :=
  match __enter__ l self with
  | (out, Raise e) => (self, (out, Raise e))
  | (out, Ok mfc) =>
      let '(out_body, r) := body mfc in
      match __exit__ mfc with
      | (out_exit, Ok mfc') => (mfc', ((out ++ out_body ++ out_exit)%list, r))
      | (out_exit, Raise e) =>
          (mfc, ((out ++ out_body ++ out_exit)%list, Raise e))
      end
  end.

End MFC.

Module Hygro.

(** [str(n)] for an integer. *)
Definition str (n : Z) : string := pretty n.

(** Set automatic serial output interval in seconds
    ([DewMaster.set_output_interval]). *)
Definition set_output_interval (l : lab) (self : DewMaster.t) (seconds : Z)
  : M unit :=
  lift (DewMaster._write l self "P") ;;;
  lift (DewMaster._write l self "O") ;;;
  lift (DewMaster._write l self (str seconds)) ;;;
  ack <- lift (DewMaster._read_lines l self) ;;
  print [Txt (String.concat (String "010"%char ":") ack)].

(** The line [read_stream] prints for a parsed line; the field width of
    [{dp:6.2f}] is not kept. *)
Definition stream_line (dp at_ rh : pyval) : line :=
  [Txt "DP="; Fixed 2 dp; Txt "°C  AT="; Fixed 2 at_; Txt "°C  RH=";
   Fixed 2 rh; Txt "%"].

Definition group (groups : gmap string string) (name : string) : string :=
  match groups !! name with Some v => v | None => EmptyString end.

(** The body of the loop of [read_stream] on the texts that [readline]
    delivers. *)
Fixpoint stream (raw : list string) : M unit :=
  match raw with
  | [] => ret tt
  | text :: raw' =>
      let line := Builtins.strip text in
      if negb (DewMaster.nonempty line) then stream raw'
      else
        match Re.search DewMaster.data_pattern line with
        | Some groups =>
            dp <- lift (Builtins.float (group groups "dp")) ;;
            at_ <- lift (Builtins.float (group groups "at")) ;;
            rh <- lift (Builtins.float (group groups "rh")) ;;
            print (stream_line dp at_ rh) ;;;
            stream raw'
        | None => stream raw'
        end
  end.

(** Read continuous automatic output for a given duration
    ([DewMaster.read_stream]).  With a duration that is not positive the
    loop does not run: nothing is read, not even [self.ser]. *)
Definition read_stream (l : lab) (self : DewMaster.t) (duration : Q)
  : M unit :=
  print [Txt "Reading continuous output for "; Val (PyFloatDec duration);
         Txt "s..."] ;;;
  if Qle_bool duration 0 then print [Txt "Done."]
  else
    match DewMaster.ser self with
    | None => raise (AttributeError "NoneType" "readline")
    | Some s =>
        raw <- lift (Pyserial.readlines l s) ;;
        stream raw ;;;
        print [Txt "Done."]
    end.

(** [__enter__] and [__exit__] of [DewMaster], and the [with] statement
    over them: [__exit__] disconnects and returns [None], so an exception
    of the body goes on after it. *)
Definition __enter__ (l : lab) (self : DewMaster.t)
  : DewMaster.t * M DewMaster.t :=
  let '(h, connected) := DewMaster.connect l self in
  (h, connected ;;; ret h).

Definition __exit__ (self : DewMaster.t) : M DewMaster.t :=
  DewMaster.disconnect self.

(** [with DewMaster(...) as h: body]: when [__enter__] raises, neither the
    body nor [__exit__] runs, and the object stays as [connect] left it. *)
Definition with_ {A : Type} (l : lab) (self : DewMaster.t)
    (body : DewMaster.t -> M A) : DewMaster.t * M A :=
  match __enter__ l self with
  | (h, (out, Raise e)) => (h, (out, Raise e))
  | (_, (out, Ok h)) =>
      let '(out_body, r) := body h in
      match __exit__ h with
      | (out_exit, Ok h') => (h', ((out ++ out_body ++ out_exit)%list, r))
      | (out_exit, Raise e) =>
          (h, ((out ++ out_body ++ out_exit)%list, Raise e))
      end
  end.

(** The port of a driver is open. *)
Definition port_open (self : DewMaster.t) : bool :=
  match DewMaster.ser self with
  | Some s => Pyserial.is_open s
  | None => false
  end.

End Hygro.

(** ** The start of [main] (main.py) *)

Module Main.

(** The command line after [parse_cli_args]. *)
Record Args : Type := {
  config : string;               (* --config, default "config.py" *)
  interval : Q;                  (* --interval, default 1.0 *)
  dry_flow : option binary64;    (* --dry-flow *)
  wet_flow : option binary64     (* --wet-flow *)
}.

(** What loading the configuration file gives; [CONFIG], when the module
    has it, is a dictionary. *)
Inductive config_file : Type :=
  | Loaded (CONFIG : gmap string pyval)
  | NoCONFIG                     (* the module has no attribute CONFIG *)
  | NotFound                     (* FileNotFoundError *)
  | LoadFailed.                  (* any other Exception *)

Definition defaults : gmap string pyval :=
  list_to_map [
    ("log_dir", PyStr "data"); ("log_prefix", PyStr "nsim_log");
    ("max_plot_points", PyInt 500); ("plot_update_interval", PyInt 1000);
    ("mfc_baudrate", PyInt 9600); ("hygrometer_baudrate", PyInt 9600) ].

(** [config.update(CONFIG)]: the keys of the file win. *)
Definition build_config (args : Args) (file : config_file)
  : M (gmap string pyval) :=
  match config args with
  | EmptyString => ret defaults
  | _ =>
      match file with
      | Loaded CONFIG => ret (CONFIG ∪ defaults)
      | NoCONFIG => ret defaults
      | NotFound =>
          print [Txt "Config file not found: "; Val (PyStr (config args))] ;;;
          print [Txt "Using default configuration and command-line arguments"] ;;;
          ret defaults
      | LoadFailed =>
          print [Txt "Error loading config"] ;;;
          print [Txt "Using default configuration and command-line arguments"] ;;;
          ret defaults
      end
  end.

(** [s.lower()] on ASCII. *)
Definition lower_char (a : ascii) : ascii :=
  let n := nat_of_ascii a in
  if (65 <=? n)%nat && (n <=? 90)%nat then ascii_of_nat (n + 32) else a.

Fixpoint lower (s : string) : string :=
  match s with
  | EmptyString => EmptyString
  | String a s' => String (lower_char a) (lower s')
  end.

(** ["=" * 60]. *)
Definition rule : string :=
  "============================================================".

(** How [main] gets to the call of [start_monitoring], if it does. *)
Inductive startup : Type :=
  | Monitor (c : Controller.t) (l : lab)   (* goes on to monitor *)
  | Exit (c : Controller.t).               (* [return] after "Exiting..." *)

(** [main] up to the call of [start_monitoring]: the configuration, the
    controller, the connections, the question after a failed connection
    ([response] is what the operator types) and the setpoints. *)
Definition start (b : Controller.bindings) (args : Args) (file : config_file)
    (response : string) (l : lab) : M startup :=
  cfg <- build_config args file ;;
  print [Txt rule] ;;;
  print [Txt "N-SIM Microscope Environmental Control System"] ;;;
  print [Txt rule] ;;;
  let controller := Controller.__init__ cfg in
  r <- Controller.connect_devices l controller ;;
  let controller := snd r in
  go_on <-
    (if negb (fst r) then
       print [Txt "Warning: Some devices failed to connect"] ;;;
       print [Txt "Continue anyway? (y/n): "] ;;;
       if negb (String.eqb (lower response) "y") then
         print [Txt "Exiting..."] ;;; ret false
       else ret true
     else ret true) ;;
  if negb go_on then ret (Exit controller)
  else
    match dry_flow args, wet_flow args with
    | None, None => ret (Monitor controller l)
    | _, _ =>
        l' <- Controller.set_flow_rates b l controller
                (dry_flow args) (wet_flow args) ;;
        ret (Monitor controller l')
    end.

(** The [finally] clause of [main]. *)
Definition shutdown (c : Controller.t) : M Controller.t :=
  c' <- Controller.stop c ;;
  print [Txt "System shutdown complete"] ;;;
  ret c'.

End Main.

(** ** Auxiliary notions for the further properties *)

(** The named groups of a pattern. *)
Fixpoint groups_of (r : Re.regex) : list string :=
  match r with
  | Re.Empty | Re.Chr _ | Re.Star _ _ => []
  | Re.Seq r1 r2 => (groups_of r1 ++ groups_of r2)%list
  | Re.Group name r' => name :: groups_of r'
  end.

(** The keys whose captured text [poll] converts with [float]. *)
Definition numeric_key (k : string) : bool :=
  existsb (String.eqb k) ["dp"; "at"; "rh"].

(** What [read_stream] prints for a text the parser accepts, if it does. *)
Definition streamed (text : string) : option line :=
  match DewMaster.parse (Builtins.strip text) with
  | Ok (Some d) =>
      Some (Hygro.stream_line (Controller.dict_get d "dp")
              (Controller.dict_get d "at") (Controller.dict_get d "rh"))
  | _ => None
  end.

(** The driver objects that [connect_devices] creates for a
    configuration, before it connects them. *)
Definition new_dry (c : Controller.t) (port : pyval) : VogtlinMFC.t :=
  VogtlinMFC.new port (Controller.config_get c "dry_mfc_address" (PyInt 1))
    "Dry Air MFC".

Definition new_wet (c : Controller.t) (port : pyval) : VogtlinMFC.t :=
  VogtlinMFC.new port (Controller.config_get c "wet_mfc_address" (PyInt 2))
    "Wet Air MFC".

Definition new_hygrometer (c : Controller.t) (port : pyval) : DewMaster.t :=
  DewMaster.new port
    (Controller.config_get c "hygrometer_baudrate" (PyInt 9600)).

Definition new_probe (c : Controller.t) (port : pyval) : TemperatureProbe.t :=
  TemperatureProbe.new port
    (Controller.config_get c "t_probe_baudrate" (PyInt 9600)).

(** A flow controller holds an open instrument. *)
Definition mfc_open (m : VogtlinMFC.t) : bool :=
  match VogtlinMFC.instrument m with
  | Some i => Minimalmodbus.is_open i
  | None => false
  end.

(** The controllers [c] and [c'] differ in their devices at most. *)
Definition same_but_devices (c c' : Controller.t) : Prop :=
  Controller.config c' = Controller.config c /\
  Controller.running c' = Controller.running c /\
  Controller.logger c' = Controller.logger c /\
  Controller.plotter c' = Controller.plotter c /\
  Controller.log_fields c' = Controller.log_fields c.

(** A value that [{x:.2f}] can format. *)
Definition is_number (v : pyval) : bool :=
  match v with
  | PyFloat _ | PyFloatDec _ | PyInt _ | PyBool _ => true
  | _ => false
  end.

(** The seven channels that [start_monitoring] displays are numbers. *)
Definition displayable (d : Reading.t) : bool :=
  is_number (Reading.dry_flow d) && is_number (Reading.dry_setpoint d) &&
  is_number (Reading.wet_flow d) && is_number (Reading.wet_setpoint d) &&
  is_number (Reading.ambient_temp d) && is_number (Reading.dewpoint_temp d) &&
  is_number (Reading.relative_humidity d).


(** What a flow channel of a reading holds: nothing, or a float read from
    a controller. *)
Definition flow_value (v : pyval) : Prop :=
  v = PyNone \/ exists f, v = PyFloat f.

(** The error of [f"{None:.2f}"]. *)
Definition none_format_error : exn :=
  TypeError "unsupported format string passed to NoneType.__format__".

(** * Properties *)

(** ** Register codec *)

Section Codec.

Lemma lor_shiftl_add (a b n : Z) :
  0 <= n -> 0 <= b < 2 ^ n -> Z.lor (Z.shiftl a n) b = a * 2 ^ n + b.
Proof.
  intros Hn Hb.
  assert (Hland : Z.land (Z.shiftl a n) b = 0).
  { apply Z.bits_inj'. intros m Hm.
    rewrite Z.land_spec, Z.bits_0.
    destruct (Z.ltb_spec m n) as [Hlt|Hge].
    - rewrite Z.shiftl_spec_low by assumption. reflexivity.
    - rewrite <- (Z.mod_small b (2 ^ n)) by assumption.
      rewrite Z.mod_pow2_bits_high by lia.
      apply andb_false_r. }
  pose proof (Z.add_lor_land (Z.shiftl a n) b) as Hadd.
  rewrite Hland, Z.shiftl_mul_pow2 in Hadd by assumption.
  rewrite Z.shiftl_mul_pow2 by assumption. lia.
Qed.

Lemma bits_of_sum (v : binary32) :
  wf32 v ->
  bits_of v = (if sign v then 1 else 0) * 2 ^ 31 + expo v * 2 ^ 23 + frac v.
Proof.
  intros [He Hf]. unfold bits_of.
  rewrite (lor_shiftl_add (expo v) (frac v) 23) by lia.
  rewrite lor_shiftl_add; [lia | lia |].
  change (2 ^ 31) with 2147483648. change (2 ^ 23) with 8388608 in *. lia.
Qed.

Lemma of_bits_of (v : binary32) : wf32 v -> of_bits (bits_of v) = v.
Proof.
  intros Hwf. pose proof Hwf as [He Hf].
  rewrite bits_of_sum by assumption.
  destruct v as [s e f]; simpl in *.
  unfold of_bits. f_equal.
  - rewrite Z.testbit_eqb by lia.
    change (2 ^ 31) with 2147483648. change (2 ^ 23) with 8388608 in *.
    destruct s; apply Z.eqb_eq || apply Z.eqb_neq;
      Z.div_mod_to_equations; lia.
  - rewrite Z.shiftr_div_pow2 by lia.
    change 255 with (Z.ones 8). rewrite Z.land_ones by lia.
    change (2 ^ 31) with 2147483648. change (2 ^ 23) with 8388608 in *.
    change (2 ^ 8) with 256.
    destruct s; Z.div_mod_to_equations; lia.
  - rewrite Z.land_ones by lia.
    change (2 ^ 31) with 2147483648. change (2 ^ 23) with 8388608 in *.
    destruct s; Z.div_mod_to_equations; lia.
Qed.

Lemma bits_of_range (v : binary32) : wf32 v -> 0 <= bits_of v < 2 ^ 32.
Proof.
  intros Hwf. rewrite bits_of_sum by assumption. destruct Hwf as [He Hf].
  change (2 ^ 32) with 4294967296.
  change (2 ^ 31) with 2147483648. change (2 ^ 23) with 8388608 in *.
  destruct (sign v); lia.
Qed.

(** Splitting a 32-bit pattern into bytes, pairing the bytes into registers
    and gluing them again gives the pattern back. *)
Lemma pattern_split (b : Z) :
  0 <= b < 2 ^ 32 ->
  let b0 := Z.land (Z.shiftr b 24) 255 in
  let b1 := Z.land (Z.shiftr b 16) 255 in
  let b2 := Z.land (Z.shiftr b 8) 255 in
  let b3 := Z.land b 255 in
  let hi := Z.lor (Z.shiftl b0 8) b1 in
  let lo := Z.lor (Z.shiftl b2 8) b3 in
  is_u16 hi = true /\ is_u16 lo = true /\
  Z.lor (Z.shiftl (Z.shiftr hi 8) 24)
    (Z.lor (Z.shiftl (Z.land hi 255) 16)
       (Z.lor (Z.shiftl (Z.shiftr lo 8) 8) (Z.land lo 255))) = b.
Proof.
  intros Hb. cbv zeta.
  change 255 with (Z.ones 8).
  rewrite !Z.land_ones, !Z.shiftr_div_pow2 by lia.
  assert (H256 : forall x, 0 <= x mod 2 ^ 8 < 2 ^ 8)
    by (intros x; apply Z.mod_pos_bound; lia).
  rewrite !(lor_shiftl_add _ (_ mod 2 ^ 8) 8) by (try apply H256; lia).
  change (2 ^ 32) with 4294967296 in Hb.
  change (2 ^ 8) with 256 in *. change (2 ^ 16) with 65536.
  change (2 ^ 24) with 16777216.
  set (b0 := (b / 16777216) mod 256). set (b1 := (b / 65536) mod 256).
  set (b2 := (b / 256) mod 256). set (b3 := b mod 256).
  assert (R0 : 0 <= b0 < 256) by apply H256.
  assert (R1 : 0 <= b1 < 256) by apply H256.
  assert (R2 : 0 <= b2 < 256) by apply H256.
  assert (R3 : 0 <= b3 < 256) by apply H256.
  assert (Hhi1 : (b0 * 256 + b1) / 256 = b0)
    by (Z.div_mod_to_equations; lia).
  assert (Hhi2 : (b0 * 256 + b1) mod 256 = b1)
    by (Z.div_mod_to_equations; lia).
  assert (Hlo1 : (b2 * 256 + b3) / 256 = b2)
    by (Z.div_mod_to_equations; lia).
  assert (Hlo2 : (b2 * 256 + b3) mod 256 = b3)
    by (Z.div_mod_to_equations; lia).
  rewrite Hhi1, Hhi2, Hlo1, Hlo2.
  split; [| split].
  - unfold is_u16. apply andb_true_iff; split;
      [apply Z.leb_le | apply Z.leb_le]; lia.
  - unfold is_u16. apply andb_true_iff; split;
      [apply Z.leb_le | apply Z.leb_le]; lia.
  - rewrite (lor_shiftl_add b1 _ 16) by (change (2 ^ 8) with 256; change (2 ^ 16) with 65536; lia).
    rewrite (lor_shiftl_add b0 _ 24)
      by (change (2 ^ 8) with 256; change (2 ^ 16) with 65536;
          change (2 ^ 24) with 16777216; lia).
    change (2 ^ 8) with 256. change (2 ^ 16) with 65536.
    change (2 ^ 24) with 16777216.
    subst b0 b1 b2 b3. Z.div_mod_to_equations. lia.
Qed.

Lemma quieted_range (f : Z) :
  0 <= f < 2 ^ 23 -> 2 ^ 22 <= quieted f < 2 ^ 23.
Proof.
  intros Hf. unfold quieted.
  change (2 ^ 22) with 4194304 in *. change (2 ^ 23) with 8388608 in *.
  destruct (Z.ltb_spec f 4194304); lia.
Qed.

Lemma quieted_idem (f : Z) : 0 <= f < 2 ^ 23 -> quieted (quieted f) = quieted f.
Proof.
  intros Hf. pose proof (quieted_range f Hf) as H.
  unfold quieted at 1. destruct (Z.ltb_spec (quieted f) (2 ^ 22)); lia.
Qed.

Lemma widen_wf (v : binary32) : wf32 v -> wf64 (widen v).
Proof.
  intros [He Hf]. unfold widen, wf64.
  change (2 ^ 23) with 8388608 in Hf.
  destruct (Z.eqb_spec (expo v) 255) as [E255 | E255].
  - destruct (Z.eqb_spec (frac v) 0); simpl; [lia |].
    pose proof (quieted_range (frac v)) as Hq.
    change (2 ^ 22) with 4194304 in Hq. change (2 ^ 23) with 8388608 in Hq.
    change (2 ^ 29) with 536870912. change (2 ^ 52) with 4503599627370496.
    lia.
  - destruct (Z.eqb_spec (expo v) 0) as [E0 | E0].
    + destruct (Z.eqb_spec (frac v) 0) as [F0 | F0]; simpl; [lia |].
      assert (Hpos : 0 < frac v) by lia.
      pose proof (Z.log2_nonneg (frac v)) as Hk0.
      assert (Hk : Z.log2 (frac v) < 23)
        by (apply Z.log2_lt_pow2; [exact Hpos | lia]).
      destruct (Z.log2_spec (frac v) Hpos) as [Hlo Hhi].
      set (k := Z.log2 (frac v)) in *.
      assert (Hsplit : 2 ^ 52 = 2 ^ k * 2 ^ (52 - k))
        by (rewrite <- Z.pow_add_r by lia; f_equal; lia).
      assert (Hsucc : 2 ^ Z.succ k = 2 * 2 ^ k)
        by (rewrite Z.pow_succ_r by lia; reflexivity).
      assert (Hc : 0 < 2 ^ (52 - k)) by (apply Z.pow_pos_nonneg; lia).
      split; [lia |]. split; [nia |]. rewrite Hsplit. nia.
    + simpl. change (2 ^ 29) with 536870912.
      change (2 ^ 52) with 4503599627370496. lia.
Qed.

Lemma round_half_even_exact (q shift : Z) :
  0 < shift -> round_half_even (q * 2 ^ shift) shift = q.
Proof.
  intros Hs. unfold round_half_even.
  assert (Hp : 0 < 2 ^ shift) by (apply Z.pow_pos_nonneg; lia).
  assert (Hh : 0 < 2 ^ (shift - 1)) by (apply Z.pow_pos_nonneg; lia).
  rewrite Z.div_mul by lia. rewrite Z.mod_mul by lia.
  destruct (Z.ltb_spec 0 (2 ^ (shift - 1))); [reflexivity | lia].
Qed.

Lemma round_half_even_bounds (m shift : Z) :
  m / 2 ^ shift <= round_half_even m shift <= m / 2 ^ shift + 1.
Proof.
  unfold round_half_even.
  destruct (_ <? _); [lia |]. destruct (_ <? _); [lia |].
  destruct (Z.even _); lia.
Qed.

(** What [narrow] gives for a finite float that is a binary32 number: the
    number itself. *)
Lemma narrow_exact (s : bool) (E F q e' : Z) :
  E <> 2047 ->
  let m := if E =? 0 then F else 2 ^ 52 + F in
  let e := (if E =? 0 then 1 else E) - 1075 in
  Z.max (e + Z.log2 m + 1 - 24) (- 149) = e' ->
  e < e' -> m = q * 2 ^ (e' - e) ->
  0 <= (e' + 149) * 2 ^ 23 + q < 255 * 2 ^ 23 ->
  narrow (B64 s E F)
  = Ok (B32 s (((e' + 149) * 2 ^ 23 + q) / 2 ^ 23)
              (((e' + 149) * 2 ^ 23 + q) mod 2 ^ 23)).
Proof.
  intros HE m e He' Hlt Hm Hmag. unfold narrow.
  cbn [expo64 frac64 sign64].
  destruct (Z.eqb_spec E 2047); [contradiction |].
  fold m. fold e. rewrite He'. rewrite Hm.
  rewrite round_half_even_exact by lia.
  destruct (Z.leb_spec (255 * 2 ^ 23) ((e' + 149) * 2 ^ 23 + q));
    [lia | reflexivity].
Qed.

(** Narrowing undoes widening, up to the quieting of a NaN. *)
Lemma narrow_widen (v : binary32) :
  wf32 v -> narrow (widen v) = Ok (quiet v).
Proof.
  intros [He Hf]. destruct v as [s e f]. cbn [expo frac sign] in *.
  unfold widen, quiet, is_nan. cbn [expo frac sign].
  change (2 ^ 23) with 8388608 in Hf.
  destruct (Z.eqb_spec e 255) as [E255 | E255].
  - subst e. destruct (Z.eqb_spec f 0) as [F0 | F0].
    + subst f. reflexivity.
    + cbn [andb negb]. unfold narrow. cbn [expo64 frac64 sign64].
      pose proof (quieted_range f) as Hq.
      change (2 ^ 22) with 4194304 in Hq. change (2 ^ 23) with 8388608 in Hq.
      destruct (Z.eqb_spec (quieted f * 2 ^ 29) 0) as [Z0 | Z0].
      * change (2 ^ 29) with 536870912 in Z0. lia.
      * change (2047 =? 2047) with true. cbv iota.
        rewrite Z.div_mul by (change (2 ^ 29) with 536870912; lia).
        rewrite quieted_idem by (change (2 ^ 23) with 8388608; lia).
        reflexivity.
  - cbn [andb].
    destruct (Z.eqb_spec e 0) as [E0 | E0].
    + subst e. destruct (Z.eqb_spec f 0) as [F0 | F0].
      * subst f. destruct s; reflexivity.
      * assert (Hpos : 0 < f) by lia.
        pose proof (Z.log2_nonneg f) as Hk0.
        assert (Hk : Z.log2 f < 23)
          by (apply Z.log2_lt_pow2; [exact Hpos | lia]).
        set (k := Z.log2 f) in *.
        assert (Hsplit : 2 ^ 52 = 2 ^ k * 2 ^ (52 - k))
          by (rewrite <- Z.pow_add_r by lia; f_equal; lia).
        assert (Hm : 2 ^ 52 + (f - 2 ^ k) * 2 ^ (52 - k)
                     = f * 2 ^ (52 - k)) by (rewrite Hsplit; ring).
        rewrite (narrow_exact s (k + 874) _ f (- 149)).
        -- f_equal. f_equal.
           ++ change (2 ^ 23) with 8388608. apply Z.div_small. lia.
           ++ change (2 ^ 23) with 8388608. apply Z.mod_small. lia.
        -- lia.
        -- destruct (Z.eqb_spec (k + 874) 0); [lia |].
           rewrite Hm. rewrite Z.log2_mul_pow2 by lia. fold k. lia.
        -- destruct (Z.eqb_spec (k + 874) 0); lia.
        -- destruct (Z.eqb_spec (k + 874) 0); [lia |].
           rewrite Hm. f_equal. f_equal. lia.
        -- change (2 ^ 23) with 8388608. lia.
    + assert (Hm : 2 ^ 52 + f * 2 ^ 29 = (2 ^ 23 + f) * 2 ^ 29)
        by (change (2 ^ 52) with (2 ^ 23 * 2 ^ 29); ring).
      assert (Hlog : Z.log2 (2 ^ 23 + f) = 23).
      { apply Z.log2_unique; [lia |].
        change (2 ^ 23) with 8388608. change (2 ^ Z.succ 23) with 16777216.
        lia. }
      rewrite (narrow_exact s (e + 896) _ (2 ^ 23 + f) (e - 150)).
      * f_equal. change (2 ^ 23) with 8388608. f_equal.
        -- replace ((e - 150 + 149) * 8388608 + (8388608 + f))
             with (e * 8388608 + f) by ring.
           rewrite Z.div_add_l by lia. rewrite Z.div_small by lia. lia.
        -- replace ((e - 150 + 149) * 8388608 + (8388608 + f))
             with (f + e * 8388608) by ring.
           rewrite Z.mod_add by lia. apply Z.mod_small. lia.
      * lia.
      * destruct (Z.eqb_spec (e + 896) 0); [lia |].
        rewrite Hm. rewrite Z.log2_mul_pow2 by (change (2 ^ 23) with 8388608; lia).
        rewrite Hlog. lia.
      * destruct (Z.eqb_spec (e + 896) 0); lia.
      * destruct (Z.eqb_spec (e + 896) 0); [lia |].
        rewrite Hm. f_equal. f_equal. lia.
      * change (2 ^ 23) with 8388608. lia.
Qed.

Lemma quiet_wf (v : binary32) : wf32 v -> wf32 (quiet v).
Proof.
  intros [He Hf]. unfold quiet. destruct (is_nan v); [| split; assumption].
  pose proof (quieted_range (frac v) Hf) as Hq.
  change (2 ^ 22) with 4194304 in Hq. split; simpl; lia.
Qed.

Lemma widen_quiet (v : binary32) : wf32 v -> widen (quiet v) = widen v.
Proof.
  intros [He Hf]. unfold quiet, is_nan.
  destruct (Z.eqb_spec (expo v) 255) as [E | E]; [| reflexivity].
  destruct (Z.eqb_spec (frac v) 0) as [F | F]; [reflexivity |].
  cbn [andb negb]. unfold widen. cbn [expo frac sign]. rewrite E.
  change (255 =? 255) with true. cbv iota.
  pose proof (quieted_range (frac v) Hf) as Hq.
  change (2 ^ 22) with 4194304 in Hq.
  destruct (Z.eqb_spec (quieted (frac v)) 0); [lia |].
  destruct (Z.eqb_spec (frac v) 0); [contradiction |].
  rewrite quieted_idem by exact Hf. reflexivity.
Qed.

(** A signalling NaN apart, a datum is as the conversions deliver it. *)
Lemma quiet_id (v : binary32) : is_snan v = false -> quiet v = v.
Proof.
  unfold is_snan, quiet, quieted. destruct v as [s e f].
  unfold is_nan. cbn [expo frac sign].
  destruct (Z.eqb_spec e 255) as [-> |]; [| reflexivity].
  destruct (Z.eqb_spec f 0); [reflexivity |]. cbn [andb negb].
  intros ->. reflexivity.
Qed.

(** Narrowing delivers a binary32 datum, never a signalling NaN. *)
Lemma narrow_wf (x : binary64) (v : binary32) :
  wf64 x -> narrow x = Ok v -> wf32 v /\ is_snan v = false.
Proof.
  intros [He Hf]. unfold narrow.
  change (2 ^ 52) with 4503599627370496 in Hf.
  destruct (Z.eqb_spec (expo64 x) 2047) as [E | E].
  - destruct (Z.eqb_spec (frac64 x) 0) as [F | F]; intros H; inversion H.
    + split; [split; simpl; change (2 ^ 23) with 8388608; lia | reflexivity].
    + assert (Hq : 0 <= frac64 x / 2 ^ 29 < 2 ^ 23).
      { change (2 ^ 29) with 536870912. change (2 ^ 23) with 8388608.
        Z.div_mod_to_equations. lia. }
      pose proof (quieted_range _ Hq) as Hr.
      split; [split; simpl; lia |].
      unfold is_snan. cbn [frac].
      destruct (Z.ltb_spec (quieted (frac64 x / 2 ^ 29)) (2 ^ 22));
        [lia | apply andb_false_r].
  - set (m := if expo64 x =? 0 then frac64 x else 2 ^ 52 + frac64 x).
    set (e := (if expo64 x =? 0 then 1 else expo64 x) - 1075).
    set (e' := Z.max (e + Z.log2 m + 1 - 24) (- 149)).
    set (mag := (e' + 149) * 2 ^ 23 + round_half_even m (e' - e)).
    assert (Hm : 0 <= m).
    { subst m. change (2 ^ 52) with 4503599627370496.
      destruct (expo64 x =? 0); lia. }
    assert (Hmag : 0 <= mag).
    { subst mag. pose proof (round_half_even_bounds m (e' - e)) as Hb.
      assert (Hq : 0 <= m / 2 ^ (e' - e)).
      { destruct (Z.le_gt_cases 0 (e' - e)).
        - apply Z.div_pos; [exact Hm | apply Z.pow_pos_nonneg; lia].
        - rewrite Z.pow_neg_r by lia. rewrite Z.div_0_r. lia. }
      assert (He' : - 149 <= e') by (subst e'; lia).
      change (2 ^ 23) with 8388608. nia. }
    destruct (Z.leb_spec (255 * 2 ^ 23) mag) as [Hov | Hok];
      intros H; inversion H.
    change (2 ^ 23) with 8388608 in *.
    split.
    + split; simpl; Z.div_mod_to_equations; lia.
    + unfold is_snan, is_nan. cbn [expo frac].
      destruct (Z.eqb_spec (mag / 8388608) 255) as [E255 |];
        [Z.div_mod_to_equations; lia | reflexivity].
Qed.

(** The register pair that [encode] makes of a binary32 datum. *)
Lemma encode_regs (x : binary64) (v : binary32) (swap : bool) :
  narrow x = Ok v ->
  VogtlinMFC.encode x swap =
  let b := bits_of v in
  let hi := Z.lor (Z.shiftl (Z.land (Z.shiftr b 24) 255) 8)
                  (Z.land (Z.shiftr b 16) 255) in
  let lo := Z.lor (Z.shiftl (Z.land (Z.shiftr b 8) 255) 8) (Z.land b 255) in
  Ok (if swap then [lo; hi] else [hi; lo]).
Proof.
  intros H. unfold VogtlinMFC.encode, pack_f. rewrite H.
  destruct swap; reflexivity.
Qed.

Lemma encode_raises (x : binary64) (e : exn) (swap : bool) :
  narrow x = Raise e -> VogtlinMFC.encode x swap = Raise e.
Proof.
  intros H. unfold VogtlinMFC.encode, pack_f. rewrite H. reflexivity.
Qed.

Lemma decode_regs (hi lo : Z) (swap : bool) :
  is_u16 hi = true -> is_u16 lo = true ->
  VogtlinMFC.decode (if swap then [lo; hi] else [hi; lo]) swap =
  Ok (widen
        (of_bits (Z.lor (Z.shiftl (Z.shiftr hi 8) 24)
                    (Z.lor (Z.shiftl (Z.land hi 255) 16)
                       (Z.lor (Z.shiftl (Z.shiftr lo 8) 8)
                          (Z.land lo 255)))))).
Proof.
  intros Hhi Hlo. unfold VogtlinMFC.decode.
  assert (Hrev : (if swap then rev (if swap then [lo; hi] else [hi; lo])
                  else (if swap then [lo; hi] else [hi; lo])) = [hi; lo])
    by (destruct swap; reflexivity).
  rewrite Hrev. unfold pack_HH. rewrite Hhi, Hlo. reflexivity.
Qed.

(** The two words of a pattern are its quotient and remainder by [2^16]. *)
Lemma pattern_words (b : Z) :
  0 <= b < 2 ^ 32 ->
  Z.lor (Z.shiftl (Z.land (Z.shiftr b 24) 255) 8) (Z.land (Z.shiftr b 16) 255)
    * 2 ^ 16
  + Z.lor (Z.shiftl (Z.land (Z.shiftr b 8) 255) 8) (Z.land b 255) = b.
Proof.
  intros Hb. change 255 with (Z.ones 8).
  rewrite !Z.land_ones, !Z.shiftr_div_pow2 by lia.
  assert (H256 : forall x, 0 <= x mod 2 ^ 8 < 2 ^ 8)
    by (intros x; apply Z.mod_pos_bound; lia).
  rewrite !(lor_shiftl_add _ (_ mod 2 ^ 8) 8) by (try apply H256; lia).
  change (2 ^ 32) with 4294967296 in Hb.
  change (2 ^ 8) with 256 in *. change (2 ^ 16) with 65536.
  change (2 ^ 24) with 16777216.
  Z.div_mod_to_equations. lia.
Qed.

(** Writing a float and reading it back: the float that the binary32
    format keeps of it. *)
Lemma encode_then_decode (x : binary64) (v : binary32) (swap : bool) :
  wf64 x -> narrow x = Ok v ->
  exists r0 r1 : Z,
    VogtlinMFC.encode x swap = Ok [r0; r1] /\
    is_u16 r0 = true /\ is_u16 r1 = true /\
    VogtlinMFC.decode [r0; r1] swap = Ok (widen v) /\
    (if swap then r1 else r0) * 2 ^ 16 + (if swap then r0 else r1)
    = bits_of v.
Proof.
  intros Hx Hn. destruct (narrow_wf x v Hx Hn) as [Hwf _].
  pose proof (pattern_split (bits_of v) (bits_of_range v Hwf)) as Hsplit.
  cbv zeta in Hsplit. destruct Hsplit as (Hhi & Hlo & Hglue).
  pose proof (pattern_words (bits_of v) (bits_of_range v Hwf)) as Hwords.
  rewrite (encode_regs x v swap Hn). cbv zeta.
  set (hi := Z.lor _ _) in *. set (lo := Z.lor _ (Z.land (bits_of v) 255)) in *.
  pose proof (decode_regs hi lo swap Hhi Hlo) as Hdec.
  rewrite Hglue, (of_bits_of v Hwf) in Hdec.
  destruct swap; [exists lo, hi | exists hi, lo]; auto 10.
Qed.

Lemma round_trip_registers (v : binary32) (swap : bool) :
  wf32 v ->
  exists r0 r1 : Z,
    VogtlinMFC.encode (widen v) swap = Ok [r0; r1] /\
    is_u16 r0 = true /\ is_u16 r1 = true /\
    VogtlinMFC.decode [r0; r1] swap = Ok (widen v) /\
    (if swap then r1 else r0) * 2 ^ 16 + (if swap then r0 else r1)
    = bits_of (quiet v).
Proof.
  intros Hwf.
  destruct (encode_then_decode (widen v) (quiet v) swap (widen_wf v Hwf)
              (narrow_widen v Hwf)) as (r0 & r1 & He & H0 & H1 & Hd & Hb).
  rewrite (widen_quiet v Hwf) in Hd. exists r0, r1. auto 10.
Qed.

(** C3 (amended). For every binary32 datum [v] (zero, negative, subnormal,
    normal, infinite or NaN alike), held as the float that unpacking
    delivers for it, and for each setting of the swap flag: the encoding is
    a pair of unsigned 16-bit registers, decoding that pair with the same
    flag returns the float bit for bit, and nothing is rejected.  The
    registers hold the pattern of [v] itself unless [v] is a signalling
    NaN, whose pattern is not preserved: it is stored quiet. *)
Theorem float_codec_round_trip (v : binary32) (swap : bool) :
  wf32 v ->
  exists r0 r1 : Z,
    VogtlinMFC.encode (widen v) swap = Ok [r0; r1] /\
    is_u16 r0 = true /\ is_u16 r1 = true /\
    VogtlinMFC.decode [r0; r1] swap = Ok (widen v) /\
    (if swap then r1 else r0) * 2 ^ 16 + (if swap then r0 else r1)
    = bits_of (if is_snan v then B32 (sign v) 255 (frac v + 2 ^ 22) else v).
Proof.
  intros Hwf.
  destruct (round_trip_registers v swap Hwf)
    as (r0 & r1 & He & H0 & H1 & Hd & Hb).
  exists r0, r1. repeat (split; [assumption |]).
  rewrite Hb. f_equal.
  destruct (is_snan v) eqn:Hs; [| apply quiet_id; exact Hs].
  unfold is_snan in Hs. apply andb_true_iff in Hs. destruct Hs as [Hn Hlt].
  unfold quiet, quieted. rewrite Hn, Hlt. reflexivity.
Qed.

(** The same through the instrument: what [_write_float] stored in the
    registers of a controller, [_read_float] reads back as the binary32
    format keeps it. *)
Lemma write_then_read_float (l l' : lab) (m : VogtlinMFC.t) (a : Z)
    (x : binary64) (swap : bool) :
  wf64 x ->
  VogtlinMFC._write_float l m a x swap = Ok l' ->
  VogtlinMFC._read_float l' m a swap = as_binary32 x.
Proof.
  intros Hwf Hwrite. unfold as_binary32.
  destruct (narrow x) as [v|e] eqn:Hn.
  2:{ unfold VogtlinMFC._write_float in Hwrite.
      rewrite (encode_raises x e swap Hn) in Hwrite. discriminate. }
  destruct (encode_then_decode x v swap Hwf Hn)
    as (r0 & r1 & He & _ & _ & Hd & _).
  unfold VogtlinMFC._write_float in Hwrite. rewrite He in Hwrite.
  unfold VogtlinMFC._read_float, VogtlinMFC.instrument_read.
  unfold VogtlinMFC.instrument_write in Hwrite.
  destruct (VogtlinMFC.instrument m) as [i|]; [| discriminate].
  unfold Minimalmodbus.write_registers in Hwrite.
  unfold Minimalmodbus.read_registers.
  destruct (slaves l !! (Minimalmodbus.port i, Minimalmodbus.address i))
    as [s|]; [| discriminate].
  destruct (fault s); [discriminate |].
  destruct (forallb is_u16 [r0; r1]); [| discriminate].
  inversion Hwrite; subst l'; clear Hwrite. simpl.
  rewrite lookup_insert_eq. simpl.
  rewrite lookup_insert_ne by lia. rewrite lookup_insert_eq.
  rewrite lookup_insert_eq. exact Hd.
Qed.

(** A float that is a binary32 number is kept as it is. *)
Lemma as_binary32_widen (v : binary32) :
  wf32 v -> as_binary32 (widen v) = Ok (widen v).
Proof.
  intros Hwf. unfold as_binary32. rewrite (narrow_widen v Hwf). simpl.
  rewrite (widen_quiet v Hwf). reflexivity.
Qed.

End Codec.

(** ** The matcher finds only texts of the pattern's language *)

Section MatcherSound.

Context {R : Type}.

Lemma star_greedy_sound (c : Re.cclass) (k : list ascii -> option R)
    (s : list ascii) (res : R) :
  Re.star_greedy c k s = Some res ->
  exists s1 s2, s = (s1 ++ s2)%list /\
    Forall (fun a => Re.cc_match c a = true) s1 /\ k s2 = Some res.
Proof.
  induction s as [|a s IH]; simpl; intros H.
  - exists [], []. auto.
  - destruct (Re.cc_match c a) eqn:Ha.
    + destruct (Re.star_greedy c k s) as [r|] eqn:Hs.
      * destruct (IH H) as (s1 & s2 & -> & Hall & Hk).
        exists (a :: s1), s2. auto.
      * exists [], (a :: s). auto.
    + exists [], (a :: s). auto.
Qed.

Lemma star_lazy_sound (c : Re.cclass) (k : list ascii -> option R)
    (s : list ascii) (res : R) :
  Re.star_lazy c k s = Some res ->
  exists s1 s2, s = (s1 ++ s2)%list /\
    Forall (fun a => Re.cc_match c a = true) s1 /\ k s2 = Some res.
Proof.
  induction s as [|a s IH]; simpl; intros H.
  - destruct (k []) eqn:Hk; [| discriminate].
    exists [], []. rewrite Hk. auto.
  - destruct (k (a :: s)) eqn:Hk.
    + exists [], (a :: s). rewrite Hk. auto.
    + destruct (Re.cc_match c a) eqn:Ha; [| discriminate].
      destruct (IH H) as (s1 & s2 & -> & Hall & Hk').
      exists (a :: s1), s2. auto.
Qed.

Lemma run_sound (r : Re.regex) :
  forall (s : list ascii) (caps : gmap string string)
         (k : list ascii -> gmap string string -> option R) (res : R),
    Re.run r s caps k = Some res ->
    exists s1 s2 caps', s = (s1 ++ s2)%list /\ Re.lang r s1 /\
      k s2 caps' = Some res.
Proof.
  induction r as [|c|r1 IH1 r2 IH2|g c|name r IH]; simpl; intros s caps k res H.
  - exists [], s, caps. auto.
  - destruct s as [|a s]; [discriminate |].
    destruct (Re.cc_match c a) eqn:Ha; [| discriminate].
    exists [a], s, caps. eauto.
  - destruct (IH1 _ _ _ _ H) as (s1 & s2 & caps1 & -> & L1 & H2).
    destruct (IH2 _ _ _ _ H2) as (s3 & s4 & caps2 & -> & L2 & H3).
    exists (s1 ++ s3)%list, s4, caps2.
    rewrite <- app_assoc. eauto 8.
  - destruct g.
    + destruct (star_greedy_sound _ _ _ _ H) as (s1 & s2 & -> & Hall & Hk).
      exists s1, s2, caps. auto.
    + destruct (star_lazy_sound _ _ _ _ H) as (s1 & s2 & -> & Hall & Hk).
      exists s1, s2, caps. auto.
  - destruct (IH _ _ _ _ H) as (s1 & s2 & caps1 & -> & L & Hk).
    eauto 8.
Qed.

End MatcherSound.

Lemma search_from_sound (r : Re.regex) (s : list ascii)
    (caps : gmap string string) :
  Re.search_from r s = Some caps ->
  exists pre mid post, s = (pre ++ mid ++ post)%list /\ Re.lang r mid.
Proof.
  induction s as [|a s IH]; simpl; intros H.
  - destruct (Re.run r [] ∅ _) eqn:Hrun; [| discriminate].
    destruct (run_sound _ _ _ _ _ Hrun) as (s1 & s2 & _ & Heq & L & _).
    exists [], s1, s2. auto.
  - destruct (Re.run r (a :: s) ∅ _) eqn:Hrun.
    + destruct (run_sound _ _ _ _ _ Hrun) as (s1 & s2 & _ & Heq & L & _).
      exists [], s1, s2. auto.
    + destruct (IH H) as (pre & mid & post & -> & L).
      exists (a :: pre), mid, post. auto.
Qed.

(** ** What a matching telemetry line must contain *)

Section LineShape.

Lemma lang_text (t : string) (w : list ascii) :
  Re.lang (Re.text t) w -> w = list_ascii_of_string t.
Proof.
  revert w. induction t as [|a t IH]; simpl; intros w H.
  - exact H.
  - destruct H as (w1 & w2 & -> & (a' & -> & Ha) & H2).
    unfold Re.cc_match in Ha. simpl in Ha.
    rewrite orb_false_r in Ha. apply Ascii.eqb_eq in Ha. subst a'.
    simpl. f_equal. apply IH. exact H2.
Qed.

Lemma lang_spaces (w : list ascii) :
  Re.lang DewMaster.spaces w -> DewMaster.blank w.
Proof.
  simpl. unfold DewMaster.blank. intros H.
  eapply Forall_impl; [exact H |].
  intros a Ha. unfold Re.cc_match in Ha. simpl in Ha.
  rewrite orb_false_r in Ha. exact Ha.
Qed.

Lemma lang_number (w : list ascii) :
  Re.lang DewMaster.number w ->
  exists c more, w = c :: more /\
    Re.cc_match DewMaster.value_chars c = true.
Proof.
  simpl. intros (w1 & w2 & -> & (c & -> & Hc) & _).
  exists c, w2. auto.
Qed.

Lemma lang_seq_skip (rs1 rs2 : list Re.regex) (w : list ascii) :
  Re.lang (Re.seq (rs1 ++ rs2)) w ->
  exists w1 w2, w = (w1 ++ w2)%list /\ Re.lang (Re.seq rs2) w2.
Proof.
  revert w. induction rs1 as [|r rs1 IH]; simpl; intros w H.
  - exists [], w. auto.
  - destruct H as (w1 & w2 & -> & _ & H2).
    destruct (IH _ H2) as (w3 & w4 & -> & H4).
    exists (w1 ++ w3)%list, w4. rewrite <- app_assoc. auto.
Qed.

Lemma lang_field (label group : string) (tail : list Re.regex)
    (w : list ascii) :
  Re.lang
    (Re.seq (Re.text label :: DewMaster.spaces :: Re.text "="
             :: DewMaster.spaces :: Re.Group group DewMaster.number :: tail))
    w ->
  field_then label tail w.
Proof.
  intros H.
  change (Re.seq (?a :: ?rs)) with (Re.Seq a (Re.seq rs)) in H.
  destruct H as (w1 & r1 & -> & Hl & H).
  change (Re.seq (?a :: ?rs)) with (Re.Seq a (Re.seq rs)) in H.
  destruct H as (w2 & r2 & -> & Hs1 & H).
  change (Re.seq (?a :: ?rs)) with (Re.Seq a (Re.seq rs)) in H.
  destruct H as (w3 & r3 & -> & He & H).
  change (Re.seq (?a :: ?rs)) with (Re.Seq a (Re.seq rs)) in H.
  destruct H as (w4 & r4 & -> & Hs2 & H).
  change (Re.seq (?a :: ?rs)) with (Re.Seq a (Re.seq rs)) in H.
  destruct H as (w5 & r5 & -> & Hn & H).
  apply lang_text in Hl. apply lang_text in He. subst w1 w3.
  apply lang_spaces in Hs1. apply lang_spaces in Hs2.
  change (Re.lang (Re.Group group DewMaster.number) w5)
    with (Re.lang DewMaster.number w5) in Hn.
  apply lang_number in Hn. destruct Hn as (c & more & -> & Hc).
  exists w2, w4, more, r5, c. simpl. auto 6.
Qed.

Lemma field_then_has_field (label : string) (tail : list Re.regex)
    (line : string) (pre w post : list ascii) :
  list_ascii_of_string line = (pre ++ w ++ post)%list ->
  field_then label tail w ->
  DewMaster.has_field label line.
Proof.
  intros Hline (ws1 & ws2 & more & rest & c & -> & B1 & B2 & Hc & _).
  exists pre, ws1, ws2, (more ++ rest ++ post)%list, c.
  split; [| auto].
  rewrite Hline. repeat (rewrite <- ?app_assoc; simpl). reflexivity.
Qed.

End LineShape.

Section ParserRejects.

Lemma nest (line : string) (a w b c w' d : list ascii) :
  list_ascii_of_string line = (a ++ w ++ b)%list ->
  w = (c ++ w' ++ d)%list ->
  list_ascii_of_string line = ((a ++ c) ++ w' ++ (d ++ b))%list.
Proof. intros -> ->. rewrite <- !app_assoc. reflexivity. Qed.

Lemma field_then_rest (label : string) (tail : list Re.regex)
    (w : list ascii) :
  field_then label tail w ->
  exists head rest, w = (head ++ rest ++ [])%list /\
    Re.lang (Re.seq tail) rest.
Proof.
  intros (ws1 & ws2 & more & rest & c & -> & _ & _ & _ & Hrest).
  exists (list_ascii_of_string label ++ ws1 ++ "="%char :: ws2
            ++ c :: more)%list, rest.
  split; [| exact Hrest].
  rewrite app_nil_r. repeat (rewrite <- ?app_assoc; simpl). reflexivity.
Qed.

(** A line in which [data_pattern] is found carries the three labelled
    fields. *)
Lemma search_needs_fields (line : string) (groups : gmap string string) :
  Re.search DewMaster.data_pattern line = Some groups ->
  DewMaster.has_field "DP" line /\ DewMaster.has_field "AT" line /\
  DewMaster.has_field "RH" line.
Proof.
  unfold Re.search. intros H.
  apply search_from_sound in H.
  destruct H as (pre & mid & post & Hline & Hmid).
  (* the DP field, after date, blanks, time and filler *)
  change DewMaster.data_pattern with
    (Re.seq ([ Re.Group "date"
                 (Re.seq [DewMaster.digit2; Re.text "/"; DewMaster.digit2;
                          Re.text "/"; DewMaster.digit2]);
               Re.plus [Re.Space];
               Re.Group "time"
                 (Re.seq [DewMaster.digit2; Re.text ":"; DewMaster.digit2;
                          Re.text ":"; DewMaster.digit2]);
               DewMaster.anything ] ++
             Re.text "DP" :: DewMaster.spaces :: Re.text "="
             :: DewMaster.spaces :: Re.Group "dp" DewMaster.number
             :: ([DewMaster.spaces; Re.text "C"; DewMaster.anything]
                 ++ at_field_on))) in Hmid.
  apply lang_seq_skip in Hmid. destruct Hmid as (w1 & w2 & Hw & Hdp).
  apply lang_field in Hdp.
  assert (Hw' : mid = (w1 ++ w2 ++ [])%list) by (rewrite app_nil_r; exact Hw).
  pose proof (nest _ _ _ _ _ _ _ Hline Hw') as Hline2.
  split; [exact (field_then_has_field _ _ _ _ _ _ Hline2 Hdp) |].
  (* the AT field, after the unit and filler *)
  destruct (field_then_rest _ _ _ Hdp) as (h2 & rest2 & Hw2 & Hrest2).
  pose proof (nest _ _ _ _ _ _ _ Hline2 Hw2) as Hline3.
  apply lang_seq_skip in Hrest2. destruct Hrest2 as (u1 & u2 & Hu & Hat).
  unfold at_field_on in Hat.
  change (Re.seq
            [Re.text "AT"; DewMaster.spaces; Re.text "="; DewMaster.spaces;
             Re.Group "at" DewMaster.number; DewMaster.spaces; Re.text "C";
             DewMaster.anything; Re.text "RH"; DewMaster.spaces;
             Re.text "="; DewMaster.spaces; Re.Group "rh" DewMaster.number])
    with
    (Re.seq (Re.text "AT" :: DewMaster.spaces :: Re.text "="
             :: DewMaster.spaces :: Re.Group "at" DewMaster.number
             :: ([DewMaster.spaces; Re.text "C"; DewMaster.anything]
                 ++ [Re.text "RH"; DewMaster.spaces; Re.text "=";
                     DewMaster.spaces; Re.Group "rh" DewMaster.number])))
    in Hat.
  apply lang_field in Hat.
  assert (Hu' : rest2 = (u1 ++ u2 ++ [])%list) by (rewrite app_nil_r; exact Hu).
  pose proof (nest _ _ _ _ _ _ _ Hline3 Hu') as Hline4.
  split; [exact (field_then_has_field _ _ _ _ _ _ Hline4 Hat) |].
  (* the RH field *)
  destruct (field_then_rest _ _ _ Hat) as (h3 & rest3 & Hw3 & Hrest3).
  pose proof (nest _ _ _ _ _ _ _ Hline4 Hw3) as Hline5.
  apply lang_seq_skip in Hrest3. destruct Hrest3 as (v1 & v2 & Hv & Hrh).
  change (Re.seq
            [Re.text "RH"; DewMaster.spaces; Re.text "="; DewMaster.spaces;
             Re.Group "rh" DewMaster.number])
    with
    (Re.seq (Re.text "RH" :: DewMaster.spaces :: Re.text "="
             :: DewMaster.spaces :: Re.Group "rh" DewMaster.number :: []))
    in Hrh.
  apply lang_field in Hrh.
  assert (Hv' : rest3 = (v1 ++ v2 ++ [])%list) by (rewrite app_nil_r; exact Hv).
  pose proof (nest _ _ _ _ _ _ _ Hline5 Hv') as Hline6.
  exact (field_then_has_field _ _ _ _ _ _ Hline6 Hrh).
Qed.

Lemma parse_no_match (line : string) :
  lacks_a_field line -> DewMaster.parse line = Ok None.
Proof.
  intros Hmissing. unfold DewMaster.parse.
  destruct (Re.search DewMaster.data_pattern line) as [groups|] eqn:Hs;
    [| reflexivity].
  apply search_needs_fields in Hs. unfold lacks_a_field in Hmissing. tauto.
Qed.

(** C5. A line that lacks any one of the three labelled fields (the label
    [DP], [AT] or [RH], then an equals sign and a value, blanks allowed
    around the sign) is not matched: the telemetry-line parser returns no
    match, neither a partial dictionary nor an exception. *)
Theorem parse_rejects_missing_field (line : string) :
  ~ DewMaster.has_field "DP" line \/ ~ DewMaster.has_field "AT" line \/
  ~ DewMaster.has_field "RH" line ->
  DewMaster.parse line = Ok None.
Proof. apply parse_no_match. Qed.

(** A reading window in which every line lacks a field gives no reading,
    and [poll] goes through all of them without raising. *)
Lemma first_parsed_no_match (lines : list string) :
  Forall lacks_a_field lines -> DewMaster.first_parsed lines = Ok None.
Proof.
  induction 1 as [|line lines Hline _ IH]; simpl; [reflexivity |].
  rewrite (parse_no_match line Hline). exact IH.
Qed.

End ParserRejects.

(** ** One acquisition cycle *)

Section ReadAllSensors.

Variable b : Controller.bindings.
Variable l : lab.
Variable self : Controller.t.

Lemma and_then_Ok {A B : Type} (r : result A) (k : A -> result B) (y : B) :
  and_then r k = Ok y -> exists x, r = Ok x /\ k x = Ok y.
Proof. destruct r; simpl; [eauto | discriminate]. Qed.

Lemma and_then_Raise {A B : Type} (r : result A) (k : A -> result B)
    (e : exn) :
  r = Raise e -> and_then r k = Raise e.
Proof. intros ->. reflexivity. Qed.


(** Each block either leaves the reading as it is, or stores what its
    device answered now. *)
Lemma read_dry_Ok (data d : Reading.t) :
  Controller.read_dry l self data = Ok d ->
  match Controller.dry_mfc self with
  | None => d = data
  | Some m =>
      exists f sp, VogtlinMFC.get_flow l m = Ok f /\
        VogtlinMFC.get_setpoint l m = Ok sp /\
        d = Reading.set_dry (PyFloat f) (PyFloat sp) data
  end.
Proof.
  unfold Controller.read_dry. destruct (Controller.dry_mfc self) as [m|].
  - intros H. apply and_then_Ok in H. destruct H as (f & Hf & H).
    apply and_then_Ok in H. destruct H as (sp & Hsp & H).
    inversion H. eauto.
  - intros H. inversion H. reflexivity.
Qed.

Lemma read_wet_Ok (data d : Reading.t) :
  Controller.read_wet l self data = Ok d ->
  match Controller.wet_mfc self with
  | None => d = data
  | Some m =>
      exists f sp, VogtlinMFC.get_flow l m = Ok f /\
        VogtlinMFC.get_setpoint l m = Ok sp /\
        d = Reading.set_wet (PyFloat f) (PyFloat sp) data
  end.
Proof.
  unfold Controller.read_wet. destruct (Controller.wet_mfc self) as [m|].
  - intros H. apply and_then_Ok in H. destruct H as (f & Hf & H).
    apply and_then_Ok in H. destruct H as (sp & Hsp & H).
    inversion H. eauto.
  - intros H. inversion H. reflexivity.
Qed.

Lemma read_hygrometer_Ok (data d : Reading.t) :
  Controller.read_hygrometer b l self data = Ok d ->
  match Controller.hygrometer self with
  | None => d = data
  | Some h =>
      exists readings, Controller.get_readings b l h = Ok readings /\
        match readings with
        | None => d = data
        | Some r =>
            d = data \/
            d = Reading.set_hygro (Controller.dict_get r "ambient_temp")
                  (Controller.dict_get r "dewpoint_temp")
                  (Controller.dict_get r "relative_humidity") data
        end
  end.
Proof.
  unfold Controller.read_hygrometer.
  destruct (Controller.hygrometer self) as [h|].
  - intros H. apply and_then_Ok in H. destruct H as (readings & Hr & H).
    exists readings. split; [exact Hr |].
    destruct readings as [r|]; [| inversion H; reflexivity].
    destruct (decide (r = ∅)); inversion H; auto.
  - intros H. inversion H. reflexivity.
Qed.

Lemma read_probe_Ok (data d : Reading.t) :
  Controller.read_probe l self data = Ok d ->
  Controller.t_probe self = None /\ d = data.
Proof.
  unfold Controller.read_probe.
  destruct (Controller.t_probe self) as [p|]; simpl.
  - discriminate.
  - intros H. inversion H. auto.
Qed.

Lemma read_all_sensors_Ok (now : Q) (d : Reading.t) :
  Controller.read_all_sensors b now l self = Ok d ->
  exists d1 d2,
    Controller.read_dry l self (Reading.fresh now) = Ok d1 /\
    Controller.read_wet l self d1 = Ok d2 /\
    Controller.read_hygrometer b l self d2 = Ok d /\
    Controller.t_probe self = None.
Proof.
  unfold Controller.read_all_sensors. intros H.
  apply and_then_Ok in H. destruct H as (d1 & H1 & H).
  apply and_then_Ok in H. destruct H as (d2 & H2 & H).
  apply and_then_Ok in H. destruct H as (d3 & H3 & H).
  apply read_probe_Ok in H. destruct H as [Hp ->].
  exists d1, d2. auto.
Qed.

End ReadAllSensors.

Section AbsentMarker.


End AbsentMarker.

(** ** The keys of a hygrometer poll *)

Section PollKeys.

Lemma convert_keys (names : list string) (groups : gmap string string)
    (d : gmap string pyval) (key : string) :
  DewMaster.convert names groups = Ok d -> ~ In key names -> d !! key = None.
Proof.
  revert d. induction names as [|k names IH]; simpl; intros d H Hnot.
  - inversion H. apply lookup_empty.
  - destruct (groups !! k) as [v|].
    + apply and_then_Ok in H. destruct H as (x & _ & H).
      apply and_then_Ok in H. destruct H as (d' & Hd' & H).
      inversion H; subst.
      rewrite lookup_insert_ne by (intros ->; apply Hnot; auto).
      apply IH; auto.
    + apply IH; auto.
Qed.

Lemma parse_keys (line : string) (d : gmap string pyval) (key : string) :
  DewMaster.parse line = Ok (Some d) ->
  ~ In key DewMaster.group_names -> d !! key = None.
Proof.
  unfold DewMaster.parse.
  destruct (Re.search DewMaster.data_pattern line) as [groups|];
    [| discriminate].
  intros H Hnot. apply and_then_Ok in H. destruct H as (d' & Hd' & H).
  inversion H; subst. eapply convert_keys; eauto.
Qed.

Lemma first_parsed_keys (lines : list string) (d : gmap string pyval)
    (key : string) :
  DewMaster.first_parsed lines = Ok (Some d) ->
  ~ In key DewMaster.group_names -> d !! key = None.
Proof.
  induction lines as [|line lines IH]; simpl; [discriminate |].
  destruct (DewMaster.parse line) as [[d'|]|e] eqn:Hp; intros H Hnot.
  - inversion H; subst. eapply parse_keys; eauto.
  - auto.
  - discriminate.
Qed.

Lemma poll_keys (l : lab) (h : DewMaster.t) (d : gmap string pyval)
    (key : string) :
  DewMaster.poll l h = Ok (Some d) ->
  ~ In key DewMaster.group_names -> d !! key = None.
Proof.
  unfold DewMaster.poll. intros H Hnot.
  apply and_then_Ok in H. destruct H as (u & _ & H).
  apply and_then_Ok in H. destruct H as (lines & _ & H).
  eapply first_parsed_keys; eauto.
Qed.

Lemma looked_up_keys_are_not_groups :
  ~ In "ambient_temp" DewMaster.group_names /\
  ~ In "dewpoint_temp" DewMaster.group_names /\
  ~ In "relative_humidity" DewMaster.group_names.
Proof.
  unfold DewMaster.group_names. simpl.
  repeat split; intros H; repeat (destruct H as [H | H]; [discriminate |]);
    exact H.
Qed.

Lemma source_reading_lacks_hygrometer (b : Controller.bindings) (now : Q)
    (l : lab) (self : Controller.t) (d : Reading.t) :
  source_binding b ->
  Controller.read_all_sensors b now l self = Ok d ->
  Reading.ambient_temp d = PyNone /\ Reading.dewpoint_temp d = PyNone /\
  Reading.relative_humidity d = PyNone.
Proof.
  intros Hb H. apply read_all_sensors_Ok in H.
  destruct H as (d1 & d2 & Hdry & Hwet & Hhyg & _).
  apply read_dry_Ok in Hdry. apply read_wet_Ok in Hwet.
  apply read_hygrometer_Ok in Hhyg.
  assert (H2 : Reading.ambient_temp d2 = PyNone /\
               Reading.dewpoint_temp d2 = PyNone /\
               Reading.relative_humidity d2 = PyNone).
  { destruct (Controller.dry_mfc self);
      [destruct Hdry as (? & ? & _ & _ & ->) | subst d1];
      (destruct (Controller.wet_mfc self);
        [destruct Hwet as (? & ? & _ & _ & ->) | subst d2]);
      simpl; auto. }
  destruct (Controller.hygrometer self) as [h|]; [| subst d; exact H2].
  destruct Hhyg as (readings & Hr & Hcase).
  destruct readings as [r|]; [| subst d; exact H2].
  destruct Hcase as [-> | ->]; [exact H2 |].
  destruct Hb as [-> | ->]; simpl in Hr; [discriminate |].
  destruct looked_up_keys_are_not_groups as (K1 & K2 & K3).
  simpl. unfold Controller.dict_get.
  rewrite (poll_keys _ _ _ _ Hr K1), (poll_keys _ _ _ _ Hr K2),
    (poll_keys _ _ _ _ Hr K3).
  auto.
Qed.

(** C9. With the drivers of the sources, the keys a successful hygrometer
    poll produces ([date], [time], [dp], [at], [rh]) are not the keys the
    controller looks up, so in every reading that [read_all_sensors] returns
    the dewpoint, ambient-temperature and relative-humidity channels are
    [None], also when the hygrometer delivered a line that parsed. *)
Theorem hygrometer_channels_never_filled (b : Controller.bindings) (now : Q)
    (l : lab) (self : Controller.t) (d : Reading.t) :
  source_binding b ->
  Controller.read_all_sensors b now l self = Ok d ->
  Reading.ambient_temp d = PyNone /\ Reading.dewpoint_temp d = PyNone /\
  Reading.relative_humidity d = PyNone.
Proof. apply source_reading_lacks_hygrometer. Qed.

End PollKeys.

(** ** Failing reads *)

Section FailingReads.

Variable b : Controller.bindings.
Variable l : lab.
Variable self : Controller.t.






Lemma first_error_app (r1 r2 : list (option exn)) :
  first_error (r1 ++ r2)
  = match first_error r1 with
    | Some e => Some e
    | None => first_error r2
    end.
Proof.
  induction r1 as [|[e|] r1 IH]; simpl; [reflexivity | reflexivity | exact IH].
Qed.

Lemma mfc_reads_first_error (mfc : option VogtlinMFC.t) :
  first_error (mfc_reads l mfc)
  = match mfc with
    | Some m =>
        error_of
          (and_then (VogtlinMFC.get_flow l m) (fun flow =>
           and_then (VogtlinMFC.get_setpoint l m) (fun setpoint =>
           Ok (flow, setpoint))))
    | None => None
    end.
Proof.
  destruct mfc as [m|]; [| reflexivity]. simpl.
  destruct (VogtlinMFC.get_flow l m); simpl; [| reflexivity].
  destruct (VogtlinMFC.get_setpoint l m); reflexivity.
Qed.

(** [read_all_sensors] raises the exception of the first read that fails,
    whatever the instant. *)
Lemma read_all_sensors_first_error (now : Q) (e : exn) :
  first_error (reads_of b l self) = Some e ->
  Controller.read_all_sensors b now l self = Raise e.
Proof.
  unfold reads_of. rewrite !first_error_app, !mfc_reads_first_error.
  unfold Controller.read_all_sensors, Controller.read_dry,
    Controller.read_wet, Controller.read_hygrometer.
  destruct (Controller.dry_mfc self) as [md|].
  - destruct (VogtlinMFC.get_flow l md); simpl;
      [| intros H; inversion H; reflexivity].
    destruct (VogtlinMFC.get_setpoint l md); simpl;
      [| intros H; inversion H; reflexivity].
    destruct (Controller.wet_mfc self) as [mw|].
    + destruct (VogtlinMFC.get_flow l mw); simpl;
        [| intros H; inversion H; reflexivity].
      destruct (VogtlinMFC.get_setpoint l mw); simpl;
        [| intros H; inversion H; reflexivity].
      destruct (Controller.hygrometer self) as [h|]; simpl; [| discriminate].
      destruct (Controller.get_readings b l h); simpl;
        [discriminate | intros H; inversion H; reflexivity].
    + simpl.
      destruct (Controller.hygrometer self) as [h|]; simpl; [| discriminate].
      destruct (Controller.get_readings b l h); simpl;
        [discriminate | intros H; inversion H; reflexivity].
  - destruct (Controller.wet_mfc self) as [mw|].
    + destruct (VogtlinMFC.get_flow l mw); simpl;
        [| intros H; inversion H; reflexivity].
      destruct (VogtlinMFC.get_setpoint l mw); simpl;
        [| intros H; inversion H; reflexivity].
      destruct (Controller.hygrometer self) as [h|]; simpl; [| discriminate].
      destruct (Controller.get_readings b l h); simpl;
        [discriminate | intros H; inversion H; reflexivity].
    + simpl.
      destruct (Controller.hygrometer self) as [h|]; simpl; [| discriminate].
      destruct (Controller.get_readings b l h); simpl;
        [discriminate | intros H; inversion H; reflexivity].
Qed.

Lemma mfc_read_fails_error (m : VogtlinMFC.t) :
  mfc_read_fails l m -> first_error (mfc_reads l (Some m)) <> None.
Proof.
  unfold mfc_read_fails. simpl.
  destruct (VogtlinMFC.get_flow l m); simpl; [| discriminate].
  destruct (VogtlinMFC.get_setpoint l m); simpl; [| discriminate].
  intros [H | H]; discriminate.
Qed.

(** A failing read of a configured device is met. *)
Lemma device_read_fails_error :
  device_read_fails b l self ->
  exists e, first_error (reads_of b l self) = Some e.
Proof.
  intros H.
  assert (Hne : first_error (reads_of b l self) <> None).
  { unfold reads_of. rewrite !first_error_app.
    destruct H as [(m & Hm & H) | [(m & Hm & H) | (h & Hh & H)]].
    - rewrite Hm. pose proof (mfc_read_fails_error m H) as N.
      destruct (first_error (mfc_reads l (Some m))); [discriminate | tauto].
    - rewrite Hm. pose proof (mfc_read_fails_error m H) as N.
      destruct (first_error (mfc_reads l (Controller.dry_mfc self)));
        [discriminate |].
      destruct (first_error (mfc_reads l (Some m))); [discriminate | tauto].
    - rewrite Hh.
      destruct (first_error (mfc_reads l (Controller.dry_mfc self)));
        [discriminate |].
      destruct (first_error (mfc_reads l (Controller.wet_mfc self)));
        [discriminate |].
      destruct (Controller.get_readings b l h); simpl; discriminate. }
  destruct (first_error (reads_of b l self)) as [e|]; [eauto | tauto].
Qed.



(** C10 (amended). Whenever a temperature probe is configured, every call
    to [read_all_sensors] raises and returns no reading, so the cell
    temperature is never filled: the exception is the attribute error for
    [self.T_probe] when the reads of the other devices complete, and the
    exception of the first of those reads that fails otherwise. *)
Theorem probe_configured_never_reads (now : Q) (p : TemperatureProbe.t) :
  Controller.t_probe self = Some p ->
  Controller.read_all_sensors b now l self =
  Raise (match other_reads b now l self with
         | Ok _ => AttributeError "Controller" "T_probe"
         | Raise e => e
         end).
Proof.
  intros Hp. unfold Controller.read_all_sensors, other_reads.
  destruct (Controller.read_dry l self (Reading.fresh now)) as [d1|e1];
    simpl; [| reflexivity].
  destruct (Controller.read_wet l self d1) as [d2|e2]; simpl; [| reflexivity].
  destruct (Controller.read_hygrometer b l self d2) as [d3|e3]; simpl;
    [| reflexivity].
  unfold Controller.read_probe. rewrite Hp. reflexivity.
Qed.

End FailingReads.

(** ** The monitoring session *)

Section Session.

Variable b : Controller.bindings.
Variable interval : Q.

Lemma loop_first_read_raises (clock : Q) (c : Controller.cycle)
    (cycles : list Controller.cycle) (self : Controller.t) (e : exn) :
  Controller.running self = true ->
  Controller.read_all_sensors b clock (Controller.conditions c) self
    = Raise e ->
  let s := Controller.loop b interval clock (c :: cycles) self in
  Controller.final s = self /\ Controller.sleeps s = [] /\
  Controller.starts s = [clock] /\ Controller.ended s = ending_of e.
Proof.
  intros Hrun Hread. cbn [Controller.loop]. rewrite Hrun. cbn [negb].
  unfold Controller.cycle_body. rewrite Hread. unfold raise.
  destruct e; simpl; auto.
Qed.


Variable bk : DynamicPlotter.backend.

(** The first frame of the plot lets an exception out: [start_monitoring]
    ends before its loop, and before its [try] statement. *)
Lemma start_monitoring_frame_raises (clock : Q) (first : Controller.cycle)
    (cycles : list Controller.cycle) (self : Controller.t) (e : exn) :
  Controller.read_all_sensors b clock (Controller.conditions first) self
    = Raise e ->
  DynamicPlotter.absorbs bk e = false ->
  let s := Controller.start_monitoring b bk interval clock first cycles
             self in
  Controller.ended s = Controller.Crashed e /\
  Controller.starts s = [] /\ Controller.sleeps s = [] /\
  DataLogger.rows (Controller.logger (Controller.final s)) = [] /\
  DynamicPlotter.points (Controller.plotter (Controller.final s))
    = DynamicPlotter.points (Controller.plotter self) /\
  Controller.running (Controller.final s) = Controller.running self /\
  DynamicPlotter.is_running (Controller.plotter (Controller.final s)) = true.
Proof.
  intros Hread Habs.
  unfold Controller.start_monitoring, DataLogger.start_new_log, bind, print,
    ret.
  cbv beta iota zeta.
  unfold DynamicPlotter.start, DynamicPlotter.update_with_data.
  cbv beta iota zeta.
  match goal with
  | |- context [Controller.read_all_sensors b clock
                  (Controller.conditions first) ?st] =>
      change (Controller.read_all_sensors b clock
                (Controller.conditions first) st)
        with (Controller.read_all_sensors b clock
                (Controller.conditions first) self)
  end.
  rewrite Hread. cbv beta iota zeta. rewrite Habs. simpl. auto 10.
Qed.

(** The first frame of the plot passes: the session is the loop's, entered
    when the plot has started, closed by the [finally] clause. *)
Lemma start_monitoring_enters (clock : Q) (first : Controller.cycle)
    (cycles : list Controller.cycle) (self : Controller.t) :
  frame_passes bk
    (Controller.read_all_sensors b clock (Controller.conditions first) self)
  = true ->
  let s := Controller.start_monitoring b bk interval clock first cycles
             self in
  let s' := Controller.loop b interval (clock + Controller.busy first)%Q
              cycles (loop_entry b bk clock first self) in
  Controller.final s
  = Controller.with_plotter
      (Controller.with_running (Controller.final s') false)
      (DynamicPlotter.stop (Controller.plotter (Controller.final s'))) /\
  Controller.starts s = Controller.starts s' /\
  Controller.sleeps s = Controller.sleeps s' /\
  Controller.ended s = Controller.ended s'.
Proof.
  intros Hpass.
  unfold Controller.start_monitoring, loop_entry, started_plot, started_log.
  unfold DataLogger.start_new_log, bind, print, ret, outcome.
  cbv beta iota zeta. cbn [snd].
  unfold DynamicPlotter.start, DynamicPlotter.update_with_data.
  cbv beta iota zeta.
  match goal with
  | |- context [Controller.read_all_sensors b clock
                  (Controller.conditions first) (Controller.with_logger ?x ?g)] =>
      change (Controller.read_all_sensors b clock
                (Controller.conditions first) (Controller.with_logger x g))
        with (Controller.read_all_sensors b clock
                (Controller.conditions first) self)
  end.
  destruct (Controller.read_all_sensors b clock (Controller.conditions first)
              self) as [d|e]; simpl in Hpass.
  - cbv beta iota zeta. cbn [fst]. repeat split.
  - rewrite Hpass. cbv beta iota zeta. cbn [fst]. repeat split.
Qed.

Lemma loop_entry_running (clock : Q) (first : Controller.cycle)
    (self : Controller.t) :
  Controller.running (loop_entry b bk clock first self) = true.
Proof. reflexivity. Qed.

Lemma loop_entry_reads (now clock : Q) (l : lab) (first : Controller.cycle)
    (self : Controller.t) :
  Controller.read_all_sensors b now l (loop_entry b bk clock first self)
  = Controller.read_all_sensors b now l self.
Proof. reflexivity. Qed.

End Session.

Section Monitoring.

Variable b : Controller.bindings.

(** C1 (amended). A read that raises on a configured device is not
    absorbed: [read_all_sensors] raises the exception of the first read
    that fails and returns no reading.  Met in a cycle of the loop, the
    failure ends the loop at that cycle, with nothing logged or plotted
    for the cycle and no sleep; in a session whose first cycle meets it,
    [running] is cleared, the plotter is stopped and the exception
    propagates (a [KeyboardInterrupt] is reported as a stop by the user).
    Met by the read that the first frame of the plot makes while the plot
    is started, it leaves [start_monitoring] before the loop unless the
    backend of the plot absorbs it, and then nothing is cleared: the
    plotter stays marked as running. *)
Theorem read_failure_ends_session (l : lab) (self : Controller.t) :
  device_read_fails b l self ->
  exists e,
    first_error (reads_of b l self) = Some e /\
    (forall now, Controller.read_all_sensors b now l self = Raise e) /\
    (forall (interval clock : Q) (c : Controller.cycle)
            (cycles : list Controller.cycle),
       Controller.conditions c = l ->
       Controller.running self = true ->
       let s := Controller.loop b interval clock (c :: cycles) self in
       Controller.ended s = ending_of e /\
       Controller.starts s = [clock] /\ Controller.sleeps s = [] /\
       Controller.final s = self) /\
    (forall (bk : DynamicPlotter.backend) (interval clock : Q)
            (first c : Controller.cycle) (cycles : list Controller.cycle),
       Controller.conditions c = l ->
       frame_passes bk
         (Controller.read_all_sensors b clock (Controller.conditions first)
            self) = true ->
       let s := Controller.start_monitoring b bk interval clock first
                  (c :: cycles) self in
       Controller.ended s = ending_of e /\
       Controller.starts s = [(clock + Controller.busy first)%Q] /\
       Controller.sleeps s = [] /\
       DataLogger.rows (Controller.logger (Controller.final s)) = [] /\
       DynamicPlotter.points (Controller.plotter (Controller.final s))
         = DynamicPlotter.points (started_plot b bk clock first self) /\
       Controller.running (Controller.final s) = false /\
       DynamicPlotter.is_running (Controller.plotter (Controller.final s))
         = false) /\
    (forall (bk : DynamicPlotter.backend) (interval clock : Q)
            (first : Controller.cycle) (cycles : list Controller.cycle),
       Controller.conditions first = l ->
       DynamicPlotter.absorbs bk e = false ->
       let s := Controller.start_monitoring b bk interval clock first
                  cycles self in
       Controller.ended s = Controller.Crashed e /\
       Controller.starts s = [] /\ Controller.sleeps s = [] /\
       DataLogger.rows (Controller.logger (Controller.final s)) = [] /\
       DynamicPlotter.points (Controller.plotter (Controller.final s))
         = DynamicPlotter.points (Controller.plotter self) /\
       Controller.running (Controller.final s) = Controller.running self /\
       DynamicPlotter.is_running (Controller.plotter (Controller.final s))
         = true).
Proof.
  intros Hfail.
  destruct (device_read_fails_error b l self Hfail) as (e & He).
  exists e. split; [exact He |].
  assert (Hread : forall now,
            Controller.read_all_sensors b now l self = Raise e)
    by (intros now; apply read_all_sensors_first_error; exact He).
  split; [exact Hread |]. split; [| split].
  - intros interval clock c cycles Hc Hrun. subst l.
    destruct (loop_first_read_raises b interval clock c cycles self e Hrun
                (Hread _)) as (Lfin & Lsl & Lst & Lend).
    cbv zeta in *. auto.
  - intros bk interval clock first c cycles Hc Hpass. subst l.
    destruct (start_monitoring_enters b interval bk clock first (c :: cycles)
                self Hpass) as (Hfin & Hst & Hsl & Hend).
    cbv zeta in *. rewrite Hfin, Hst, Hsl, Hend.
    destruct (loop_first_read_raises b interval
                (clock + Controller.busy first)%Q c cycles
                (loop_entry b bk clock first self) e eq_refl
                (Hread _)) as (Lfin & Lsl & Lst & Lend).
    cbv zeta in *. rewrite Lfin, Lsl, Lst, Lend.
    repeat split.
  - intros bk interval clock first cycles Hc Habs. subst l.
    exact (start_monitoring_frame_raises b interval bk clock first cycles
             self e (Hread _) Habs).
Qed.

End Monitoring.

(** ** With the drivers of the sources no cycle reaches its sleep *)

Section SourceDrivers.




End SourceDrivers.

(** ** The code at work on the bench *)

Section OnTheBench.

Import Bench.

(** C4. The sample line of the instrument parses: dewpoint 2.0, ambient
    temperature 24.1 and relative humidity 23.5, with the date and the time
    as texts; the runs of blanks and the trailing status word do not
    matter. *)
Theorem sample_line_parses :
  exists d : gmap string pyval,
    DewMaster.parse
      "11/13/25  13:41:50   DP =    2.0 C  AT  =   24.1 C  RH  =   23.5    SERVOLOCK"
      = Ok (Some d) /\
    d !! "dp" = Some (PyFloatDec (2 # 1)) /\
    d !! "at" = Some (PyFloatDec (241 # 10)) /\
    d !! "rh" = Some (PyFloatDec (47 # 2)) /\
    d !! "date" = Some (PyStr "11/13/25") /\
    d !! "time" = Some (PyStr "13:41:50") /\
    forall key, d !! key <> None -> In key DewMaster.group_names.
Proof.
  assert (Hl : map (parsed_value (DewMaster.parse sample))
                 DewMaster.group_names
               = [Some (PyStr "11/13/25"); Some (PyStr "13:41:50");
                  Some (PyFloatDec (2 # 1)); Some (PyFloatDec (241 # 10));
                  Some (PyFloatDec (47 # 2))])
    by (vm_compute; reflexivity).
  change "11/13/25  13:41:50   DP =    2.0 C  AT  =   24.1 C  RH  =   23.5    SERVOLOCK"
    with sample.
  destruct (DewMaster.parse sample) as [[d|]|e] eqn:Hparse;
    [| discriminate Hl | discriminate Hl].
  exists d. split; [reflexivity |].
  simpl in Hl. inversion Hl as [[H1 H2 H3 H4 H5]].
  repeat split; try reflexivity.
  intros key Hkey.
  destruct (in_dec string_dec key DewMaster.group_names) as [Hin | Hnot];
    [exact Hin |].
  exfalso. apply Hkey. eapply parse_keys; eauto.
Qed.

(** The same line through [poll]: the hygrometer of the bench first
    delivers an empty text, then the sample. *)
Example poll_on_the_bench :
  Controller.hygrometer connected = Some hygrometer /\
  map (parsed_value (DewMaster.poll all_well hygrometer))
    DewMaster.group_names
  = [Some (PyStr "11/13/25"); Some (PyStr "13:41:50");
     Some (PyFloatDec (2 # 1)); Some (PyFloatDec (241 # 10));
     Some (PyFloatDec (47 # 2))].
Proof. split; vm_compute; reflexivity. Qed.

End OnTheBench.

Section Substrings.

Lemma starts_with_app (p rest : list ascii) :
  Re.starts_with p (p ++ rest)%list = true.
Proof.
  induction p as [|a p IH]; simpl; [reflexivity |].
  rewrite Ascii.eqb_refl. exact IH.
Qed.

Lemma contains_starts (p w : list ascii) :
  Re.starts_with p w = true -> Re.contains p w = true.
Proof. destruct w; simpl; intros ->; reflexivity. Qed.

Lemma contains_app (pre p rest : list ascii) :
  Re.contains p (pre ++ p ++ rest)%list = true.
Proof.
  induction pre as [|a pre IH].
  - change ([] ++ p ++ rest)%list with (p ++ rest)%list.
    apply contains_starts, starts_with_app.
  - change (Re.contains p ((a :: pre) ++ p ++ rest)%list)
      with (Re.starts_with p (a :: pre ++ p ++ rest)%list
            || Re.contains p (pre ++ p ++ rest)%list).
    rewrite IH. apply orb_true_r.
Qed.

(** A line that carries a labelled field contains the label. *)
Lemma has_field_contains (label line : string) :
  DewMaster.has_field label line ->
  Re.contains (list_ascii_of_string label) (list_ascii_of_string line) = true.
Proof.
  intros (pre & ws1 & ws2 & post & c & -> & _). apply contains_app.
Qed.

End Substrings.

Section Witnesses.

Import Bench.

(** C3 (as stated) fails for the signalling NaNs: two registers that hold
    the pattern 7F80 3039 decode to a NaN that is written back as
    7FC0 3039, and a signalling NaN among the floats of Python does not
    come back from the registers. *)
Lemma signalling_nan_is_quieted :
  VogtlinMFC.decode [32640; 12345] false = Ok f_nan /\
  VogtlinMFC.encode f_nan false = Ok [32704; 12345] /\
  bits_of p_snan = 32640 * 2 ^ 16 + 12345 /\
  is_nan p_snan = true /\
  (let x := B64 false 2047 (12345 * 2 ^ 29) in
   is_nan64 x = true /\
   VogtlinMFC.encode x false = Ok [32704; 12345] /\
   VogtlinMFC.decode [32704; 12345] false = Ok f_nan /\
   f_nan <> x).
Proof. vm_compute. repeat split. discriminate. Qed.

Lemma float_codec_round_trip_witness :
  wf32 p_snan /\
  exists r0 r1 : Z,
    VogtlinMFC.encode (widen p_snan) true = Ok [r0; r1] /\
    is_u16 r0 = true /\ is_u16 r1 = true /\
    VogtlinMFC.decode [r0; r1] true = Ok (widen p_snan) /\
    r1 * 2 ^ 16 + r0 = bits_of p_qnan.
Proof.
  assert (Hwf : wf32 p_snan) by (unfold wf32, p_snan; simpl; lia).
  split; [exact Hwf | exact (float_codec_round_trip p_snan true Hwf)].
Defined.

(** The round trip on the bench values, through the registers. *)
Example codec_examples :
  VogtlinMFC.encode f_neg_1_5 false = Ok [49088; 0] /\
  VogtlinMFC.encode f_neg_1_5 true = Ok [0; 49088] /\
  VogtlinMFC.decode [49088; 0] false = Ok f_neg_1_5 /\
  VogtlinMFC.decode [0; 49088] true = Ok f_neg_1_5 /\
  to_Q f_neg_1_5 = Some (-3 # 2)%Q /\
  VogtlinMFC.encode f_tiny false = Ok [0; 1] /\
  VogtlinMFC.decode [0; 1] false = Ok f_tiny /\
  widen p_tiny = f_tiny /\
  VogtlinMFC.encode f_inf false = Ok [65408; 0] /\
  VogtlinMFC.decode [65408; 0] false = Ok f_inf /\
  VogtlinMFC.encode f_nan false = Ok [32704; 12345] /\
  VogtlinMFC.decode [32704; 12345] false = Ok f_nan /\
  widen p_snan = f_nan /\ widen p_qnan = f_nan /\
  VogtlinMFC.encode f_0_1 false = Ok [15820; 52429] /\
  VogtlinMFC.decode [15820; 52429] false = Ok f_0_1_stored /\
  VogtlinMFC.encode f_10_3 true = Ok [52429; 16676] /\
  VogtlinMFC.decode [52429; 16676] true = Ok f_10_3_stored /\
  VogtlinMFC.encode f_1e39 false
  = Raise (OverflowError "float too large to pack with f format").
Proof. vm_compute. repeat split. Qed.

Lemma parse_rejects_missing_field_witness :
  (~ DewMaster.has_field "DP" sample_without_rh \/
   ~ DewMaster.has_field "AT" sample_without_rh \/
   ~ DewMaster.has_field "RH" sample_without_rh) /\
  DewMaster.parse sample_without_rh = Ok None.
Proof.
  assert (H : ~ DewMaster.has_field "DP" sample_without_rh \/
              ~ DewMaster.has_field "AT" sample_without_rh \/
              ~ DewMaster.has_field "RH" sample_without_rh).
  { right. right. intros Hf. apply has_field_contains in Hf.
    vm_compute in Hf. discriminate. }
  split; [exact H | exact (parse_rejects_missing_field sample_without_rh H)].
Defined.



Lemma hygrometer_channels_never_filled_witness :
  source_binding Controller.by_role /\
  (exists d, Controller.read_all_sensors Controller.by_role 0 all_well
               connected = Ok d /\
     Reading.dry_flow d = PyFloat f_1_5 /\
     Reading.ambient_temp d = PyNone /\ Reading.dewpoint_temp d = PyNone /\
     Reading.relative_humidity d = PyNone).
Proof.
  assert (Hb : source_binding Controller.by_role) by (right; reflexivity).
  split; [exact Hb |].
  destruct (Controller.read_all_sensors Controller.by_role 0 all_well
              connected) as [d|e] eqn:Hread.
  - exists d. split; [reflexivity |].
    split.
    + revert Hread. vm_compute. intros H. inversion H. reflexivity.
    + exact (hygrometer_channels_never_filled Controller.by_role 0 all_well
               connected d Hb Hread).
  - exfalso. revert Hread. vm_compute. discriminate.
Defined.

End Witnesses.

(** ** Connecting *)

Section Connecting.

Import Bench.

(** The flow-controller driver reports a failed connection by [False]. *)
Lemma mfc_connect_reports (l : lab) (m : VogtlinMFC.t) :
  (exists ok m', outcome (VogtlinMFC.connect l m) = Ok (ok, m')) \/
  outcome (VogtlinMFC.connect l m) = Raise KeyboardInterrupt.
Proof.
  unfold VogtlinMFC.connect.
  destruct (Minimalmodbus.new l (VogtlinMFC.port m) (VogtlinMFC.address m))
    as [i|e]; simpl.
  - left. eauto.
  - destruct e; simpl; eauto.
Qed.

(** The hygrometer driver never does: it returns [True] or raises. *)
Lemma hygrometer_connect_never_false (l : lab) (h : DewMaster.t) :
  outcome (snd (DewMaster.connect l h)) <> Ok false.
Proof.
  unfold DewMaster.connect.
  destruct (Pyserial.new l (DewMaster.port h) (DewMaster.baudrate h)
              (DewMaster.timeout h)) as [s|e]; simpl.
  - destruct (Pyserial.reset_buffers l s); simpl; discriminate.
  - discriminate.
Qed.

(** C2. With the port of the hygrometer unavailable, [DewMaster.connect]
    raises instead of returning [False]; [connect_devices] lets the
    exception out, returns nothing and never gets to the temperature
    probe.  With the port of a flow controller unavailable instead,
    [connect_devices] goes on to the remaining devices and returns
    [False]. *)
Theorem hygrometer_connect_failure_escapes :
  (outcome (snd (DewMaster.connect hygrometer_unplugged
                   (DewMaster.new (PyStr "/dev/ttyS5") (PyInt 19200))))
   = Raise (RuntimeError "Failed to connect to DewMaster") /\
   DewMaster.connect all_well
     (DewMaster.new (PyStr "/dev/ttyS5") (PyInt 19200))
   = (hygrometer, ret true)) /\
  (let r := Controller.connect_devices hygrometer_unplugged
              (Controller.__init__ config_with_probe) in
   outcome r = Raise (RuntimeError "Failed to connect to DewMaster") /\
   ~ In probe_announced (output r)) /\
  (let r := Controller.connect_devices wet_unplugged
              (Controller.__init__ config_with_probe) in
   (exists c, outcome r = Ok (false, c)) /\
   In probe_announced (output r) /\
   In [Txt "Failed to connect to Wet Air MFC"] (output r)).
Proof.
  split; [| split].
  - split; vm_compute; reflexivity.
  - cbv zeta. split; [vm_compute; reflexivity |].
    vm_compute. intuition discriminate.
  - cbv zeta. split; [eexists; vm_compute; reflexivity |].
    split; vm_compute; auto 12.
Qed.

End Connecting.

(** ** Setpoints *)

Section Setpoints.

Import Bench.

(** C6. The dry controller does not answer, the wet one does, and both
    setpoints are requested.  With the classes as written, [set_flow] is
    not an attribute of [VogtlinMFC]: [set_flow_rates] raises at the dry
    controller, reports nothing and never reaches the wet one.  With
    [set_flow] read as [set_flow_setpoint], the failed dry write raises out
    of [set_flow_rates] just the same; and when both writes succeed,
    [set_flow_setpoint] returns [None], so both are reported as failed. *)
Theorem setpoint_failure_not_isolated :
  (let r := Controller.set_flow_rates Controller.as_written dry_silent
              connected (Some f_1_5) (Some f_2_0) in
   outcome r = Raise (AttributeError "VogtlinMFC" "set_flow") /\
   output r = []) /\
  (let r := Controller.set_flow_rates Controller.by_role dry_silent
              connected (Some f_1_5) (Some f_2_0) in
   outcome r = Raise (IOError "no answer") /\ output r = []) /\
  (let r := Controller.set_flow_rates Controller.by_role all_well
              connected (Some f_1_5) (Some f_2_0) in
   returns (outcome r) = true /\
   output r =
     [ [Txt "Setpoint updated to "; Fixed 3 (PyFloat f_1_5)];
       [Txt "Failed to set dry air flow"];
       [Txt "Setpoint updated to "; Fixed 3 (PyFloat f_2_0)];
       [Txt "Failed to set wet air flow"] ]).
Proof. vm_compute. repeat split. Qed.

End Setpoints.

(** ** Sessions on the bench *)

Section BenchSessions.

Import Bench.

(** C1 (as stated) fails: the dry controller does not answer, its read
    raises and [read_all_sensors] returns no reading.  When this happens
    in a cycle of the loop the session ends at that cycle, with nothing
    logged and no sleep; when it happens while the plot is started, on a
    backend that lets the exception out, the session ends before its first
    cycle and the plotter is left marked as running. *)
Lemma read_failure_not_tolerated :
  device_read_fails Controller.by_role dry_silent connected /\
  Controller.read_all_sensors Controller.by_role 0 dry_silent connected
    = Raise (IOError "no answer") /\
  (let s := Controller.start_monitoring Controller.by_role
              DynamicPlotter.Interactive 5 0 (cycle_in all_well)
              [cycle_in dry_silent; cycle_in all_well] connected in
   Controller.ended s = Controller.Crashed (IOError "no answer") /\
   DataLogger.rows (Controller.logger (Controller.final s)) = [] /\
   length (DynamicPlotter.points (Controller.plotter (Controller.final s)))
     = 1%nat /\
   Controller.starts s = [1%Q] /\ Controller.sleeps s = [] /\
   Controller.running (Controller.final s) = false /\
   DynamicPlotter.is_running (Controller.plotter (Controller.final s))
     = false) /\
  (let s := Controller.start_monitoring Controller.by_role
              DynamicPlotter.Headless 5 0 (cycle_in dry_silent)
              [cycle_in all_well; cycle_in all_well] connected in
   Controller.ended s = Controller.Crashed (IOError "no answer") /\
   DataLogger.rows (Controller.logger (Controller.final s)) = [] /\
   DynamicPlotter.points (Controller.plotter (Controller.final s)) = [] /\
   Controller.starts s = [] /\ Controller.sleeps s = [] /\
   DynamicPlotter.is_running (Controller.plotter (Controller.final s))
     = true).
Proof.
  split.
  - left. eexists. split; [vm_compute; reflexivity |].
    left. vm_compute. reflexivity.
  - vm_compute. repeat split.
Qed.

Lemma read_failure_ends_session_witness :
  device_read_fails Controller.by_role dry_silent connected /\
  Controller.read_all_sensors Controller.by_role 0 dry_silent connected
    = Raise (IOError "no answer") /\
  Controller.ended
    (Controller.start_monitoring Controller.by_role
       DynamicPlotter.Interactive 5 0 (cycle_in all_well)
       [cycle_in dry_silent; cycle_in all_well] connected)
    = Controller.Crashed (IOError "no answer") /\
  Controller.ended
    (Controller.start_monitoring Controller.by_role
       DynamicPlotter.Headless 5 0 (cycle_in dry_silent)
       [cycle_in all_well] connected)
    = Controller.Crashed (IOError "no answer").
Proof.
  assert (H : device_read_fails Controller.by_role dry_silent connected).
  { left. eexists. split; [vm_compute; reflexivity |].
    left. vm_compute. reflexivity. }
  split; [exact H |].
  destruct (read_failure_ends_session Controller.by_role dry_silent
              connected H) as (e & Hfirst & Hread & _ & Hloop & Hframe).
  assert (He : e = IOError "no answer")
    by (revert Hfirst; vm_compute; intros Hf; inversion Hf; reflexivity).
  subst e.
  split; [apply Hread |].
  split.
  - exact (proj1 (Hloop DynamicPlotter.Interactive 5%Q 0%Q
                    (cycle_in all_well) (cycle_in dry_silent)
                    [cycle_in all_well] eq_refl
                    ltac:(vm_compute; reflexivity))).
  - exact (proj1 (Hframe DynamicPlotter.Headless 5%Q 0%Q
                    (cycle_in dry_silent) [cycle_in all_well] eq_refl
                    eq_refl)).
Defined.

(** The first cycle on the bench, with every device answering: the
    flow-controller channels are read, logged and plotted, and the display
    of the reading raises at the ambient temperature, which is [None]. *)
Example first_cycle_on_the_bench :
  let s := Controller.start_monitoring Controller.by_role
             DynamicPlotter.Interactive 5 0 (cycle_in all_well) three_cycles
             connected in
  Controller.ended s = Controller.Crashed none_format_error /\
  Controller.starts s = [1%Q] /\ Controller.sleeps s = [] /\
  length (DataLogger.rows (Controller.logger (Controller.final s))) = 1%nat.
Proof. vm_compute. repeat split. Qed.


(** C10 (as stated) fails: with a probe configured and the dry controller
    silent, [read_all_sensors] raises the communication error of the dry
    read, which is not an attribute error. *)
Lemma probe_error_can_be_preceded :
  Controller.t_probe connected_with_probe <> None /\
  Controller.read_all_sensors Controller.by_role 0 dry_silent
    connected_with_probe = Raise (IOError "no answer") /\
  is_AttributeError (IOError "no answer") = false.
Proof.
  split; [vm_compute; discriminate |].
  split; vm_compute; reflexivity.
Qed.

Lemma probe_configured_never_reads_witness :
  (exists p, Controller.t_probe connected_with_probe = Some p) /\
  Controller.read_all_sensors Controller.by_role 0 all_well
    connected_with_probe = Raise (AttributeError "Controller" "T_probe").
Proof.
  destruct (Controller.t_probe connected_with_probe) as [p|] eqn:Hp;
    [| exfalso; revert Hp; vm_compute; discriminate].
  split; [exists p; reflexivity |].
  rewrite (probe_configured_never_reads Controller.by_role all_well
             connected_with_probe 0 p Hp).
  vm_compute. reflexivity.
Defined.

End BenchSessions.

(** * Further properties of the drivers *)

(** ** The register codec, both ways *)

Section CodecMore.

Lemma log2_normal (F : Z) : 0 <= F < 2 ^ 52 -> Z.log2 (2 ^ 52 + F) = 52.
Proof.
  intros HF. apply Z.log2_unique; [lia |].
  change (2 ^ Z.succ 52) with (2 * 2 ^ 52). lia.
Qed.

Lemma of_bits_wf (b : Z) : wf32 (of_bits b).
Proof.
  unfold wf32, of_bits. cbn [sign expo frac]. split.
  - change 255 with (Z.ones 8). rewrite Z.land_ones by lia.
    pose proof (Z.mod_pos_bound (Z.shiftr b 23) (2 ^ 8)). lia.
  - rewrite Z.land_ones by lia. apply Z.mod_pos_bound. lia.
Qed.

Lemma bits_of_of_bits (b : Z) :
  0 <= b < 2 ^ 32 -> bits_of (of_bits b) = b.
Proof.
  intros Hb. rewrite bits_of_sum by apply of_bits_wf.
  unfold of_bits. cbn [sign expo frac].
  rewrite Z.testbit_eqb by lia.
  rewrite Z.shiftr_div_pow2 by lia.
  change 255 with (Z.ones 8). rewrite !Z.land_ones by lia.
  change (2 ^ 32) with 4294967296 in Hb.
  change (2 ^ 31) with 2147483648. change (2 ^ 23) with 8388608.
  change (2 ^ 8) with 256.
  destruct ((b / 2147483648) mod 2 =? 1) eqn:E;
    [apply Z.eqb_eq in E | apply Z.eqb_neq in E];
    Z.div_mod_to_equations; lia.
Qed.

Lemma u16_range (r : Z) : is_u16 r = true -> 0 <= r < 65536.
Proof.
  unfold is_u16. intros H. apply andb_true_iff in H. destruct H as [H1 H2].
  apply Z.leb_le in H1. apply Z.leb_le in H2. lia.
Qed.

(** The pattern glued from two registers splits into the same registers. *)
Lemma pattern_glue (hi lo : Z) :
  0 <= hi < 65536 -> 0 <= lo < 65536 ->
  let b := Z.lor (Z.shiftl (Z.shiftr hi 8) 24)
             (Z.lor (Z.shiftl (Z.land hi 255) 16)
                (Z.lor (Z.shiftl (Z.shiftr lo 8) 8) (Z.land lo 255))) in
  0 <= b < 2 ^ 32 /\
  Z.lor (Z.shiftl (Z.land (Z.shiftr b 24) 255) 8)
        (Z.land (Z.shiftr b 16) 255) = hi /\
  Z.lor (Z.shiftl (Z.land (Z.shiftr b 8) 255) 8) (Z.land b 255) = lo.
Proof.
  intros Hhi Hlo. cbv zeta.
  change 255 with (Z.ones 8).
  rewrite !Z.land_ones, !Z.shiftr_div_pow2 by lia.
  assert (H256 : forall x, 0 <= x mod 2 ^ 8 < 2 ^ 8)
    by (intros x; apply Z.mod_pos_bound; lia).
  rewrite (lor_shiftl_add (lo / 2 ^ 8) (lo mod 2 ^ 8) 8) by (try apply H256; lia).
  change (2 ^ 8) with 256 in *.
  assert (Hlo' : lo / 256 * 256 + lo mod 256 = lo)
    by (Z.div_mod_to_equations; lia).
  rewrite Hlo'.
  rewrite (lor_shiftl_add (hi mod 256) lo 16)
    by (change (2 ^ 16) with 65536; lia).
  assert (R1 : 0 <= hi mod 256 < 256) by apply H256.
  assert (R0 : 0 <= hi / 256 < 256) by (Z.div_mod_to_equations; lia).
  rewrite (lor_shiftl_add (hi / 256) _ 24)
    by (change (2 ^ 16) with 65536; change (2 ^ 24) with 16777216; lia).
  change (2 ^ 16) with 65536. change (2 ^ 24) with 16777216.
  change (2 ^ 32) with 4294967296.
  set (b := hi / 256 * 16777216 + (hi mod 256 * 65536 + lo)).
  assert (Hb : b = hi * 65536 + lo)
    by (subst b; Z.div_mod_to_equations; lia).
  split; [lia |].
  rewrite !(lor_shiftl_add _ (_ mod 256) 8) by (try apply H256; lia).
  change (2 ^ 8) with 256.
  split; Z.div_mod_to_equations; lia.
Qed.

(** Widening keeps the class of a datum. *)
Lemma widen_nan (v : binary32) : wf32 v -> is_nan64 (widen v) = is_nan v.
Proof.
  intros [He Hf]. unfold widen, is_nan64, is_nan.
  change (2 ^ 23) with 8388608 in Hf.
  destruct (Z.eqb_spec (expo v) 255) as [E255 | E255].
  - destruct (Z.eqb_spec (frac v) 0) as [F0 | F0]; [reflexivity |].
    cbn [expo64 frac64 andb negb].
    pose proof (quieted_range (frac v) Hf) as Hq.
    change (2 ^ 22) with 4194304 in Hq. change (2 ^ 29) with 536870912.
    destruct (Z.eqb_spec (quieted (frac v) * 536870912) 0); [lia |].
    reflexivity.
  - destruct (Z.eqb_spec (expo v) 0) as [E0 | E0].
    + destruct (Z.eqb_spec (frac v) 0) as [F0 | F0]; [reflexivity |].
      cbn [expo64 frac64 andb].
      assert (Hk : Z.log2 (frac v) < 23)
        by (apply Z.log2_lt_pow2; lia).
      destruct (Z.eqb_spec (Z.log2 (frac v) + 874) 2047); [lia |].
      reflexivity.
    + cbn [expo64 frac64 andb].
      destruct (Z.eqb_spec (expo v + 896) 2047); [lia | reflexivity].
Qed.

(** A register list that decodes is a pair of registers. *)
Lemma decode_shape (regs : list Z) (swap : bool) (x : binary64) :
  VogtlinMFC.decode regs swap = Ok x ->
  exists r0 r1, regs = [r0; r1] /\ is_u16 r0 = true /\ is_u16 r1 = true.
Proof.
  intros Hdec. unfold VogtlinMFC.decode in Hdec.
  destruct regs as [|r0 [|r1 [|r2 regs]]];
    try (destruct swap; simpl in Hdec; discriminate).
  - exists r0, r1. split; [reflexivity |].
    destruct swap; simpl in Hdec;
      destruct (is_u16 r0) eqn:E0; destruct (is_u16 r1) eqn:E1;
      simpl in Hdec; try discriminate; auto.
  - exfalso. destruct swap; simpl in Hdec; [| discriminate].
    destruct (rev regs ++ [r2])%list as [|a [|c [|z t]]] eqn:E;
      simpl in Hdec; try discriminate.
    destruct (rev regs); discriminate.
Qed.

(** [narrow] refuses a float exactly when it is finite and rounds beyond
    the largest binary32 number. *)
Lemma narrow_overflows (x : binary64) :
  wf64 x ->
  if is_finite64 x && (overflow_threshold <=? magnitude x)
  then narrow x = Raise too_large
  else returns (narrow x) = true.
Proof.
  intros [HE HF]. unfold is_finite64, magnitude, overflow_threshold, narrow.
  destruct x as [s E F]. cbn [expo64 frac64 sign64] in *.
  destruct (Z.eqb_spec E 2047) as [E2047 | E2047].
  - subst E. change (2047 <? 2047) with false. cbn [andb].
    destruct (F =? 0); reflexivity.
  - destruct (Z.ltb_spec E 2047) as [_ | ?]; [| lia]. cbn [andb].
    destruct (Z.eqb_spec E 0) as [E0 | E0].
    + (* subnormal binary64 *)
      subst E.
      assert (Hl : Z.log2 F < 52).
      { destruct (Z.eq_dec F 0) as [-> | ?]; [reflexivity |].
        apply Z.log2_lt_pow2; lia. }
      rewrite Z.max_r by lia.
      change (-149 - (1 - 1075)) with 925.
      assert (Hq : F / 2 ^ 925 = 0).
      { apply Z.div_small. split; [lia |].
        apply Z.lt_le_trans with (2 ^ 52); [lia |].
        apply Z.pow_le_mono_r; lia. }
      pose proof (round_half_even_bounds F 925) as Hb. rewrite Hq in Hb.
      change (2 ^ 52) with 4503599627370496 in *.
      change (2 ^ 28) with 268435456. change (2 ^ 23) with 8388608.
      destruct (Z.leb_spec (1151 * 4503599627370496 - 268435456)
                  (0 * 4503599627370496 + F)); [lia |].
      destruct (Z.leb_spec (255 * 8388608)
                  ((-149 + 149) * 8388608 + round_half_even F 925));
        [lia | reflexivity].
    + rewrite (log2_normal F HF).
      destruct (Z.le_gt_cases 897 E) as [Hbig | Hsmall].
      * rewrite Z.max_l by lia.
        replace (E - 1075 + 52 + 1 - 24 - (E - 1075)) with 29 by lia.
        replace (E - 1075 + 52 + 1 - 24 + 149) with (E - 897) by lia.
        unfold round_half_even.
        change (2 ^ (29 - 1)) with 268435456.
        change (2 ^ 29) with 536870912.
        change (2 ^ 52) with 4503599627370496 in *.
        change (2 ^ 28) with 268435456. change (2 ^ 23) with 8388608.
        set (m := 4503599627370496 + F).
        assert (Hodd : m / 536870912 = 16777215 ->
                       Z.even (m / 536870912) = false)
          by (intros ->; reflexivity).
        destruct (Z.leb_spec (1151 * 4503599627370496 - 268435456)
                    (E * 4503599627370496 + F)) as [Hthr | Hthr];
          destruct (Z.ltb_spec (m mod 536870912) 268435456) as [R1 | R1];
          try destruct (Z.ltb_spec 268435456 (m mod 536870912)) as [R2 | R2];
          try destruct (Z.even (m / 536870912)) eqn:Ev;
          match goal with
          | |- context [Z.leb ?a ?b] => destruct (Z.leb_spec a b) as [Hov | Hov]
          end;
          try reflexivity; exfalso; subst m;
          try (assert (Hq : (4503599627370496 + F) / 536870912 = 16777215)
                 by (Z.div_mod_to_equations; lia);
               specialize (Hodd Hq); congruence);
          Z.div_mod_to_equations; lia.
      * rewrite Z.max_r by lia.
        replace (-149 - (E - 1075)) with (926 - E) by lia.
        pose proof (round_half_even_bounds (2 ^ 52 + F) (926 - E)) as Hb.
        assert (Hq : (2 ^ 52 + F) / 2 ^ (926 - E) <= (2 ^ 52 + F) / 2 ^ 30).
        { apply Z.div_le_compat_l; [lia |]. split; [lia |].
          apply Z.pow_le_mono_r; lia. }
        assert (Hq' : (2 ^ 52 + F) / 2 ^ 30 < 2 ^ 23).
        { change (2 ^ 52) with 4503599627370496 in *.
          change (2 ^ 30) with 1073741824. change (2 ^ 23) with 8388608.
          Z.div_mod_to_equations. lia. }
        change (2 ^ 52) with 4503599627370496 in *.
        change (2 ^ 28) with 268435456. change (2 ^ 23) with 8388608 in *.
        destruct (Z.leb_spec (1151 * 4503599627370496 - 268435456)
                    (E * 4503599627370496 + F)); [lia |].
        match goal with
        | |- context [Z.leb ?a ?b] => destruct (Z.leb_spec a b) as [Hov | Hov]
        end; [lia | reflexivity].
Qed.

(** X1. A register pair that decodes at all is a pair of unsigned 16-bit
    registers, the float it decodes to is well formed, and, unless that
    float is a NaN, encoding it with the same flag gives the same pair
    back: between register pairs and numbers the codec loses nothing. *)
Theorem decode_then_encode (regs : list Z) (swap : bool) (x : binary64) :
  VogtlinMFC.decode regs swap = Ok x ->
  is_nan64 x = false ->
  wf64 x /\ Forall (fun r => is_u16 r = true) regs /\
  VogtlinMFC.encode x swap = Ok regs.
Proof.
  intros Hdec Hnan.
  destruct (decode_shape regs swap x Hdec) as (r0 & r1 & -> & H0 & H1).
  set (hi := if swap then r1 else r0). set (lo := if swap then r0 else r1).
  assert (Hhi : is_u16 hi = true) by (subst hi; destruct swap; assumption).
  assert (Hlo : is_u16 lo = true) by (subst lo; destruct swap; assumption).
  assert (Hregs : [r0; r1] = if swap then [lo; hi] else [hi; lo])
    by (subst hi lo; destruct swap; reflexivity).
  rewrite Hregs in Hdec. rewrite (decode_regs hi lo swap Hhi Hlo) in Hdec.
  inversion Hdec as [Hx]; clear Hdec.
  destruct (pattern_glue hi lo (u16_range _ Hhi) (u16_range _ Hlo))
    as (Hb & Ghi & Glo).
  cbv zeta in Hb, Ghi, Glo.
  set (b := Z.lor (Z.shiftl (Z.shiftr hi 8) 24)
              (Z.lor (Z.shiftl (Z.land hi 255) 16)
                 (Z.lor (Z.shiftl (Z.shiftr lo 8) 8) (Z.land lo 255)))) in *.
  pose proof (of_bits_wf b) as Hwf.
  split; [apply widen_wf; exact Hwf |].
  split; [repeat constructor; assumption |].
  assert (Hn : is_nan (of_bits b) = false)
    by (rewrite <- (widen_nan _ Hwf), Hx; exact Hnan).
  assert (Hq : quiet (of_bits b) = of_bits b)
    by (unfold quiet; rewrite Hn; reflexivity).
  pose proof (narrow_widen (of_bits b) Hwf) as Hnarrow. rewrite Hq in Hnarrow.
  rewrite (encode_regs _ _ swap Hnarrow). cbv zeta.
  rewrite (bits_of_of_bits _ Hb). rewrite Ghi, Glo. rewrite Hregs.
  reflexivity.
Qed.

(** X2. What a write makes of a float.  A finite float that rounds beyond
    the largest binary32 number is refused with [OverflowError], under
    either setting of the swap flag, and no other float is refused.  Every
    other float is stored as two unsigned 16-bit registers; what they
    decode to is the float rounded to a binary32 number, and encoding that
    gives the same registers again. *)
Theorem encode_rounds_or_overflows (x : binary64) (swap : bool) :
  wf64 x ->
  if is_finite64 x && (overflow_threshold <=? magnitude x)
  then VogtlinMFC.encode x swap = Raise too_large
  else exists (r0 r1 : Z) (y : binary64),
         VogtlinMFC.encode x swap = Ok [r0; r1] /\
         is_u16 r0 = true /\ is_u16 r1 = true /\
         VogtlinMFC.decode [r0; r1] swap = Ok y /\
         as_binary32 x = Ok y /\
         VogtlinMFC.encode y swap = Ok [r0; r1].
Proof.
  intros Hwf. pose proof (narrow_overflows x Hwf) as Hn.
  destruct (is_finite64 x && (overflow_threshold <=? magnitude x)).
  - apply encode_raises. exact Hn.
  - destruct (narrow x) as [v|e] eqn:Hv; [clear Hn | discriminate Hn].
    destruct (encode_then_decode x v swap Hwf Hv)
      as (r0 & r1 & He & H0 & H1 & Hd & _).
    exists r0, r1, (widen v). repeat split; try assumption.
    + unfold as_binary32. rewrite Hv. reflexivity.
    + destruct (narrow_wf x v Hwf Hv) as [Hwv Hs].
      pose proof (narrow_widen v Hwv) as Hnw.
      rewrite (quiet_id v Hs) in Hnw.
      rewrite (encode_regs _ _ swap Hnw).
      rewrite (encode_regs _ _ swap Hv) in He. exact He.
Qed.

(** X3. A register response that is not exactly two unsigned 16-bit values
    never decodes to a number: [_read_float] raises [struct.error] on
    it. *)
Theorem decode_rejects_malformed (regs : list Z) (swap : bool) :
  length regs <> 2%nat \/ Exists (fun r => is_u16 r = false) regs ->
  exists msg, VogtlinMFC.decode regs swap = Raise (StructError msg).
Proof.
  intros Hbad. unfold VogtlinMFC.decode.
  assert (Hrev : length (if swap then rev regs else regs) <> 2%nat \/
                 Exists (fun r => is_u16 r = false)
                   (if swap then rev regs else regs)).
  { destruct swap; [| exact Hbad].
    destruct Hbad as [Hl | Hx].
    - left. rewrite length_rev. exact Hl.
    - right. apply Exists_exists in Hx. destruct Hx as (r & Hin & Hr).
      apply Exists_exists. exists r. split; [| exact Hr].
      apply list_elem_of_In. apply (proj1 (in_rev regs r)).
      apply list_elem_of_In. exact Hin. }
  clear Hbad. destruct (if swap then rev regs else regs)
    as [|r0 [|r1 [|r2 t]]]; simpl; eauto.
  destruct Hrev as [Hl | Hx]; [simpl in Hl; lia |].
  destruct (is_u16 r0) eqn:E0; destruct (is_u16 r1) eqn:E1; simpl; eauto.
  exfalso. inversion Hx as [? ? Hr | ? ? Hx']; subst; [congruence |].
  inversion Hx' as [? ? Hr | ? ? Hx'']; subst; [congruence |].
  inversion Hx''.
Qed.

End CodecMore.

(** ** Reading and writing the registers of a flow controller *)

Section Registers.

Lemma REG_values :
  VogtlinMFC.REG_get "flow" = Ok 0 /\
  VogtlinMFC.REG_get "temperature" = Ok 2 /\
  VogtlinMFC.REG_get "total_flow" = Ok 4 /\
  VogtlinMFC.REG_get "setpoint" = Ok 6 /\
  VogtlinMFC.REG_get "valve_signal" = Ok 10.
Proof. vm_compute. repeat split. Qed.

(** The laboratory after a write of two registers. *)
Lemma write_float_lab (l l' : lab) (m : VogtlinMFC.t) (a : Z) (v : binary64)
    (swap : bool) :
  VogtlinMFC._write_float l m a v swap = Ok l' ->
  exists i s r0 r1,
    VogtlinMFC.instrument m = Some i /\
    slaves l !! (Minimalmodbus.port i, Minimalmodbus.address i) = Some s /\
    fault s = None /\
    port_faults l' = port_faults l /\ line_devices l' = line_devices l /\
    probes l' = probes l /\
    slaves l' =
      <[(Minimalmodbus.port i, Minimalmodbus.address i) :=
          {| fault := None;
             registers := <[a + 1 := r1]> (<[a := r0]> (registers s)) |}]>
        (slaves l).
Proof.
  unfold VogtlinMFC._write_float.
  destruct (narrow v) as [p|e] eqn:Hn;
    [| rewrite (encode_raises v e swap Hn); discriminate].
  rewrite (encode_regs v p swap Hn). cbv zeta.
  unfold VogtlinMFC.instrument_write.
  destruct (VogtlinMFC.instrument m) as [i|]; [| discriminate].
  unfold Minimalmodbus.write_registers.
  destruct (slaves l !! (Minimalmodbus.port i, Minimalmodbus.address i))
    as [s|] eqn:Hs; [| discriminate].
  destruct (fault s) eqn:Hf; [discriminate |].
  destruct swap;
    match goal with
    | |- context [forallb is_u16 ?rs] => destruct (forallb is_u16 rs)
    end; try discriminate; intros H; inversion H; subst l'; simpl;
    eexists i, s, _, _; repeat split; auto.
Qed.

Lemma read_after_write_elsewhere (l l' : lab) (m : VogtlinMFC.t) (a : Z)
    (v : binary64) (swap swap' : bool) (reg : Z) :
  VogtlinMFC._write_float l m a v swap = Ok l' ->
  reg + 1 < a \/ a + 1 < reg ->
  VogtlinMFC._read_float l' m reg swap' = VogtlinMFC._read_float l m reg swap'.
Proof.
  intros Hw Hfar.
  destruct (write_float_lab _ _ _ _ _ _ Hw)
    as (i & s & r0 & r1 & Hi & Hs & Hf & _ & _ & _ & Hl').
  unfold VogtlinMFC._read_float, VogtlinMFC.instrument_read. rewrite Hi.
  unfold Minimalmodbus.read_registers. rewrite Hl', Hs, Hf.
  rewrite lookup_insert_eq. simpl.
  rewrite !lookup_insert_ne by lia. reflexivity.
Qed.

Lemma read_after_write_other_station (l l' : lab) (m m' : VogtlinMFC.t)
    (i i' : Minimalmodbus.Instrument) (a : Z) (v : binary64)
    (swap swap' : bool) (reg : Z) :
  VogtlinMFC._write_float l m a v swap = Ok l' ->
  VogtlinMFC.instrument m = Some i ->
  VogtlinMFC.instrument m' = Some i' ->
  (Minimalmodbus.port i', Minimalmodbus.address i')
    <> (Minimalmodbus.port i, Minimalmodbus.address i) ->
  VogtlinMFC._read_float l' m' reg swap'
  = VogtlinMFC._read_float l m' reg swap'.
Proof.
  intros Hw Hi Hi' Hne.
  destruct (write_float_lab _ _ _ _ _ _ Hw)
    as (j & s & r0 & r1 & Hj & Hs & Hf & _ & _ & _ & Hl').
  rewrite Hi in Hj. inversion Hj; subst j.
  unfold VogtlinMFC._read_float, VogtlinMFC.instrument_read. rewrite Hi'.
  unfold Minimalmodbus.read_registers. rewrite Hl'.
  rewrite lookup_insert_ne by (intros E; apply Hne; symmetry; exact E).
  reflexivity.
Qed.

Lemma set_flow_setpoint_Ok (l l' : lab) (m : VogtlinMFC.t) (v : binary64)
    (out : list line) (r : pyval) :
  VogtlinMFC.set_flow_setpoint l m v = (out, Ok (r, l')) ->
  VogtlinMFC._write_float l m 6 v false = Ok l' /\ r = PyNone /\
  out = [[Txt "Setpoint updated to "; Fixed 3 (PyFloat v)]].
Proof.
  unfold VogtlinMFC.set_flow_setpoint.
  destruct REG_values as (_ & _ & _ & -> & _).
  unfold bind, lift, print, ret.
  destruct (VogtlinMFC._write_float l m 6 v false) as [l1|e]; simpl;
    intros H; inversion H. auto.
Qed.

(** X4. When [set_flow_setpoint] returns, the controller holds the new
    setpoint as the binary32 format keeps it, and nothing else has moved:
    [get_setpoint] reads back the float rounded to a binary32 number, which
    is the float itself when it is such a number; the flow, temperature,
    total flow and valve signal of the same controller read as before, and
    so does every quantity of a controller at another port or station
    address.  (The instrument is a register file that keeps what is
    written to it.) *)
Theorem setpoint_write_touches_only_setpoint (l l' : lab)
    (m : VogtlinMFC.t) (v : binary64) (out : list line) (r : pyval) :
  wf64 v ->
  VogtlinMFC.set_flow_setpoint l m v = (out, Ok (r, l')) ->
  (exists y, as_binary32 v = Ok y /\ VogtlinMFC.get_setpoint l' m = Ok y) /\
  (forall p, wf32 p -> v = widen p -> VogtlinMFC.get_setpoint l' m = Ok v) /\
  VogtlinMFC.get_flow l' m = VogtlinMFC.get_flow l m /\
  VogtlinMFC.get_temperature l' m = VogtlinMFC.get_temperature l m /\
  VogtlinMFC.get_total_flow l' m = VogtlinMFC.get_total_flow l m /\
  VogtlinMFC.get_valve_signal l' m = VogtlinMFC.get_valve_signal l m /\
  forall (m' : VogtlinMFC.t) (i i' : Minimalmodbus.Instrument) (key : string),
    VogtlinMFC.instrument m = Some i ->
    VogtlinMFC.instrument m' = Some i' ->
    (Minimalmodbus.port i', Minimalmodbus.address i')
      <> (Minimalmodbus.port i, Minimalmodbus.address i) ->
    VogtlinMFC.read_quantity key l' m' = VogtlinMFC.read_quantity key l m'.
Proof.
  intros Hwf Hset. apply set_flow_setpoint_Ok in Hset.
  destruct Hset as (Hw & _ & _).
  destruct REG_values as (R0 & R2 & R4 & R6 & R10).
  unfold VogtlinMFC.get_setpoint, VogtlinMFC.get_flow,
    VogtlinMFC.get_temperature, VogtlinMFC.get_total_flow,
    VogtlinMFC.get_valve_signal, VogtlinMFC.read_quantity.
  rewrite R0, R2, R4, R6, R10.
  pose proof (write_then_read_float _ _ _ _ _ _ Hwf Hw) as Hread.
  split.
  { destruct (as_binary32 v) as [y|e] eqn:Hy.
    - exists y. split; [reflexivity | exact Hread].
    - exfalso. unfold as_binary32 in Hy.
      destruct (narrow v) as [p|e'] eqn:Hn; [discriminate Hy |].
      unfold VogtlinMFC._write_float in Hw.
      rewrite (encode_raises v e' false Hn) in Hw. discriminate. }
  split.
  { intros p Hp ->. rewrite Hread. apply as_binary32_widen. exact Hp. }
  repeat (split;
    [apply (read_after_write_elsewhere _ _ _ _ _ _ _ _ Hw); lia |]).
  intros m' i i' key Hi Hi' Hne.
  destruct (VogtlinMFC.REG_get key); [| reflexivity].
  exact (read_after_write_other_station _ _ _ _ _ _ _ _ _ _ _ Hw Hi Hi' Hne).
Qed.

(** X5. [get_status] is all or nothing: when it returns, the four reads
    all succeeded and the snapshot holds exactly their four values under
    the keys [flow], [setpoint], [temperature] and [valve_signal]; so a
    read that fails makes [get_status] raise rather than return a partial
    snapshot. *)
Theorem get_status_is_complete (l : lab) (m : VogtlinMFC.t)
    (d : gmap string pyval) :
  MFC.get_status l m = Ok d ->
  exists flow setpoint temperature valve,
    VogtlinMFC.get_flow l m = Ok flow /\
    VogtlinMFC.get_setpoint l m = Ok setpoint /\
    VogtlinMFC.get_temperature l m = Ok temperature /\
    VogtlinMFC.get_valve_signal l m = Ok valve /\
    d !! "flow" = Some (PyFloat flow) /\
    d !! "setpoint" = Some (PyFloat setpoint) /\
    d !! "temperature" = Some (PyFloat temperature) /\
    d !! "valve_signal" = Some (PyFloat valve) /\
    forall key, d !! key <> None ->
      In key ["flow"; "setpoint"; "temperature"; "valve_signal"].
Proof.
  unfold MFC.get_status. intros H.
  apply and_then_Ok in H. destruct H as (f & Hf & H).
  apply and_then_Ok in H. destruct H as (sp & Hsp & H).
  apply and_then_Ok in H. destruct H as (t & Ht & H).
  apply and_then_Ok in H. destruct H as (vs & Hvs & H).
  inversion H; subst d; clear H.
  exists f, sp, t, vs. repeat split; auto.
  intros key Hkey.
  destruct (string_dec key "flow") as [-> | N1]; [simpl; auto |].
  destruct (string_dec key "setpoint") as [-> | N2]; [simpl; auto |].
  destruct (string_dec key "temperature") as [-> | N3]; [simpl; auto |].
  destruct (string_dec key "valve_signal") as [-> | N4]; [simpl; auto 6 |].
  exfalso. apply Hkey.
  rewrite !lookup_insert_ne by congruence. apply lookup_empty.
Qed.

(** X6. A [with VogtlinMFC(...)] block never ends well: once [connect] has
    answered, whatever the body does, leaving the block raises the
    attribute error for the undefined [close], and the instrument is left
    as [connect] set it, never closed. *)
Theorem with_mfc_always_raises {A : Type} (l : lab) (m m1 : VogtlinMFC.t)
    (ok : bool) (body : VogtlinMFC.t -> M A) :
  outcome (VogtlinMFC.connect l m) = Ok (ok, m1) ->
  fst (MFC.with_ l m body) = m1 /\
  outcome (snd (MFC.with_ l m body))
  = Raise (AttributeError "VogtlinMFC" "close") /\
  output (snd (MFC.with_ l m body))
  = (output (VogtlinMFC.connect l m) ++ output (body m1))%list.
Proof.
  unfold MFC.with_, MFC.__enter__, MFC.__exit__, bind, ret, raise,
    outcome, output.
  destruct (VogtlinMFC.connect l m) as [out [[ok' m1']|e]]; simpl;
    [| discriminate].
  intros H. inversion H; subst. destruct (body m1) as [ob rb]. simpl.
  rewrite !app_nil_r. auto.
Qed.

End Registers.

(** ** The hygrometer driver *)

Section HygrometerMore.

Lemma float_is_decimal (s : string) (v : pyval) :
  Builtins.float s = Ok v -> exists q, v = PyFloatDec q.
Proof.
  unfold Builtins.float.
  destruct (match Builtins.strip s with
            | String "-"%char r => (true, r)
            | String "+"%char r => (false, r)
            | _ => (false, Builtins.strip s)
            end) as [negative body].
  destruct (Builtins.split_point body) as [i f].
  destruct (Builtins.all_digits i && Builtins.all_digits f
            && (0 <? String.length i + String.length f)%nat);
    intros H; inversion H. eauto.
Qed.

Lemma float_raises (s : string) (e : exn) :
  Builtins.float s = Raise e ->
  e = ValueError "could not convert string to float".
Proof.
  unfold Builtins.float.
  destruct (match Builtins.strip s with
            | String "-"%char r => (true, r)
            | String "+"%char r => (false, r)
            | _ => (false, Builtins.strip s)
            end) as [negative body].
  destruct (Builtins.split_point body) as [i f].
  destruct (Builtins.all_digits i && Builtins.all_digits f
            && (0 <? String.length i + String.length f)%nat);
    intros H; inversion H. reflexivity.
Qed.

(** Every group of a pattern has captured something when the match gets
    to its continuation, and earlier captures are kept. *)
Lemma run_captures {R : Type} (r : Re.regex) :
  forall (s : list ascii) (caps : gmap string string)
         (k : list ascii -> gmap string string -> option R) (res : R),
    Re.run r s caps k = Some res ->
    exists s2 caps', k s2 caps' = Some res /\
      (forall g, In g (groups_of r) -> caps' !! g <> None) /\
      (forall g, caps !! g <> None -> caps' !! g <> None).
Proof.
  induction r as [|c|r1 IH1 r2 IH2|g c|name r IH]; simpl; intros s caps k res H.
  - exists s, caps. split; [exact H |]. split; [intros g [] | auto].
  - destruct s as [|a s]; [discriminate |].
    destruct (Re.cc_match c a); [| discriminate].
    exists s, caps. split; [exact H |]. split; [intros g [] | auto].
  - destruct (IH1 _ _ _ _ H) as (s1 & caps1 & H1 & G1 & K1).
    destruct (IH2 _ _ _ _ H1) as (s2 & caps2 & H2 & G2 & K2).
    exists s2, caps2. split; [exact H2 |]. split.
    + intros g0 Hin. apply in_app_or in Hin. destruct Hin; auto.
    + auto.
  - destruct g.
    + destruct (star_greedy_sound _ _ _ _ H) as (s1 & s2 & _ & _ & Hk).
      exists s2, caps. split; [exact Hk |]. split; [intros g [] | auto].
    + destruct (star_lazy_sound _ _ _ _ H) as (s1 & s2 & _ & _ & Hk).
      exists s2, caps. split; [exact Hk |]. split; [intros g [] | auto].
  - destruct (IH _ _ _ _ H) as (s2 & caps1 & Hk & G & K).
    exists s2, (<[name := Re.consumed s s2]> caps1).
    split; [exact Hk |].
    assert (Hkeep : forall g, caps1 !! g <> None ->
              <[name := Re.consumed s s2]> caps1 !! g <> None).
    { intros g0 Hg. destruct (string_dec name g0) as [-> | Hne].
      - rewrite lookup_insert_eq. discriminate.
      - rewrite lookup_insert_ne by exact Hne. exact Hg. }
    split.
    + intros g0 [<- | Hin]; [rewrite lookup_insert_eq; discriminate | auto].
    + auto.
Qed.

Lemma search_from_captures (r : Re.regex) (s : list ascii)
    (caps : gmap string string) :
  Re.search_from r s = Some caps ->
  forall g, In g (groups_of r) -> caps !! g <> None.
Proof.
  induction s as [|a s IH]; simpl; intros H.
  - destruct (Re.run r [] ∅ _) eqn:Hrun; [| discriminate].
    inversion H; subst.
    destruct (run_captures _ _ _ _ _ Hrun) as (s2 & caps' & Hk & G & _).
    inversion Hk; subst. exact G.
  - destruct (Re.run r (a :: s) ∅ _) eqn:Hrun.
    + inversion H; subst.
      destruct (run_captures _ _ _ _ _ Hrun) as (s2 & caps' & Hk & G & _).
      inversion Hk; subst. exact G.
    + auto.
Qed.

Lemma data_pattern_groups :
  groups_of DewMaster.data_pattern = DewMaster.group_names.
Proof. reflexivity. Qed.

Lemma convert_lookup (names : list string) (groups : gmap string string)
    (d : gmap string pyval) :
  NoDup names ->
  DewMaster.convert names groups = Ok d ->
  forall k v, In k names -> groups !! k = Some v ->
    (if numeric_key k then Builtins.float v else Ok (PyStr v))
    = Ok (Controller.dict_get d k).
Proof.
  intros Hnd. revert d.
  induction names as [|k0 names IH]; simpl; intros d H k v Hin Hv;
    [contradiction |].
  apply NoDup_cons in Hnd. destruct Hnd as [Hfresh Hnd].
  destruct (groups !! k0) as [v0|] eqn:Hk0.
  - apply and_then_Ok in H. destruct H as (x & Hx & H).
    apply and_then_Ok in H. destruct H as (d' & Hd' & H).
    inversion H; subst d; clear H.
    unfold Controller.dict_get.
    destruct Hin as [<- | Hin].
    + rewrite lookup_insert_eq. rewrite Hk0 in Hv. inversion Hv; subst.
      exact Hx.
    + rewrite lookup_insert_ne
        by (intros ->; apply Hfresh; apply list_elem_of_In; exact Hin).
      exact (IH Hnd d' Hd' k v Hin Hv).
  - destruct Hin as [<- | Hin]; [congruence |].
    exact (IH Hnd d H k v Hin Hv).
Qed.

Lemma convert_raises (names : list string) (groups : gmap string string)
    (e : exn) :
  DewMaster.convert names groups = Raise e ->
  e = ValueError "could not convert string to float".
Proof.
  induction names as [|k names IH]; [discriminate |].
  cbn [DewMaster.convert].
  destruct (groups !! k) as [v|]; [| exact IH].
  intros H.
  destruct (if existsb (String.eqb k) ["dp"; "at"; "rh"]
            then Builtins.float v else Ok (PyStr v)) as [x|e'] eqn:Hx;
    simpl in H.
  - destruct (DewMaster.convert names groups) as [d|e'']; simpl in H;
      [discriminate | inversion H; subst; auto].
  - inversion H; subst.
    destruct (existsb (String.eqb k) ["dp"; "at"; "rh"]);
      [eapply float_raises; eauto | discriminate].
Qed.

End HygrometerMore.

Section HygrometerParsing.

Lemma dict_get_Some (d : gmap string pyval) (k : string) (v : pyval) :
  Controller.dict_get d k = v -> v <> PyNone -> d !! k = Some v.
Proof.
  unfold Controller.dict_get. destruct (d !! k); intros <- H; congruence.
Qed.

Lemma parse_Some_inv (line : string) (d : gmap string pyval) :
  DewMaster.parse line = Ok (Some d) ->
  exists groups,
    Re.search DewMaster.data_pattern line = Some groups /\
    DewMaster.convert DewMaster.group_names groups = Ok d /\
    forall k, In k DewMaster.group_names -> exists v,
      groups !! k = Some v /\
      (if numeric_key k then Builtins.float v else Ok (PyStr v))
      = Ok (Controller.dict_get d k).
Proof.
  unfold DewMaster.parse.
  destruct (Re.search DewMaster.data_pattern line) as [groups|] eqn:Hs;
    [| discriminate].
  intros H. apply and_then_Ok in H. destruct H as (d' & Hc & H).
  inversion H; subst d'; clear H.
  exists groups. split; [reflexivity |]. split; [exact Hc |].
  intros k Hin.
  pose proof (search_from_captures _ _ _ Hs k) as Hcap.
  rewrite data_pattern_groups in Hcap. specialize (Hcap Hin).
  destruct (groups !! k) as [v|] eqn:Hk; [| congruence].
  exists v. split; [reflexivity |].
  eapply convert_lookup; eauto.
  unfold DewMaster.group_names.
  repeat (apply NoDup_cons; split;
          [intros Hdup;
           repeat (apply elem_of_cons in Hdup;
                   destruct Hdup as [Hdup | Hdup]; [discriminate |]);
           inversion Hdup |]).
  apply NoDup_nil. exact I.
Qed.

(** X7. A line that parses is never half parsed: the dictionary holds the
    date and the time as texts and the dewpoint, the ambient temperature
    and the relative humidity as floats, all five of them, and no other
    key; and the line carries the three labelled fields. *)
Theorem parse_is_complete (line : string) (d : gmap string pyval) :
  DewMaster.parse line = Ok (Some d) ->
  (exists date time dp at_ rh,
     d !! "date" = Some (PyStr date) /\ d !! "time" = Some (PyStr time) /\
     d !! "dp" = Some (PyFloatDec dp) /\ d !! "at" = Some (PyFloatDec at_) /\
     d !! "rh" = Some (PyFloatDec rh)) /\
  (forall key, d !! key <> None -> In key DewMaster.group_names) /\
  DewMaster.has_field "DP" line /\ DewMaster.has_field "AT" line /\
  DewMaster.has_field "RH" line.
Proof.
  intros H. destruct (parse_Some_inv _ _ H) as (groups & Hs & Hc & Hk).
  split; [| split].
  - destruct (Hk "date") as (date & _ & Hdate); [simpl; auto |].
    destruct (Hk "time") as (time & _ & Htime); [simpl; auto |].
    destruct (Hk "dp") as (vdp & _ & Hdp); [simpl; auto |].
    destruct (Hk "at") as (vat & _ & Hat); [simpl; auto 6 |].
    destruct (Hk "rh") as (vrh & _ & Hrh); [simpl; auto 6 |].
    simpl in Hdate, Htime, Hdp, Hat, Hrh.
    inversion Hdate as [Hd1]. inversion Htime as [Hd2].
    destruct (float_is_decimal _ _ Hdp) as (qdp & Eqdp).
    destruct (float_is_decimal _ _ Hat) as (qat & Eqat).
    destruct (float_is_decimal _ _ Hrh) as (qrh & Eqrh).
    exists date, time, qdp, qat, qrh.
    repeat split; apply dict_get_Some; auto; discriminate.
  - intros key Hkey.
    destruct (in_dec string_dec key DewMaster.group_names) as [Hin | Hnot];
      [exact Hin |].
    exfalso. apply Hkey. eapply convert_keys; eauto.
  - eapply search_needs_fields; eauto.
Qed.

(** X8. The parser raises on one kind of line only: a line that matches
    the pattern, so carries all three labelled fields, with a value that
    [float] does not accept (a lone sign, two points); the exception is
    always the [ValueError] of [float]. *)
Theorem parse_raises_only_value_error (line : string) (e : exn) :
  DewMaster.parse line = Raise e ->
  e = ValueError "could not convert string to float" /\
  DewMaster.has_field "DP" line /\ DewMaster.has_field "AT" line /\
  DewMaster.has_field "RH" line.
Proof.
  unfold DewMaster.parse.
  destruct (Re.search DewMaster.data_pattern line) as [groups|] eqn:Hs;
    [| discriminate].
  intros H. split; [| eapply search_needs_fields; eauto].
  destruct (DewMaster.convert DewMaster.group_names groups) as [d|e'] eqn:Hc;
    simpl in H; [discriminate |].
  inversion H; subst. eapply convert_raises; eauto.
Qed.

(** X9. The loop of [poll] stops at the first line that matches the
    pattern: the lines before it that do not match are skipped, the lines
    after it are not looked at, and the result is that line's, its values
    or its [ValueError]. *)
Theorem poll_takes_first_match (skipped rest : list string) (line : string) :
  Forall (fun x => DewMaster.parse x = Ok None) skipped ->
  DewMaster.parse line <> Ok None ->
  DewMaster.first_parsed (skipped ++ line :: rest)%list
  = DewMaster.parse line.
Proof.
  intros Hskip Hline.
  induction Hskip as [|x skipped Hx _ IH]; simpl.
  - destruct (DewMaster.parse line) as [[d|]|e]; congruence.
  - rewrite Hx. exact IH.
Qed.

End HygrometerParsing.

Section HygrometerPort.

Lemma disconnect_closes (h h' : DewMaster.t) :
  outcome (DewMaster.disconnect h) = Ok h' -> Hygro.port_open h' = false.
Proof.
  unfold DewMaster.disconnect, Hygro.port_open.
  destruct (DewMaster.ser h) as [s|] eqn:Hs.
  - destruct (Pyserial.is_open s) eqn:Ho; simpl; intros H; inversion H;
      subst; simpl; [reflexivity | rewrite Hs; exact Ho].
  - simpl. intros H. inversion H; subst. rewrite Hs. reflexivity.
Qed.

Lemma write_needs_open_port (l : lab) (h : DewMaster.t) (cmd : string) :
  Hygro.port_open h = false ->
  DewMaster._write l h cmd = Raise (RuntimeError "Serial port not open.").
Proof.
  unfold Hygro.port_open, DewMaster._write.
  destruct (DewMaster.ser h) as [s|]; [| reflexivity].
  intros ->. reflexivity.
Qed.

(** X10. A driver whose port is not open, because it was never connected
    or because it was disconnected, answers [poll] and
    [set_output_interval] with the [RuntimeError] "Serial port not open."
    before anything is written or printed; and after [disconnect] the port
    is in that state, whatever it was before. *)
Theorem commands_need_open_port (l : lab) (h : DewMaster.t) (seconds : Z) :
  (Hygro.port_open h = false ->
   DewMaster.poll l h = Raise (RuntimeError "Serial port not open.") /\
   Hygro.set_output_interval l h seconds
   = ([], Raise (RuntimeError "Serial port not open."))) /\
  (forall h', outcome (DewMaster.disconnect h) = Ok h' ->
     DewMaster.poll l h' = Raise (RuntimeError "Serial port not open.")).
Proof.
  assert (Hclosed : forall x, Hygro.port_open x = false ->
            DewMaster.poll l x = Raise (RuntimeError "Serial port not open.")).
  { intros x Hx. unfold DewMaster.poll.
    rewrite write_needs_open_port by exact Hx. reflexivity. }
  split.
  - intros Hh. split; [apply Hclosed; exact Hh |].
    unfold Hygro.set_output_interval, bind, lift.
    rewrite write_needs_open_port by exact Hh. reflexivity.
  - intros h' Hd. apply Hclosed. eapply disconnect_closes; eauto.
Qed.

(** X11. [with DewMaster(...) as h: body] releases the port whenever the
    body is entered: if [connect] returns, the body runs on the connected
    driver, the statement ends as the body ended, returning or raising,
    and in both cases leaves the port closed.  If [connect] raises, the
    body does not run and neither does [__exit__]: the statement raises
    what [connect] raised and leaves the driver as [connect] left it,
    untouched when the port could not be opened, and with the port open
    when it was opened and the failure came after. *)
Theorem with_hygrometer_releases {A : Type} (l : lab) (h : DewMaster.t)
    (body : DewMaster.t -> M A) :
  (forall ok, outcome (snd (DewMaster.connect l h)) = Ok ok ->
     Hygro.port_open (fst (DewMaster.connect l h)) = true /\
     Hygro.port_open (fst (Hygro.with_ l h body)) = false /\
     outcome (snd (Hygro.with_ l h body))
     = outcome (body (fst (DewMaster.connect l h)))) /\
  (forall e, outcome (snd (DewMaster.connect l h)) = Raise e ->
     snd (Hygro.with_ l h body) = ([], Raise e) /\
     fst (Hygro.with_ l h body) = fst (DewMaster.connect l h) /\
     (forall s,
        Pyserial.new l (DewMaster.port h) (DewMaster.baudrate h)
          (DewMaster.timeout h) = Ok s ->
        Hygro.port_open (fst (Hygro.with_ l h body)) = true) /\
     (returns (Pyserial.new l (DewMaster.port h) (DewMaster.baudrate h)
                 (DewMaster.timeout h)) = false ->
      fst (Hygro.with_ l h body) = h)).
Proof.
  unfold Hygro.with_, Hygro.__enter__, Hygro.__exit__, bind, ret, raise,
    outcome.
  unfold DewMaster.connect.
  destruct (Pyserial.new l (DewMaster.port h) (DewMaster.baudrate h)
              (DewMaster.timeout h)) as [s|e0] eqn:Hnew.
  - assert (Hopen : Pyserial.is_open s = true).
    { unfold Pyserial.new in Hnew.
      destruct (DewMaster.port h); try discriminate.
      destruct (port_faults l !! s0); [discriminate |].
      inversion Hnew. reflexivity. }
    destruct (Pyserial.reset_buffers l s) as [u|e1]; simpl.
    + split; [| discriminate].
      intros ok _.
      split; [unfold Hygro.port_open; simpl; exact Hopen |].
      destruct (body (DewMaster.with_ser h (Some s))) as [ob rb].
      unfold DewMaster.disconnect. simpl. rewrite Hopen. simpl.
      split; reflexivity.
    + split; [discriminate |].
      intros e H. inversion H; subst; clear H.
      split; [reflexivity |]. split; [reflexivity |].
      split; [| discriminate].
      intros s' _. unfold Hygro.port_open. simpl. exact Hopen.
  - simpl. split; [discriminate |].
    intros e H. inversion H; subst; clear H.
    split; [reflexivity |]. split; [reflexivity |].
    split; [discriminate | reflexivity].
Qed.

Lemma parse_empty : DewMaster.parse EmptyString = Ok None.
Proof. vm_compute. reflexivity. Qed.

Lemma stream_prints_parsed (raw : list string) :
  Forall (fun text =>
            returns (DewMaster.parse (Builtins.strip text)) = true) raw ->
  Hygro.stream raw = (omap streamed raw, Ok tt).
Proof.
  induction 1 as [|text raw Htext _ IH]; [reflexivity |].
  cbn [Hygro.stream omap list_omap]. unfold streamed at 1.
  destruct (DewMaster.nonempty (Builtins.strip text)) eqn:Hne; simpl.
  - destruct (DewMaster.parse (Builtins.strip text)) as [[d|]|e] eqn:Hp;
      [| | discriminate].
    + destruct (parse_Some_inv _ _ Hp) as (groups & Hs & _ & Hk).
      rewrite Hs.
      destruct (Hk "dp") as (vdp & Gdp & Hdp); [simpl; auto |].
      destruct (Hk "at") as (vat & Gat & Hat); [simpl; auto 6 |].
      destruct (Hk "rh") as (vrh & Grh & Hrh); [simpl; auto 6 |].
      simpl in Hdp, Hat, Hrh.
      unfold Hygro.group. rewrite Gdp, Gat, Grh.
      unfold bind, lift, print. rewrite Hdp, Hat, Hrh, IH. reflexivity.
    + unfold DewMaster.parse in Hp.
      destruct (Re.search DewMaster.data_pattern (Builtins.strip text))
        as [groups|]; [| exact IH].
      destruct (DewMaster.convert DewMaster.group_names groups);
        discriminate.
  - assert (Hempty : Builtins.strip text = EmptyString)
      by (destruct (Builtins.strip text); [reflexivity | discriminate]).
    rewrite Hempty, parse_empty. exact IH.
Qed.

(** X12. [read_stream] and [poll] read a line the same way: over a window
    of positive length in which no line makes the parser raise,
    [read_stream] prints, between its opening and closing lines, exactly
    one line for each text that the parser of [poll] accepts, in order,
    with the three values the parser gives; texts that are blank or do not
    match leave no trace. *)
Theorem read_stream_prints_what_parses (l : lab) (h : DewMaster.t)
    (s : Pyserial.Serial) (raw : list string) (duration : Q) :
  (0 < duration)%Q ->
  DewMaster.ser h = Some s ->
  Pyserial.readlines l s = Ok raw ->
  Forall (fun text =>
            returns (DewMaster.parse (Builtins.strip text)) = true) raw ->
  Hygro.read_stream l h duration
  = (([Txt "Reading continuous output for "; Val (PyFloatDec duration);
       Txt "s..."]
        :: omap streamed raw) ++ [[Txt "Done."]], Ok tt)%list.
Proof.
  intros Hpos Hs Hread Hraw. unfold Hygro.read_stream.
  assert (Hd : Qle_bool duration 0 = false).
  { destruct (Qle_bool duration 0) eqn:E; [| reflexivity].
    apply Qle_bool_iff in E. exfalso. apply (Qlt_not_le _ _ Hpos E). }
  rewrite Hd, Hs.
  unfold bind, lift, print. rewrite Hread.
  rewrite (stream_prints_parsed raw Hraw). reflexivity.
Qed.

End HygrometerPort.

(** ** Connecting the devices *)

Section ConnectDevices.

Variable l : lab.


Lemma hygrometer_connect_Ok (h : DewMaster.t) (ok : bool) :
  outcome (snd (DewMaster.connect l h)) = Ok ok ->
  ok = true /\ Hygro.port_open (fst (DewMaster.connect l h)) = true.
Proof.
  unfold DewMaster.connect.
  destruct (Pyserial.new l (DewMaster.port h) (DewMaster.baudrate h)
              (DewMaster.timeout h)) as [s|e] eqn:Hnew.
  - destruct (Pyserial.reset_buffers l s); simpl; [| discriminate].
    intros H. inversion H; subst; clear H.
    split; [reflexivity |]. unfold Hygro.port_open. simpl.
    unfold Pyserial.new in Hnew.
    destruct (DewMaster.port h); try discriminate.
    destruct (port_faults l !! s0); [discriminate |].
    inversion Hnew. reflexivity.
  - simpl. discriminate.
Qed.

(** What each block of [connect_devices] has done when it returns. *)
Lemma connect_dry_Ok (s s' : bool) (c c' : Controller.t) :
  outcome (Controller.connect_dry l (s, c)) = Ok (s', c') ->
  match Controller.config c !! "dry_mfc_port" with
  | None => s' = s /\ c' = c
  | Some port =>
      exists ok m,
        outcome (VogtlinMFC.connect l (new_dry c port)) = Ok (ok, m) /\
        s' = ok && s /\ c' = Controller.with_dry_mfc c (Some m)
  end.
Proof.
  unfold Controller.connect_dry.
  destruct (Controller.config c !! "dry_mfc_port") as [port|].
  - fold (new_dry c port). unfold bind, print, ret, outcome.
    destruct (VogtlinMFC.connect l (new_dry c port)) as [o [[ok m]|e]];
      simpl; [| discriminate].
    destruct ok; simpl; intros H; inversion H; subst; eauto.
  - simpl. intros H. inversion H. auto.
Qed.

Lemma connect_wet_Ok (s s' : bool) (c c' : Controller.t) :
  outcome (Controller.connect_wet l (s, c)) = Ok (s', c') ->
  match Controller.config c !! "wet_mfc_port" with
  | None => s' = s /\ c' = c
  | Some port =>
      exists ok m,
        outcome (VogtlinMFC.connect l (new_wet c port)) = Ok (ok, m) /\
        s' = ok && s /\ c' = Controller.with_wet_mfc c (Some m)
  end.
Proof.
  unfold Controller.connect_wet.
  destruct (Controller.config c !! "wet_mfc_port") as [port|].
  - fold (new_wet c port). unfold bind, print, ret, outcome.
    destruct (VogtlinMFC.connect l (new_wet c port)) as [o [[ok m]|e]];
      simpl; [| discriminate].
    destruct ok; simpl; intros H; inversion H; subst; eauto.
  - simpl. intros H. inversion H. auto.
Qed.

Lemma connect_hygrometer_Ok (s s' : bool) (c c' : Controller.t) :
  outcome (Controller.connect_hygrometer l (s, c)) = Ok (s', c') ->
  match Controller.config c !! "hygrometer_port" with
  | None => s' = s /\ c' = c
  | Some port =>
      exists h,
        (outcome (snd (DewMaster.connect l (new_hygrometer c port)))
           = Ok true /\
         fst (DewMaster.connect l (new_hygrometer c port)) = h) /\
        s' = s /\ c' = Controller.with_hygrometer c (Some h)
  end.
Proof.
  unfold Controller.connect_hygrometer.
  destruct (Controller.config c !! "hygrometer_port") as [port|].
  - fold (new_hygrometer c port).
    pose proof (hygrometer_connect_Ok (new_hygrometer c port)) as Hok.
    unfold bind, print, ret, outcome in *.
    destruct (DewMaster.connect l (new_hygrometer c port))
      as [h [o [ok|e]]]; simpl in *; [| discriminate].
    destruct (Hok ok eq_refl) as [-> _]. simpl.
    intros H. inversion H; subst. eauto.
  - simpl. intros H. inversion H. auto.
Qed.

Lemma connect_probe_Ok (s s' : bool) (c c' : Controller.t) :
  outcome (Controller.connect_probe l (s, c)) = Ok (s', c') ->
  match Controller.config c !! "t_probe" with
  | None => s' = s /\ c' = c
  | Some _ =>
      exists port ok p,
        Controller.config c !! "t_probe_port" = Some port /\
        outcome (TemperatureProbe.connect l (new_probe c port)) = Ok (ok, p) /\
        s' = ok && s /\ c' = Controller.with_t_probe c (Some p)
  end.
Proof.
  unfold Controller.connect_probe.
  destruct (Controller.config c !! "t_probe") as [flag|].
  - unfold Controller.config_item.
    destruct (Controller.config c !! "t_probe_port") as [port|];
      [| unfold bind, lift, outcome; simpl; discriminate].
    unfold bind, print, ret, lift, outcome. cbv beta iota zeta.
    fold (new_probe c port).
    destruct (TemperatureProbe.connect l (new_probe c port))
      as [o [[ok p]|e]] eqn:Hc; simpl; [| discriminate].
    destruct ok; simpl; intros H; inversion H; subst;
      [exists port, true, p | exists port, false, p]; rewrite Hc;
      repeat split.
  - simpl. intros H. inversion H. auto.
Qed.

Lemma connect_devices_Ok (self c : Controller.t) (ok : bool) :
  outcome (Controller.connect_devices l self) = Ok (ok, c) ->
  exists s1 c1 s2 c2 s3 c3,
    outcome (Controller.connect_dry l (true, self)) = Ok (s1, c1) /\
    outcome (Controller.connect_wet l (s1, c1)) = Ok (s2, c2) /\
    outcome (Controller.connect_hygrometer l (s2, c2)) = Ok (s3, c3) /\
    outcome (Controller.connect_probe l (s3, c3)) = Ok (ok, c).
Proof.
  unfold Controller.connect_devices, bind, outcome.
  destruct (Controller.connect_dry l (true, self)) as [o1 [[s1 c1]|e1]]
    eqn:H1; cbv beta iota zeta delta [snd]; [| discriminate].
  destruct (Controller.connect_wet l (s1, c1)) as [o2 [[s2 c2]|e2]]
    eqn:H2; cbv beta iota zeta delta [snd]; [| discriminate].
  destruct (Controller.connect_hygrometer l (s2, c2)) as [o3 [[s3 c3]|e3]]
    eqn:H3; cbv beta iota zeta delta [snd]; [| discriminate].
  destruct (Controller.connect_probe l (s3, c3)) as [o4 [[s4 c4]|e4]]
    eqn:H4; cbv beta iota zeta delta [snd]; [| discriminate].
  intros H. inversion H; subst.
  exists s1, c1, s2, c2, s3, c3. rewrite H2, H3, H4. repeat split.
Qed.

End ConnectDevices.

Section ConnectDevicesAnswer.

Variable l : lab.

Lemma same_but_devices_refl (c : Controller.t) : same_but_devices c c.
Proof. unfold same_but_devices. auto. Qed.

(** The whole of [connect_devices], block by block. *)
Lemma connect_devices_blocks (self c : Controller.t) (ok : bool) :
  outcome (Controller.connect_devices l self) = Ok (ok, c) ->
  exists okd okw okp : bool,
    ok = okd && okw && okp /\
    same_but_devices self c /\
    match Controller.config self !! "dry_mfc_port" with
    | None => okd = true /\ Controller.dry_mfc c = Controller.dry_mfc self
    | Some port =>
        exists m,
          outcome (VogtlinMFC.connect l (new_dry self port)) = Ok (okd, m) /\
          Controller.dry_mfc c = Some m
    end /\
    match Controller.config self !! "wet_mfc_port" with
    | None => okw = true /\ Controller.wet_mfc c = Controller.wet_mfc self
    | Some port =>
        exists m,
          outcome (VogtlinMFC.connect l (new_wet self port)) = Ok (okw, m) /\
          Controller.wet_mfc c = Some m
    end /\
    match Controller.config self !! "hygrometer_port" with
    | None => Controller.hygrometer c = Controller.hygrometer self
    | Some port =>
        exists h,
          (outcome (snd (DewMaster.connect l (new_hygrometer self port)))
             = Ok true /\
           fst (DewMaster.connect l (new_hygrometer self port)) = h) /\
          Controller.hygrometer c = Some h
    end /\
    match Controller.config self !! "t_probe" with
    | None => okp = true /\ Controller.t_probe c = Controller.t_probe self
    | Some _ =>
        exists port p,
          Controller.config self !! "t_probe_port" = Some port /\
          outcome (TemperatureProbe.connect l (new_probe self port))
            = Ok (okp, p) /\
          Controller.t_probe c = Some p
    end.
Proof.
  intros H. apply connect_devices_Ok in H.
  destruct H as (s1 & c1 & s2 & c2 & s3 & c3 & H1 & H2 & H3 & H4).
  apply connect_dry_Ok in H1. apply connect_wet_Ok in H2.
  apply connect_hygrometer_Ok in H3. apply connect_probe_Ok in H4.
  assert (E1 : exists okd, s1 = okd /\ Controller.config c1 = Controller.config self /\
            same_but_devices self c1 /\
            Controller.wet_mfc c1 = Controller.wet_mfc self /\
            Controller.hygrometer c1 = Controller.hygrometer self /\
            Controller.t_probe c1 = Controller.t_probe self /\
            match Controller.config self !! "dry_mfc_port" with
            | None => okd = true /\
                      Controller.dry_mfc c1 = Controller.dry_mfc self
            | Some port =>
                exists m,
                  outcome (VogtlinMFC.connect l (new_dry self port))
                    = Ok (okd, m) /\
                  Controller.dry_mfc c1 = Some m
            end).
  { destruct (Controller.config self !! "dry_mfc_port") as [port|].
    - destruct H1 as (okd & m & Hc & -> & ->).
      exists okd. rewrite andb_true_r.
      repeat split; eauto.
    - destruct H1 as [-> ->]. exists true.
      repeat split; auto. }
  destruct E1 as (okd & -> & Cfg1 & S1 & W1 & Hy1 & P1 & D1). clear H1.
  rewrite Cfg1 in H2.
  assert (E2 : exists okw, s2 = okw && okd /\
            Controller.config c2 = Controller.config self /\
            same_but_devices self c2 /\
            Controller.dry_mfc c2 = Controller.dry_mfc c1 /\
            Controller.hygrometer c2 = Controller.hygrometer self /\
            Controller.t_probe c2 = Controller.t_probe self /\
            match Controller.config self !! "wet_mfc_port" with
            | None => okw = true /\
                      Controller.wet_mfc c2 = Controller.wet_mfc self
            | Some port =>
                exists m,
                  outcome (VogtlinMFC.connect l (new_wet self port))
                    = Ok (okw, m) /\
                  Controller.wet_mfc c2 = Some m
            end).
  { destruct (Controller.config self !! "wet_mfc_port") as [port|].
    - destruct H2 as (okw & m & Hc & -> & ->).
      exists okw. unfold new_wet, Controller.config_get in Hc.
      rewrite Cfg1 in Hc.
      destruct S1 as (? & ? & ? & ? & ?).
      repeat split; simpl; eauto.
    - destruct H2 as [-> ->]. exists true.
      repeat split; auto; apply S1. }
  destruct E2 as (okw & -> & Cfg2 & S2 & D2 & Hy2 & P2 & W2). clear H2.
  rewrite Cfg2 in H3.
  assert (E3 : s3 = okw && okd /\
            Controller.config c3 = Controller.config self /\
            same_but_devices self c3 /\
            Controller.dry_mfc c3 = Controller.dry_mfc c1 /\
            Controller.wet_mfc c3 = Controller.wet_mfc c2 /\
            Controller.t_probe c3 = Controller.t_probe self /\
            match Controller.config self !! "hygrometer_port" with
            | None => Controller.hygrometer c3 = Controller.hygrometer self
            | Some port =>
                exists h,
                  (outcome
                     (snd (DewMaster.connect l (new_hygrometer self port)))
                     = Ok true /\
                   fst (DewMaster.connect l (new_hygrometer self port)) = h) /\
                  Controller.hygrometer c3 = Some h
            end).
  { destruct (Controller.config self !! "hygrometer_port") as [port|].
    - destruct H3 as (h & Hc & -> & ->).
      unfold new_hygrometer, Controller.config_get in Hc.
      rewrite Cfg2 in Hc.
      destruct S2 as (? & ? & ? & ? & ?).
      repeat split; simpl; eauto.
    - destruct H3 as [-> ->].
      repeat split; auto; apply S2. }
  destruct E3 as (-> & Cfg3 & S3 & D3 & W3 & P3 & Hy3). clear H3.
  rewrite Cfg3 in H4.
  destruct (Controller.config self !! "t_probe") as [flag|].
  - destruct H4 as (port & okp & p & Hport & Hc & -> & ->).
    exists okd, okw, okp.
    unfold new_probe, Controller.config_get in Hc. rewrite Cfg3 in Hc.
    destruct S3 as (? & ? & ? & ? & ?).
    split; [destruct okd, okw, okp; reflexivity |].
    split; [repeat split; simpl; auto |].
    split; [simpl; rewrite D3; exact D1 |].
    split; [simpl; rewrite W3; exact W2 |].
    split; [simpl; exact Hy3 |].
    exists port, p. simpl. auto.
  - destruct H4 as [-> ->].
    exists okd, okw, true.
    split; [destruct okd, okw; reflexivity |].
    split; [exact S3 |].
    split; [rewrite D3; exact D1 |].
    split; [rewrite W3; exact W2 |].
    split; [exact Hy3 |].
    auto.
Qed.

End ConnectDevicesAnswer.

Section AfterConnecting.





(** X15. A configuration with the key [t_probe] but without the key
    [t_probe_port] cannot be connected: [connect_devices] tests the one key
    and reads the other, so it never returns an answer. *)
Theorem probe_port_key_is_required (l : lab) (self : Controller.t) :
  Controller.config self !! "t_probe" <> None ->
  Controller.config self !! "t_probe_port" = None ->
  returns (outcome (Controller.connect_devices l self)) = false.
Proof.
  intros Hflag Hport.
  destruct (outcome (Controller.connect_devices l self)) as [[ok c]|e] eqn:H;
    [| reflexivity].
  exfalso. apply connect_devices_blocks in H.
  destruct H as (okd & okw & okp & _ & _ & _ & _ & _ & Hp).
  destruct (Controller.config self !! "t_probe") as [flag|]; [| congruence].
  destruct Hp as (port & pr & Hpr & _). congruence.
Qed.

End AfterConnecting.

(** ** Displaying, logging and plotting *)

Section Display.

Lemma format_fixed_number (n : nat) (v : pyval) :
  returns (format_fixed n v) = is_number v.
Proof. destruct v; reflexivity. Qed.

Lemma display_returns (d : Reading.t) :
  returns (outcome (Controller.display d)) = displayable d.
Proof.
  unfold displayable.
  rewrite <- (format_fixed_number 2 (Reading.dry_flow d)).
  rewrite <- (format_fixed_number 2 (Reading.dry_setpoint d)).
  rewrite <- (format_fixed_number 2 (Reading.wet_flow d)).
  rewrite <- (format_fixed_number 2 (Reading.wet_setpoint d)).
  rewrite <- (format_fixed_number 2 (Reading.ambient_temp d)).
  rewrite <- (format_fixed_number 2 (Reading.dewpoint_temp d)).
  rewrite <- (format_fixed_number 1 (Reading.relative_humidity d)).
  unfold Controller.display, bind, print, lift, outcome.
  destruct (format_fixed 2 (Reading.dry_flow d)); simpl; [| reflexivity].
  destruct (format_fixed 2 (Reading.dry_setpoint d)); simpl; [| reflexivity].
  destruct (format_fixed 2 (Reading.wet_flow d)); simpl; [| reflexivity].
  destruct (format_fixed 2 (Reading.wet_setpoint d)); simpl; [| reflexivity].
  destruct (format_fixed 2 (Reading.ambient_temp d)); simpl; [| reflexivity].
  destruct (format_fixed 2 (Reading.dewpoint_temp d)); simpl; [| reflexivity].
  destruct (format_fixed 1 (Reading.relative_humidity d)); reflexivity.
Qed.

(** X16. The display of a reading in [start_monitoring] returns exactly
    when the seven channels it formats (the two flows, the two setpoints,
    the ambient temperature, the dewpoint and the humidity) are all
    numbers; one absent channel is enough to make it raise.  The cell
    temperature is not displayed and plays no part. *)
Theorem display_needs_seven_numbers (d : Reading.t) :
  (returns (outcome (Controller.display d)) = true <->
   displayable d = true) /\
  (forall temp,
     outcome (Controller.display (Reading.set_cell_temp temp d))
     = outcome (Controller.display d)) /\
  (Reading.dry_flow d = PyNone \/ Reading.dry_setpoint d = PyNone \/
   Reading.wet_flow d = PyNone \/ Reading.wet_setpoint d = PyNone \/
   Reading.ambient_temp d = PyNone \/ Reading.dewpoint_temp d = PyNone \/
   Reading.relative_humidity d = PyNone ->
   returns (outcome (Controller.display d)) = false).
Proof.
  split; [rewrite display_returns; tauto |].
  split; [intros temp; reflexivity |].
  rewrite display_returns. unfold displayable.
  intros [H | [H | [H | [H | [H | [H | H]]]]]]; rewrite H; simpl;
    rewrite ?andb_false_r; reflexivity.
Qed.

End Display.

Section SessionLog.

Variable b : Controller.bindings.
Variable interval : Q.






End SessionLog.

Section SessionRecord.

Variable b : Controller.bindings.
Variable interval : Q.
Variable bk : DynamicPlotter.backend.



Lemma start_monitoring_first_display (clock : Q) (first c : Controller.cycle)
    (rest : list Controller.cycle) (self : Controller.t) (d : Reading.t)
    (e : exn) :
  Controller.log_fields self <> [] ->
  frame_passes bk
    (Controller.read_all_sensors b clock (Controller.conditions first) self)
  = true ->
  Controller.read_all_sensors b (clock + Controller.busy first)
    (Controller.conditions c) self = Ok d ->
  outcome (Controller.display d) = Raise e ->
  let s := Controller.start_monitoring b bk interval clock first (c :: rest)
             self in
  Controller.sleeps s = [] /\
  Controller.starts s = [(clock + Controller.busy first)%Q] /\
  DataLogger.rows (Controller.logger (Controller.final s)) = [d] /\
  Controller.ended s = ending_of e /\
  Controller.running (Controller.final s) = false.
Proof.
  intros Hf Hpass Hread Hdisp.
  destruct (start_monitoring_enters b interval bk clock first (c :: rest)
              self Hpass) as (Hfin & Hst & Hsl & Hend).
  cbv zeta in *. rewrite Hfin, Hst, Hsl, Hend. clear Hfin Hst Hsl Hend.
  cbn [Controller.loop].
  change (Controller.running (loop_entry b bk clock first self)) with true.
  cbn [negb]. unfold Controller.cycle_body.
  change (Controller.read_all_sensors b (clock + Controller.busy first)
            (Controller.conditions c) (loop_entry b bk clock first self))
    with (Controller.read_all_sensors b (clock + Controller.busy first)
            (Controller.conditions c) self).
  rewrite Hread.
  unfold DataLogger.log_data.
  change (DataLogger.current_file
            (Controller.logger (loop_entry b bk clock first self)))
    with (Some clock).
  change (DataLogger.fieldnames
            (Controller.logger (loop_entry b bk clock first self)))
    with (Some (Controller.log_fields self)).
  destruct (Controller.log_fields self) as [|f fs]; [congruence |].
  unfold outcome in Hdisp.
  destruct (Controller.display d) as [out r]. simpl in Hdisp. subst r.
  destruct e; simpl; auto.
Qed.

Lemma reading_shape (now : Q) (l : lab) (self : Controller.t)
    (d : Reading.t) :
  Controller.read_all_sensors b now l self = Ok d ->
  flow_value (Reading.dry_flow d) /\ flow_value (Reading.dry_setpoint d) /\
  flow_value (Reading.wet_flow d) /\ flow_value (Reading.wet_setpoint d) /\
  (Controller.dry_mfc self = None -> Reading.dry_flow d = PyNone) /\
  (Controller.wet_mfc self = None -> Reading.wet_flow d = PyNone) /\
  (Controller.hygrometer self = None -> Reading.ambient_temp d = PyNone).
Proof.
  intros H. apply read_all_sensors_Ok in H.
  destruct H as (d1 & d2 & Hdry & Hwet & Hhyg & _).
  apply read_dry_Ok in Hdry. apply read_wet_Ok in Hwet.
  apply read_hygrometer_Ok in Hhyg.
  assert (H2 : flow_value (Reading.dry_flow d2) /\
               flow_value (Reading.dry_setpoint d2) /\
               flow_value (Reading.wet_flow d2) /\
               flow_value (Reading.wet_setpoint d2) /\
               (Controller.dry_mfc self = None ->
                Reading.dry_flow d2 = PyNone) /\
               (Controller.wet_mfc self = None ->
                Reading.wet_flow d2 = PyNone) /\
               Reading.ambient_temp d2 = PyNone).
  { unfold flow_value.
    destruct (Controller.dry_mfc self);
      [destruct Hdry as (? & ? & _ & _ & ->) | subst d1];
      (destruct (Controller.wet_mfc self);
        [destruct Hwet as (? & ? & _ & _ & ->) | subst d2]);
      simpl; repeat split; eauto; discriminate. }
  destruct H2 as (A1 & A2 & A3 & A4 & A5 & A6 & A7).
  destruct (Controller.hygrometer self) as [h|].
  - assert (Hd : d = d2 \/ exists x y z, d = Reading.set_hygro x y z d2).
    { destruct Hhyg as (r & _ & Hr). destruct r; [| auto].
      destruct Hr as [-> | ->]; eauto. }
    destruct Hd as [-> | (x & y & z & ->)]; simpl;
      repeat split; auto; discriminate.
  - subst d. repeat split; auto.
Qed.

Lemma display_of_none (d : Reading.t) :
  flow_value (Reading.dry_flow d) -> flow_value (Reading.dry_setpoint d) ->
  flow_value (Reading.wet_flow d) -> flow_value (Reading.wet_setpoint d) ->
  Reading.dry_flow d = PyNone \/ Reading.wet_flow d = PyNone \/
  Reading.ambient_temp d = PyNone ->
  outcome (Controller.display d) = Raise none_format_error.
Proof.
  unfold flow_value, Controller.display, bind, print, lift, outcome.
  intros [-> | (f1 & ->)]; [reflexivity |].
  intros [-> | (f2 & ->)]; [reflexivity |].
  intros [-> | (f3 & ->)]; [reflexivity |].
  intros [-> | (f4 & ->)]; [reflexivity |].
  intros [H | [H | ->]]; [discriminate H | discriminate H | reflexivity].
Qed.

(** X18. Monitoring needs the two flow controllers and the hygrometer.
    When one of them is not among the controller's devices, the plot has
    started and the first reading of the loop is taken, the reading is
    written to the log and then cannot be displayed: formatting the absent
    value raises, the session ends in its first cycle with that error, one
    row in the log and no sleep. *)
Theorem monitoring_needs_every_device (clock : Q)
    (first c : Controller.cycle) (rest : list Controller.cycle)
    (self : Controller.t) (d : Reading.t) :
  Controller.log_fields self <> [] ->
  Controller.dry_mfc self = None \/ Controller.wet_mfc self = None \/
  Controller.hygrometer self = None ->
  frame_passes bk
    (Controller.read_all_sensors b clock (Controller.conditions first) self)
  = true ->
  Controller.read_all_sensors b (clock + Controller.busy first)
    (Controller.conditions c) self = Ok d ->
  let s := Controller.start_monitoring b bk interval clock first (c :: rest)
             self in
  Controller.ended s = Controller.Crashed none_format_error /\
  Controller.sleeps s = [] /\
  Controller.starts s = [(clock + Controller.busy first)%Q] /\
  DataLogger.rows (Controller.logger (Controller.final s)) = [d] /\
  Controller.running (Controller.final s) = false.
Proof.
  intros Hf Hdev Hpass Hread.
  destruct (reading_shape _ _ _ _ Hread)
    as (A1 & A2 & A3 & A4 & A5 & A6 & A7).
  assert (Hdisp : outcome (Controller.display d) = Raise none_format_error).
  { apply display_of_none; auto. tauto. }
  destruct (start_monitoring_first_display clock first c rest self d _
              Hf Hpass Hread Hdisp) as (S1 & S2 & S3 & S4 & S5).
  cbv zeta. rewrite S1, S2, S3, S4, S5. repeat split.
Qed.

End SessionRecord.

(** ** Stopping *)

Section Stopping.

Lemma mfc_disconnect_closes (m : VogtlinMFC.t) :
  exists out m',
    VogtlinMFC.disconnect m = (out, Ok m') /\ mfc_open m' = false /\
    VogtlinMFC.disconnect m' = ([], Ok m') /\
    (mfc_open m = false -> out = [] /\ m' = m).
Proof.
  unfold VogtlinMFC.disconnect, mfc_open.
  destruct (VogtlinMFC.instrument m) as [i|] eqn:Hi.
  - destruct (Minimalmodbus.is_open i) eqn:Ho.
    + eexists _, _. split; [reflexivity |]. simpl.
      split; [reflexivity |]. split; [reflexivity |]. discriminate.
    + exists [], m. rewrite Hi, Ho. auto.
  - exists [], m. rewrite Hi. auto.
Qed.

Lemma hygrometer_disconnect_closes (h : DewMaster.t) :
  exists out h',
    DewMaster.disconnect h = (out, Ok h') /\ Hygro.port_open h' = false /\
    DewMaster.disconnect h' = ([], Ok h') /\
    (Hygro.port_open h = false -> out = [] /\ h' = h).
Proof.
  unfold DewMaster.disconnect, Hygro.port_open.
  destruct (DewMaster.ser h) as [s|] eqn:Hs.
  - destruct (Pyserial.is_open s) eqn:Ho.
    + eexists _, _. split; [reflexivity |]. simpl.
      split; [reflexivity |]. split; [reflexivity |]. discriminate.
    + exists [], h. rewrite Hs, Ho. auto.
  - exists [], h. rewrite Hs. auto.
Qed.

(** X19. [stop] always returns.  It leaves the controller not running and
    every device it holds closed, keeps the devices, the configuration, the
    log and the plot, and stopping again changes nothing more: the second
    [stop] prints the controller's own lines only and returns the same
    controller. *)
Theorem stop_closes_every_device (self : Controller.t) :
  exists c,
    outcome (Controller.stop self) = Ok c /\
    Controller.running c = false /\
    same_but_devices (Controller.with_running self false) c /\
    (forall m, Controller.dry_mfc c = Some m -> mfc_open m = false) /\
    (forall m, Controller.wet_mfc c = Some m -> mfc_open m = false) /\
    (forall h, Controller.hygrometer c = Some h ->
       Hygro.port_open h = false) /\
    (Controller.dry_mfc c = None <-> Controller.dry_mfc self = None) /\
    (Controller.wet_mfc c = None <-> Controller.wet_mfc self = None) /\
    (Controller.hygrometer c = None <-> Controller.hygrometer self = None) /\
    outcome (Controller.stop c) = Ok c /\
    forall ln, In ln (output (Controller.stop c)) ->
      In ln [ [Txt "Disconnecting devices..."];
              [Txt "Dry Air MFC disconnected"];
              [Txt "Wet Air MFC disconnected"];
              [Txt "DewMaster Hygrometer disconnected"];
              [Txt "Temperature Probe disconnected"] ].
Proof.
  destruct self as [cfg run dry wet hyg pr lg pl lf].
  unfold Controller.stop, Controller.disconnect_devices, same_but_devices.
  unfold bind, print, ret, outcome, output.
  cbn [Controller.with_running Controller.dry_mfc Controller.wet_mfc
       Controller.hygrometer Controller.t_probe Controller.config
       Controller.running Controller.logger Controller.plotter
       Controller.log_fields fst snd].
  destruct dry as [md|];
    [destruct (mfc_disconnect_closes md) as (od & md' & Ed & Cd & Id & _) |];
  (destruct wet as [mw|];
    [destruct (mfc_disconnect_closes mw) as (ow & mw' & Ew & Cw & Iw & _) |]);
  (destruct hyg as [h|];
    [destruct (hygrometer_disconnect_closes h)
       as (oh & h' & Eh & Ch & Ih & _) |]);
  destruct pr as [p|];
  cbn -[In VogtlinMFC.disconnect DewMaster.disconnect];
  rewrite ?Ed; cbn -[In VogtlinMFC.disconnect DewMaster.disconnect];
  rewrite ?Ew; cbn -[In VogtlinMFC.disconnect DewMaster.disconnect];
  rewrite ?Eh; cbn -[In VogtlinMFC.disconnect DewMaster.disconnect];
  (eexists; split; [reflexivity |]);
  cbn -[In VogtlinMFC.disconnect DewMaster.disconnect];
  rewrite ?Id; cbn -[In VogtlinMFC.disconnect DewMaster.disconnect];
  rewrite ?Iw; cbn -[In VogtlinMFC.disconnect DewMaster.disconnect];
  rewrite ?Ih; cbn -[In VogtlinMFC.disconnect DewMaster.disconnect];
  repeat split; try reflexivity; try discriminate;
  try (intros ? Hx; inversion Hx; subst; assumption);
  try (intros ln Hln; cbn in Hln |- *; tauto).
Qed.

End Stopping.

(** ** Setting the flows over the driver's own method *)

Section SetFlowRates.

Lemma set_one_by_role (what : string) (l l' : lab) (m : VogtlinMFC.t)
    (v : binary64) (out : list line) :
  Controller.set_one Controller.by_role what l (Some v) (Some m)
    = (out, Ok l') ->
  VogtlinMFC._write_float l m 6 v false = Ok l' /\
  out = [ [Txt "Setpoint updated to "; Fixed 3 (PyFloat v)];
          [Txt ("Failed to set " ++ what ++ " air flow")] ].
Proof.
  unfold Controller.set_one, Controller.by_role.
  cbn [Controller.set_flow]. unfold bind.
  destruct (VogtlinMFC.set_flow_setpoint l m v) as [o [[r l1]|e]] eqn:E;
    [| discriminate].
  apply set_flow_setpoint_Ok in E. destruct E as (Hw & -> & ->).
  cbn. intros H. inversion H; subst. auto.
Qed.

(** A float that was written is read back as the binary32 format keeps
    it. *)
Lemma written_float_read_back (l l' : lab) (m : VogtlinMFC.t) (a : Z)
    (x : binary64) (swap : bool) :
  wf64 x ->
  VogtlinMFC._write_float l m a x swap = Ok l' ->
  exists y, as_binary32 x = Ok y /\
    VogtlinMFC._read_float l' m a swap = Ok y.
Proof.
  intros Hwf Hw.
  pose proof (write_then_read_float _ _ _ _ _ _ Hwf Hw) as Hread.
  destruct (as_binary32 x) as [y|e] eqn:Hy; [eauto |].
  exfalso. unfold as_binary32 in Hy.
  destruct (narrow x) as [p|e'] eqn:Hn; [discriminate Hy |].
  unfold VogtlinMFC._write_float in Hw.
  rewrite (encode_raises x e' swap Hn) in Hw. discriminate.
Qed.

(** X20. With [set_flow] read as the driver's [set_flow_setpoint], a call
    of [set_flow_rates] for both controllers that returns has written both
    setpoints and reported both as failed: each controller holds its new
    setpoint as the binary32 format keeps it (the two being different
    stations), and the console shows the driver's confirmation, with the
    float as it was requested, followed by the controller's failure line,
    since [set_flow_setpoint] returns nothing for the controller to
    test. *)
Theorem written_setpoints_reported_as_failed (l l' : lab)
    (self : Controller.t) (md mw : VogtlinMFC.t)
    (i_d i_w : Minimalmodbus.Instrument) (vd vw : binary64)
    (out : list line) :
  Controller.dry_mfc self = Some md -> Controller.wet_mfc self = Some mw ->
  VogtlinMFC.instrument md = Some i_d ->
  VogtlinMFC.instrument mw = Some i_w ->
  (Minimalmodbus.port i_d, Minimalmodbus.address i_d)
    <> (Minimalmodbus.port i_w, Minimalmodbus.address i_w) ->
  wf64 vd -> wf64 vw ->
  Controller.set_flow_rates Controller.by_role l self (Some vd) (Some vw)
    = (out, Ok l') ->
  (exists yd, as_binary32 vd = Ok yd /\
     VogtlinMFC.get_setpoint l' md = Ok yd) /\
  (exists yw, as_binary32 vw = Ok yw /\
     VogtlinMFC.get_setpoint l' mw = Ok yw) /\
  out = [ [Txt "Setpoint updated to "; Fixed 3 (PyFloat vd)];
          [Txt "Failed to set dry air flow"];
          [Txt "Setpoint updated to "; Fixed 3 (PyFloat vw)];
          [Txt "Failed to set wet air flow"] ].
Proof.
  intros Hd Hw Hid Hiw Hne Hvd Hvw.
  unfold Controller.set_flow_rates. rewrite Hd, Hw. unfold bind.
  destruct (Controller.set_one Controller.by_role "dry" l (Some vd)
              (Some md)) as [o1 [l1|e]] eqn:E1; [| discriminate].
  destruct (Controller.set_one Controller.by_role "wet" l1 (Some vw)
              (Some mw)) as [o2 [l2|e]] eqn:E2; [| discriminate].
  intros H. inversion H; subst; clear H.
  apply set_one_by_role in E1. apply set_one_by_role in E2.
  destruct E1 as (W1 & ->). destruct E2 as (W2 & ->).
  destruct REG_values as (_ & _ & _ & R6 & _).
  unfold VogtlinMFC.get_setpoint, VogtlinMFC.read_quantity. rewrite R6.
  split.
  - rewrite (read_after_write_other_station _ _ _ _ _ _ _ _ _ _ _
               W2 Hiw Hid Hne).
    exact (written_float_read_back _ _ _ _ _ _ Hvd W1).
  - split; [exact (written_float_read_back _ _ _ _ _ _ Hvw W2)
           | reflexivity].
Qed.

End SetFlowRates.

(** ** From the command line to the monitoring loop *)

Section Startup.

Variable b : Controller.bindings.



(** X22. Without a usable configuration file ([--config] empty, the file
    missing or failing to load, or a module without [CONFIG]) [main] runs on
    its built-in defaults, which name no device: nothing is connected, the
    connection is taken as successful and no question is asked, requested
    flows are dropped without a word, and [main] goes on to monitor.  The
    monitoring then logs one row of absent values and ends in its first
    cycle on the display of that row. *)
Theorem no_config_file_cannot_monitor (args : Main.Args)
    (file : Main.config_file) (response : string) (l : lab) :
  Main.config args = "" \/ (forall CONFIG, file <> Main.Loaded CONFIG) ->
  let c0 := Controller.__init__ Main.defaults in
  let r := Main.start b args file response l in
  outcome r = Ok (Main.Monitor c0 l) /\
  ~ In [Txt "Continue anyway? (y/n): "] (output r) /\
  forall bk interval clock first cy rest,
    let s := Controller.start_monitoring b bk interval clock first
               (cy :: rest) c0 in
    Controller.ended s = Controller.Crashed none_format_error /\
    DataLogger.rows (Controller.logger (Controller.final s))
      = [Reading.fresh (clock + Controller.busy first)] /\
    Controller.sleeps s = [].
Proof.
  intros Hfile. cbv zeta.
  assert (Hcfg : exists o, Main.build_config args file = (o, Ok Main.defaults)
            /\ ~ In [Txt "Continue anyway? (y/n): "] o).
  { unfold Main.build_config.
    destruct (Main.config args) as [|a s0] eqn:Ha.
    - exists []. split; [reflexivity | intros []].
    - destruct Hfile as [Hx | Hx]; [discriminate Hx |].
      destruct file as [CONFIG| | |].
      + exfalso. exact (Hx CONFIG eq_refl).
      + exists []. split; [reflexivity | intros []].
      + eexists. split; [reflexivity |]. cbn.
        intros [H | [H | H]]; [discriminate H | discriminate H | exact H].
      + eexists. split; [reflexivity |]. cbn.
        intros [H | [H | H]]; [discriminate H | discriminate H | exact H]. }
  destruct Hcfg as (o & Hcfg & Ho).
  assert (Hconn : exists o2,
            Controller.connect_devices l (Controller.__init__ Main.defaults)
            = (o2, Ok (true, Controller.__init__ Main.defaults)) /\
            ~ In [Txt "Continue anyway? (y/n): "] o2).
  { eexists. split; [vm_compute; reflexivity |].
    cbn. intros []. }
  destruct Hconn as (o2 & Hconn & Ho2).
  assert (Hstart : exists o3,
            Main.start b args file response l
            = (((o ++ [Txt Main.rule]
                  :: [Txt "N-SIM Microscope Environmental Control System"]
                  :: [Txt Main.rule] :: o2) ++ o3)%list,
               Ok (Main.Monitor (Controller.__init__ Main.defaults) l))
            /\ o3 = []).
  { unfold Main.start. rewrite Hcfg.
    unfold bind, print, ret. cbv beta iota zeta. rewrite Hconn.
    cbv beta iota zeta. cbn [fst snd negb].
    unfold Controller.set_flow_rates, Controller.set_one, bind, ret.
    cbn [Controller.dry_mfc Controller.wet_mfc Controller.__init__].
    exists []. split; [| reflexivity].
    destruct (Main.dry_flow args), (Main.wet_flow args); cbn [app];
      rewrite ?app_nil_r; reflexivity. }
  destruct Hstart as (o3 & -> & ->).
  split; [reflexivity |]. split.
  - unfold output. cbn [fst]. rewrite app_nil_r, in_app_iff. cbn [In].
    intros [H | [H | [H | [H | H]]]];
      [exact (Ho H) | discriminate H | discriminate H | discriminate H
      | exact (Ho2 H)].
  - intros bk interval clock first cy rest.
    assert (Hread : Controller.read_all_sensors b
                      (clock + Controller.busy first)
                      (Controller.conditions cy)
                      (Controller.__init__ Main.defaults)
                    = Ok (Reading.fresh (clock + Controller.busy first)))
      by reflexivity.
    assert (Hdisp : outcome
                      (Controller.display
                         (Reading.fresh (clock + Controller.busy first)))
                    = Raise none_format_error) by reflexivity.
    destruct (start_monitoring_first_display b interval bk clock first cy
                rest (Controller.__init__ Main.defaults) _ _
                ltac:(discriminate) eq_refl Hread Hdisp)
      as (S1 & _ & S3 & S4 & _).
    cbv zeta. rewrite S1, S3, S4. repeat split.
Qed.

End Startup.

(** ** The further properties on the bench *)

Import Bench.

Lemma decode_then_encode_witness :
  VogtlinMFC.decode [49088; 0] false = Ok f_neg_1_5 /\
  is_nan64 f_neg_1_5 = false /\
  VogtlinMFC.encode f_neg_1_5 false = Ok [49088; 0].
Proof.
  assert (H1 : VogtlinMFC.decode [49088; 0] false = Ok f_neg_1_5)
    by (vm_compute; reflexivity).
  assert (H2 : is_nan64 f_neg_1_5 = false) by reflexivity.
  split; [exact H1 |]. split; [exact H2 |].
  exact (proj2 (proj2 (decode_then_encode [49088; 0] false f_neg_1_5 H1 H2))).
Defined.

Lemma encode_rounds_or_overflows_witness :
  wf64 f_1e39 /\ wf64 f_0_1 /\
  VogtlinMFC.encode f_1e39 true = Raise too_large /\
  exists (r0 r1 : Z) (y : binary64),
    VogtlinMFC.encode f_0_1 false = Ok [r0; r1] /\
    is_u16 r0 = true /\ is_u16 r1 = true /\
    VogtlinMFC.decode [r0; r1] false = Ok y /\
    as_binary32 f_0_1 = Ok y /\
    VogtlinMFC.encode y false = Ok [r0; r1].
Proof.
  assert (H1 : wf64 f_1e39) by (unfold wf64, f_1e39; simpl; lia).
  assert (H2 : wf64 f_0_1) by (unfold wf64, f_0_1; simpl; lia).
  split; [exact H1 |]. split; [exact H2 |].
  split; [exact (encode_rounds_or_overflows f_1e39 true H1)
         | exact (encode_rounds_or_overflows f_0_1 false H2)].
Defined.

Lemma decode_rejects_malformed_witness :
  (length [16320; 65536] <> 2%nat \/
   Exists (fun r => is_u16 r = false) [16320; 65536]) /\
  exists msg, VogtlinMFC.decode [16320; 65536] true = Raise (StructError msg).
Proof.
  assert (H : length [16320; 65536] <> 2%nat \/
              Exists (fun r => is_u16 r = false) [16320; 65536]).
  { right. apply Exists_cons_tl. apply Exists_cons_hd. reflexivity. }
  split; [exact H | exact (decode_rejects_malformed [16320; 65536] true H)].
Defined.

Lemma setpoint_write_touches_only_setpoint_witness :
  exists (m : VogtlinMFC.t) (out : list line) (r : pyval) (l' : lab),
    Controller.dry_mfc connected = Some m /\ wf64 f_0_1 /\
    VogtlinMFC.set_flow_setpoint all_well m f_0_1 = (out, Ok (r, l')) /\
    VogtlinMFC.get_setpoint l' m = Ok f_0_1_stored /\
    VogtlinMFC.get_flow l' m = VogtlinMFC.get_flow all_well m.
Proof.
  assert (Hwf : wf64 f_0_1) by (unfold wf64, f_0_1; simpl; lia).
  assert (Hkept : as_binary32 f_0_1 = Ok f_0_1_stored)
    by (vm_compute; reflexivity).
  destruct (Controller.dry_mfc connected) as [m|] eqn:Hm;
    [| exfalso; revert Hm; vm_compute; discriminate].
  destruct (VogtlinMFC.set_flow_setpoint all_well m f_0_1)
    as [out [[r l']|e]] eqn:Hset.
  - exists m, out, r, l'.
    split; [reflexivity |]. split; [exact Hwf |]. split; [exact Hset |].
    destruct (setpoint_write_touches_only_setpoint all_well l' m f_0_1 out r
                Hwf Hset) as ((y & Hy & H1) & _ & H2 & _).
    rewrite Hkept in Hy. injection Hy as <-.
    split; [exact H1 | exact H2].
  - exfalso.
    assert (Hb : forall m0, Controller.dry_mfc connected = Some m0 ->
              returns (outcome (VogtlinMFC.set_flow_setpoint all_well m0
                                  f_0_1)) = true).
    { intros m0 H0. vm_compute in H0. injection H0 as <-.
      vm_compute. reflexivity. }
    specialize (Hb m Hm). rewrite Hset in Hb. discriminate Hb.
Defined.

Lemma get_status_is_complete_witness :
  exists (m : VogtlinMFC.t) (d : gmap string pyval),
    Controller.dry_mfc connected = Some m /\
    MFC.get_status all_well m = Ok d /\
    forall key, d !! key <> None ->
      In key ["flow"; "setpoint"; "temperature"; "valve_signal"].
Proof.
  destruct (Controller.dry_mfc connected) as [m|] eqn:Hm;
    [| exfalso; revert Hm; vm_compute; discriminate].
  destruct (MFC.get_status all_well m) as [d|e] eqn:Hst.
  - exists m, d. split; [reflexivity |]. split; [exact Hst |].
    destruct (get_status_is_complete all_well m d Hst)
      as (f & sp & t & v & _ & _ & _ & _ & _ & _ & _ & _ & Hkeys).
    exact Hkeys.
  - exfalso.
    assert (Hb : forall m0, Controller.dry_mfc connected = Some m0 ->
              returns (MFC.get_status all_well m0) = true).
    { intros m0 H0. vm_compute in H0. injection H0 as <-.
      vm_compute. reflexivity. }
    specialize (Hb m Hm). rewrite Hst in Hb. discriminate Hb.
Defined.

Lemma with_mfc_always_raises_witness :
  exists m1 : VogtlinMFC.t,
    outcome (VogtlinMFC.connect all_well
               (new_dry (Controller.__init__ config) (PyStr "/dev/ttyS3")))
      = Ok (true, m1) /\
    outcome (snd (MFC.with_ all_well
                    (new_dry (Controller.__init__ config) (PyStr "/dev/ttyS3"))
                    (fun m => lift (VogtlinMFC.get_flow all_well m))))
      = Raise (AttributeError "VogtlinMFC" "close").
Proof.
  eexists.
  assert (H : outcome (VogtlinMFC.connect all_well
                (new_dry (Controller.__init__ config) (PyStr "/dev/ttyS3")))
              = Ok (true, _)) by (vm_compute; reflexivity).
  split; [exact H |].
  exact (proj1 (proj2 (with_mfc_always_raises all_well _ _ true
                         (fun m => lift (VogtlinMFC.get_flow all_well m)) H))).
Defined.

Lemma parse_is_complete_witness :
  exists d : gmap string pyval,
    DewMaster.parse sample = Ok (Some d) /\
    (forall key, d !! key <> None -> In key DewMaster.group_names) /\
    DewMaster.has_field "RH" sample.
Proof.
  destruct (DewMaster.parse sample) as [[d|]|e] eqn:Hp.
  - exists d. split; [reflexivity |].
    destruct (parse_is_complete sample d Hp) as (_ & Hkeys & _ & _ & Hrh).
    split; [exact Hkeys | exact Hrh].
  - exfalso.
    assert (Hb : parsed_value (DewMaster.parse sample) "rh" <> None)
      by (vm_compute; discriminate).
    rewrite Hp in Hb. exact (Hb eq_refl).
  - exfalso.
    assert (Hb : returns (DewMaster.parse sample) = true)
      by (vm_compute; reflexivity).
    rewrite Hp in Hb. discriminate Hb.
Defined.

Lemma parse_raises_only_value_error_witness :
  DewMaster.parse
    "11/13/25  13:41:50   DP =    2.0.1 C  AT  =   24.1 C  RH  =   23.5"
  = Raise (ValueError "could not convert string to float") /\
  DewMaster.has_field "DP"
    "11/13/25  13:41:50   DP =    2.0.1 C  AT  =   24.1 C  RH  =   23.5".
Proof.
  assert (H : DewMaster.parse
                "11/13/25  13:41:50   DP =    2.0.1 C  AT  =   24.1 C  RH  =   23.5"
              = Raise (ValueError "could not convert string to float"))
    by (vm_compute; reflexivity).
  split; [exact H |].
  exact (proj1 (proj2 (parse_raises_only_value_error _ _ H))).
Defined.

Lemma poll_takes_first_match_witness :
  Forall (fun x => DewMaster.parse x = Ok None) [""; sample_without_rh] /\
  DewMaster.parse sample <> Ok None /\
  DewMaster.first_parsed
    ([""; sample_without_rh] ++ sample :: ["DP = 1 C AT = 2 C RH = 3"])%list
  = DewMaster.parse sample.
Proof.
  assert (H1 : Forall (fun x => DewMaster.parse x = Ok None)
                 [""; sample_without_rh]).
  { apply Forall_cons; split; [vm_compute; reflexivity |].
    apply Forall_cons; split; [vm_compute; reflexivity |].
    apply Forall_nil. exact I. }
  assert (H2 : DewMaster.parse sample <> Ok None).
  { intros Hp.
    assert (Hb : parsed_value (DewMaster.parse sample) "rh" <> None)
      by (vm_compute; discriminate).
    rewrite Hp in Hb. exact (Hb eq_refl). }
  split; [exact H1 |]. split; [exact H2 |].
  exact (poll_takes_first_match [""; sample_without_rh]
           ["DP = 1 C AT = 2 C RH = 3"] sample H1 H2).
Defined.

Lemma with_hygrometer_releases_witness :
  outcome (snd (DewMaster.connect all_well
                  (DewMaster.new (PyStr "/dev/ttyS5") (PyInt 19200))))
  = Ok true /\
  Hygro.port_open
    (fst (Hygro.with_ all_well
            (DewMaster.new (PyStr "/dev/ttyS5") (PyInt 19200))
            (fun h => lift (DewMaster.poll all_well h)))) = false.
Proof.
  assert (H : outcome (snd (DewMaster.connect all_well
                (DewMaster.new (PyStr "/dev/ttyS5") (PyInt 19200))))
              = Ok true) by (vm_compute; reflexivity).
  split; [exact H |].
  exact (proj1 (proj2 (proj1 (with_hygrometer_releases all_well
                                (DewMaster.new (PyStr "/dev/ttyS5")
                                   (PyInt 19200))
                                (fun h => lift (DewMaster.poll all_well h)))
                         true H))).
Defined.

Lemma read_stream_prints_what_parses_witness :
  exists (s : Pyserial.Serial) (raw : list string),
    (0 < 10)%Q /\
    DewMaster.ser hygrometer = Some s /\
    Pyserial.readlines all_well s = Ok raw /\
    Forall (fun text =>
              returns (DewMaster.parse (Builtins.strip text)) = true) raw /\
    Hygro.read_stream all_well hygrometer 10
    = (([Txt "Reading continuous output for "; Val (PyFloatDec 10);
         Txt "s..."]
          :: omap streamed raw) ++ [[Txt "Done."]], Ok tt)%list.
Proof.
  eexists _, _.
  assert (Hd : (0 < 10)%Q) by reflexivity.
  assert (Hs : DewMaster.ser hygrometer = Some _) by reflexivity.
  assert (Hr : Pyserial.readlines all_well
                 {| Pyserial.port := "/dev/ttyS5";
                    Pyserial.baudrate := PyInt 19200;
                    Pyserial.timeout := 1; Pyserial.is_open := true |}
               = Ok _) by (vm_compute; reflexivity).
  assert (Hf : Forall (fun text =>
                 returns (DewMaster.parse (Builtins.strip text)) = true)
                 [""; sample]).
  { apply Forall_cons; split; [vm_compute; reflexivity |].
    apply Forall_cons; split; [vm_compute; reflexivity |].
    apply Forall_nil. exact I. }
  split; [exact Hd |].
  split; [exact Hs |]. split; [exact Hr |]. split; [exact Hf |].
  exact (read_stream_prints_what_parses all_well hygrometer _ _ 10
           Hd Hs Hr Hf).
Defined.



Lemma probe_port_key_is_required_witness :
  Controller.config
    (Controller.__init__ (<["t_probe" := PyBool true]> config))
    !! "t_probe" <> None /\
  Controller.config
    (Controller.__init__ (<["t_probe" := PyBool true]> config))
    !! "t_probe_port" = None /\
  returns (outcome (Controller.connect_devices all_well
                      (Controller.__init__
                         (<["t_probe" := PyBool true]> config)))) = false.
Proof.
  assert (H1 : Controller.config
                 (Controller.__init__ (<["t_probe" := PyBool true]> config))
                 !! "t_probe" <> None) by (vm_compute; discriminate).
  assert (H2 : Controller.config
                 (Controller.__init__ (<["t_probe" := PyBool true]> config))
                 !! "t_probe_port" = None) by (vm_compute; reflexivity).
  split; [exact H1 |]. split; [exact H2 |].
  exact (probe_port_key_is_required all_well _ H1 H2).
Defined.


Lemma monitoring_needs_every_device_witness :
  Controller.log_fields connected_mfcs <> [] /\
  Controller.hygrometer connected_mfcs = None /\
  Controller.read_all_sensors Controller.by_role
    (0 + Controller.busy (at_once all_well))
    (Controller.conditions (cycle_in all_well)) connected_mfcs
    = Ok reading_mfcs /\
  Controller.ended
    (Controller.start_monitoring Controller.by_role DynamicPlotter.Headless
       5 0 (at_once all_well) [cycle_in all_well; cycle_in all_well]
       connected_mfcs)
  = Controller.Crashed none_format_error.
Proof.
  assert (H1 : Controller.log_fields connected_mfcs <> [])
    by (vm_compute; discriminate).
  assert (H2 : Controller.hygrometer connected_mfcs = None)
    by (vm_compute; reflexivity).
  assert (H3 : Controller.read_all_sensors Controller.by_role
                 (0 + Controller.busy (at_once all_well))
                 (Controller.conditions (cycle_in all_well)) connected_mfcs
               = Ok reading_mfcs)
    by (vm_compute; reflexivity).
  assert (H4 : frame_passes DynamicPlotter.Headless
                 (Controller.read_all_sensors Controller.by_role 0
                    (Controller.conditions (at_once all_well))
                    connected_mfcs) = true)
    by (vm_compute; reflexivity).
  split; [exact H1 |]. split; [exact H2 |]. split; [exact H3 |].
  exact (proj1 (monitoring_needs_every_device Controller.by_role 5
                  DynamicPlotter.Headless 0 (at_once all_well)
                  (cycle_in all_well) [cycle_in all_well] connected_mfcs
                  reading_mfcs H1 (or_intror (or_intror H2)) H4 H3)).
Defined.

Lemma written_setpoints_reported_as_failed_witness :
  exists (md mw : VogtlinMFC.t) (out : list line) (l' : lab),
    Controller.dry_mfc connected = Some md /\
    Controller.wet_mfc connected = Some mw /\
    Controller.set_flow_rates Controller.by_role all_well connected
      (Some f_10_3) (Some f_1_5) = (out, Ok l') /\
    VogtlinMFC.get_setpoint l' md = Ok f_10_3_stored /\
    VogtlinMFC.get_setpoint l' mw = Ok f_1_5.
Proof.
  assert (Hvd : wf64 f_10_3) by (unfold wf64, f_10_3; simpl; lia).
  assert (Hvw : wf64 f_1_5) by (unfold wf64, f_1_5; simpl; lia).
  assert (Kd : as_binary32 f_10_3 = Ok f_10_3_stored)
    by (vm_compute; reflexivity).
  assert (Kw : as_binary32 f_1_5 = Ok f_1_5) by (vm_compute; reflexivity).
  destruct (Controller.dry_mfc connected) as [md|] eqn:Hd;
    [| exfalso; revert Hd; vm_compute; discriminate].
  destruct (Controller.wet_mfc connected) as [mw|] eqn:Hw;
    [| exfalso; revert Hw; vm_compute; discriminate].
  destruct (VogtlinMFC.instrument md) as [i_d|] eqn:Hid;
    [| exfalso; vm_compute in Hd; injection Hd as <-; discriminate Hid].
  destruct (VogtlinMFC.instrument mw) as [i_w|] eqn:Hiw;
    [| exfalso; vm_compute in Hw; injection Hw as <-; discriminate Hiw].
  assert (Hne : (Minimalmodbus.port i_d, Minimalmodbus.address i_d)
                <> (Minimalmodbus.port i_w, Minimalmodbus.address i_w)).
  { vm_compute in Hd. injection Hd as <-. vm_compute in Hw.
    injection Hw as <-. injection Hid as <-. injection Hiw as <-.
    discriminate. }
  destruct (Controller.set_flow_rates Controller.by_role all_well connected
              (Some f_10_3) (Some f_1_5)) as [out [l'|e]] eqn:Hset.
  - exists md, mw, out, l'.
    split; [reflexivity |]. split; [reflexivity |]. split; [reflexivity |].
    destruct (written_setpoints_reported_as_failed all_well l' connected
                md mw i_d i_w f_10_3 f_1_5 out Hd Hw Hid Hiw Hne Hvd Hvw Hset)
      as ((yd & Yd & H1) & (yw & Yw & H2) & _).
    rewrite Kd in Yd. injection Yd as <-.
    rewrite Kw in Yw. injection Yw as <-.
    split; [exact H1 | exact H2].
  - exfalso.
    assert (Hb : returns (outcome (Controller.set_flow_rates
                   Controller.by_role all_well connected
                   (Some f_10_3) (Some f_1_5))) = true)
      by (vm_compute; reflexivity).
    rewrite Hset in Hb. discriminate Hb.
Defined.


Lemma no_config_file_cannot_monitor_witness :
  (Main.config {| Main.config := "config.py"; Main.interval := 1;
                  Main.dry_flow := Some f_1_5; Main.wet_flow := None |} = ""
   \/ forall CONFIG, Main.NotFound <> Main.Loaded CONFIG) /\
  outcome (Main.start Controller.by_role
             {| Main.config := "config.py"; Main.interval := 1;
                Main.dry_flow := Some f_1_5; Main.wet_flow := None |}
             Main.NotFound "" all_well)
  = Ok (Main.Monitor (Controller.__init__ Main.defaults) all_well).
Proof.
  assert (H : Main.config
                {| Main.config := "config.py"; Main.interval := 1;
                   Main.dry_flow := Some f_1_5; Main.wet_flow := None |} = ""
              \/ forall CONFIG, Main.NotFound <> Main.Loaded CONFIG)
    by (right; intros CONFIG; discriminate).
  split; [exact H |].
  exact (proj1 (no_config_file_cannot_monitor Controller.by_role _
                  Main.NotFound "" all_well H)).
Defined.
